(** * Change-data-capture core of rdbms_graph_rag: a shallow embedding

    The development follows the Python sources under [src/cdc]:
    - [base.py]              the normalized [ChangeEvent] model,
    - [postgres_listener.py] the wal2json parser and position tracking,
    - [manager.py]           registries, batching, dispatch and metrics,
    - [handlers.py]          the graph-sync handler.

    Python values are embedded as the inductive type [pyval]; Python
    exceptions as the error monad [exc]; the mutable manager as explicit
    state passing that also records a trace of lock and handler actions. *)

From Stdlib Require Import ZArith List String Ascii Bool Lia.
From Stdlib Require Import DecimalString.
From Stdlib Require Import Floats.PrimFloat Floats.FloatOps Floats.SpecFloat.
From Stdlib Require Import Permutation.
Import ListNotations.

Local Open Scope string_scope.
Local Open Scope list_scope.

(** ** Python values and exceptions *)

Module Py.

(** The exception classes that occur in the modelled code. *)
Inductive exn_class : Type :=
| TypeError
| KeyError
| IndexError
| AttributeError
| JSONDecodeError
| CDCError
| CDCSetupError
| OtherException (name : string).

(** An exception instance: its class and the text [str(e)]. *)
Record exn : Type := Exn { exn_cls : exn_class; exn_str : string }.

(** A computation that returns a value or raises. *)
Inductive exc (A : Type) : Type :=
| Ret (a : A)
| Raise (e : exn).
Arguments Ret {A} a.
Arguments Raise {A} e.

Definition bind {A B : Type} (c : exc A) (k : A -> exc B) : exc B :=
  match c with
  | Ret a => k a
  | Raise e => Raise e
  end.

Notation "x <- c ;; k" := (bind c (fun x => k))
  (at level 61, c at next level, right associativity).

(** Values that [json.loads] produces and that the code stores in events.
    A [PDict] keeps its items in insertion order. *)
#[local] Unset Elimination Schemes.
Inductive pyval : Type :=
| PNone
| PBool (b : bool)
| PInt (z : Z)
| PFloat (f : float)
| PStr (s : string)
| PList (l : list pyval)
| PDict (d : list (pyval * pyval)).
#[local] Set Elimination Schemes.

Definition pydict : Type := list (pyval * pyval).

(** [bool(v)]: Python truthiness. *)
Definition truthy (v : pyval) : bool :=
  match v with
  | PNone => false
  | PBool b => b
  | PInt z => negb (Z.eqb z 0)
  | PFloat f => negb (PrimFloat.eqb f 0%float)
  | PStr s => negb (String.eqb s EmptyString)
  | PList l => match l with [] => false | _ :: _ => true end
  | PDict d => match d with [] => false | _ :: _ => true end
  end.

(** [hash(v)] succeeds: lists and dicts are unhashable. *)
Definition hashable (v : pyval) : bool :=
  match v with
  | PList _ | PDict _ => false
  | _ => true
  end.

(** Exact comparison of an int with a float, as Python does it. *)
Definition int_eq_float (z : Z) (f : float) : bool :=
  match Prim2SF f with
  | S754_zero _ => Z.eqb z 0
  | S754_finite s m e =>
      let v := if s then Z.neg m else Z.pos m in
      if (0 <=? e)%Z then Z.eqb z (v * 2 ^ e) else Z.eqb (z * 2 ^ (- e)) v
  | _ => false
  end.

(** [a == b] on hashable values: None, the numeric tower (bool, int,
    float compare by value) and str. *)
Definition key_eqb (a b : pyval) : bool :=
  match a, b with
  | PNone, PNone => true
  | PStr s, PStr t => String.eqb s t
  | PBool x, PBool y => Bool.eqb x y
  | PBool x, PInt z | PInt z, PBool x => Z.eqb (Z.b2z x) z
  | PInt x, PInt y => Z.eqb x y
  | PBool x, PFloat f | PFloat f, PBool x => int_eq_float (Z.b2z x) f
  | PInt z, PFloat f | PFloat f, PInt z => int_eq_float z f
  | PFloat f, PFloat g => PrimFloat.eqb f g
  | _, _ => false
  end.

(** Lookup of a hashable key. *)
Fixpoint dict_get (k : pyval) (d : pydict) : option pyval :=
  match d with
  | [] => None
  | (k', v) :: d' => if key_eqb k' k then Some v else dict_get k d'
  end.

(** [d[k] = v]: an existing key keeps its place (and its key object), a
    new key goes to the end. *)
Fixpoint dict_set (k v : pyval) (d : pydict) : pydict :=
  match d with
  | [] => [(k, v)]
  | (k', v') :: d' =>
      if key_eqb k' k then (k', v) :: d' else (k', v') :: dict_set k v d'
  end.

Definition dict_has (k : pyval) (d : pydict) : bool :=
  match dict_get k d with Some _ => true | None => false end.

(** [s in v] for a str literal [s]: key test on a dict, element test on a
    list, substring test on a str, TypeError on anything else. *)
Definition str_in (s : string) (v : pyval) : exc bool :=
  match v with
  | PDict d => Ret (dict_has (PStr s) d)
  | PList l =>
      Ret (existsb (fun x => match x with PStr t => String.eqb s t | _ => false end) l)
  | PStr t => Ret (match index 0 s t with Some _ => true | None => false end)
  | _ => Raise (Exn TypeError "argument is not iterable")
  end.

(** [v[s]] for a str literal [s]. *)
Definition subscript_str (v : pyval) (s : string) : exc pyval :=
  match v with
  | PDict d =>
      match dict_get (PStr s) d with
      | Some x => Ret x
      | None => Raise (Exn KeyError s)
      end
  | PList _ => Raise (Exn TypeError "list indices must be integers or slices, not str")
  | PStr _ => Raise (Exn TypeError "string indices must be integers")
  | _ => Raise (Exn TypeError "object is not subscriptable")
  end.

(** [v[0]]. *)
Definition subscript_0 (v : pyval) : exc pyval :=
  match v with
  | PList (x :: _) => Ret x
  | PList [] => Raise (Exn IndexError "list index out of range")
  | PStr (String c _) => Ret (PStr (String c EmptyString))
  | PStr EmptyString => Raise (Exn IndexError "string index out of range")
  | PDict d =>
      match dict_get (PInt 0) d with
      | Some x => Ret x
      | None => Raise (Exn KeyError "0")
      end
  | _ => Raise (Exn TypeError "object is not subscriptable")
  end.

(** [v.get(k, default)]: only a dict has the method. *)
Definition meth_get (v : pyval) (k : string) (default : pyval) : exc pyval :=
  match v with
  | PDict d =>
      match dict_get (PStr k) d with
      | Some x => Ret x
      | None => Ret default
      end
  | _ => Raise (Exn AttributeError "object has no attribute 'get'")
  end.

Fixpoint chars (s : string) : list pyval :=
  match s with
  | EmptyString => []
  | String c s' => PStr (String c EmptyString) :: chars s'
  end.

(** [for x in v]: the elements of a list, the characters of a str, the
    keys of a dict. *)
Definition py_iter (v : pyval) : exc (list pyval) :=
  match v with
  | PList l => Ret l
  | PStr s => Ret (chars s)
  | PDict d => Ret (map fst d)
  | _ => Raise (Exn TypeError "object is not iterable")
  end.

(** [str(n)] for an int. *)
Definition str_int (n : Z) : string := NilZero.string_of_int (Z.to_int n).

End Py.

(** ** base.py: the normalized change event *)

Module Base.
Import Py.

Inductive ChangeOperation : Type :=
| INSERT
| UPDATE
| DELETE
| TRUNCATE
| DDL.

Definition ChangeOperation_value (op : ChangeOperation) : string :=
  match op with
  | INSERT => "INSERT"
  | UPDATE => "UPDATE"
  | DELETE => "DELETE"
  | TRUNCATE => "TRUNCATE"
  | DDL => "DDL"
  end.

(** The dataclass [ChangeEvent].  Python does not enforce the field
    annotations, so a field that the listener fills from the decoded
    payload holds whatever value the payload had. *)
Record ChangeEvent (datetime : Type) : Type := {
  operation : ChangeOperation;
  table : pyval;
  schema : pyval;
  timestamp : datetime;
  database_type : string;
  old_data : option pydict;
  new_data : option pydict;
  primary_key : option pydict;
  ddl_statement : option string;
  transaction_id : pyval;
  lsn : pyval;
  position : option string;
  metadata : pydict
}.
Arguments operation {datetime} _.
Arguments table {datetime} _.
Arguments schema {datetime} _.
Arguments timestamp {datetime} _.
Arguments database_type {datetime} _.
Arguments old_data {datetime} _.
Arguments new_data {datetime} _.
Arguments primary_key {datetime} _.
Arguments ddl_statement {datetime} _.
Arguments transaction_id {datetime} _.
Arguments lsn {datetime} _.
Arguments position {datetime} _.
Arguments metadata {datetime} _.

(** What the code takes from the Python runtime and its libraries: the
    world [W] outside the process (the source database, the downstream
    stores, the wall clock) and the library functions that are called. *)
Class Runtime : Type := {
  W : Type;
  datetime : Type;
  (** [datetime.now()] *)
  datetime_now : W -> datetime;
  (** [str(v)] and [str(t)], as f-strings format them *)
  format_value : pyval -> string;
  format_datetime : datetime -> string;
  (** [json.loads]: the decoded document, or the exception it raises *)
  json_loads : string -> exc pyval;
  (** [dateutil.parser.parse]; [None] when the call raises *)
  date_parse : pyval -> option datetime;
  (** [msg.cursor.send_feedback(flush_lsn=...)] *)
  send_feedback : Z -> W -> W * option exn
}.

(** [ChangeEvent.__str__]. *)
Definition ChangeEvent_str `{Runtime} (e : ChangeEvent datetime) : string :=
  ("ChangeEvent(" ++ ChangeOperation_value (operation e) ++ " on "
   ++ format_value (schema e) ++ "." ++ format_value (table e)
   ++ " at " ++ format_datetime (timestamp e) ++ ")")%string.

End Base.

(** ** postgres_listener.py: the replication listener *)

Module PostgresListener.
Import Py Base.

Inductive log_level : Type := DEBUG | INFO | WARNING | ERROR.

(** A log record: its level and the fixed part of its message. *)
Definition log_entry : Type := (log_level * string)%type.

(** The fields of the listener that the modelled methods read or write. *)
Record PostgreSQLCDCListener : Type := {
  slot_name : string;
  publication_name : string;
  is_running : bool;
  current_position : option string
}.

Definition set_current_position (p : option string)
    (self : PostgreSQLCDCListener) : PostgreSQLCDCListener :=
  {| slot_name := slot_name self;
     publication_name := publication_name self;
     is_running := is_running self;
     current_position := p |}.

(** A replication message: the decoded payload and its WAL offset. *)
Record message : Type := {
  payload : string;
  data_start : Z
}.

Definition opt_str (o : option string) : pyval :=
  match o with
  | Some s => PStr s
  | None => PNone
  end.

Definition is_str (s : string) (v : pyval) : bool :=
  match v with
  | PStr t => String.eqb s t
  | _ => false
  end.

(** [action_map.get(action)]: hashing an unhashable action raises. *)
Definition action_map_get (action : pyval) : exc (option ChangeOperation) :=
  if hashable action then
    Ret (if is_str "I" action then Some INSERT
         else if is_str "U" action then Some UPDATE
         else if is_str "D" action then Some DELETE
         else if is_str "T" action then Some TRUNCATE
         else None)
  else Raise (Exn TypeError "unhashable type").

(** [{col['name']: col.get('value') for col in items}], item by item. *)
Fixpoint build_row_items (items : list pyval) (acc : pydict) : exc pydict :=
  match items with
  | [] => Ret acc
  | col :: rest =>
      k <- subscript_str col "name" ;;
      v <- meth_get col "value" PNone ;;
      if hashable k then build_row_items rest (dict_set k v acc)
      else Raise (Exn TypeError "unhashable type")
  end.

Definition build_row (cols : pyval) : exc pydict :=
  items <- py_iter cols ;;
  build_row_items items [].

(** [_extract_pk_from_data]: assumes a column named [id]. *)
Definition _extract_pk_from_data (data : pydict) : option pydict :=
  match dict_get (PStr "id") data with
  | Some v => Some [(PStr "id", v)]
  | None => None
  end.

(** The change record inside the decoded payload: the first element of a
    [change] envelope, or the payload itself. [None] is the early
    [return None] on an empty envelope. *)
Definition select_change (data : pyval) : exc (option pyval) :=
  has <- str_in "change" data ;;
  if has then
    c <- subscript_str data "change" ;;
    if negb (truthy c) then Ret None
    else x <- subscript_0 c ;; Ret (Some x)
  else Ret (Some data).

(** [change.get('action') or change.get('kind')]. *)
Definition action_of (change : pyval) : exc pyval :=
  a <- meth_get change "action" PNone ;;
  if truthy a then Ret a else meth_get change "kind" PNone.

(** [primary_key] from [old_data] and [new_data]. *)
Definition derive_primary_key (old_data new_data : option pydict) : option pydict :=
  match old_data with
  | Some ((_ :: _) as od) => Some od
  | _ =>
      match new_data with
      | Some ((_ :: _) as nd) => _extract_pk_from_data nd
      | _ => None
      end
  end.

Section Parser.

Context `{Runtime}.

(** A column array, when the change has the key. *)
Definition optional_row (change : pyval) (key : string) : exc (option pydict) :=
  has <- str_in key change ;;
  if has then
    cols <- subscript_str change key ;;
    d <- build_row cols ;;
    Ret (Some d)
  else Ret None.

(** The body of [_parse_wal2json] after the change record is selected. *)
Definition parse_change (self : PostgreSQLCDCListener) (now : datetime)
    (data change : pyval) : exc (list log_entry * option (ChangeEvent datetime)) :=
  action <- action_of change ;;
  if is_str "B" action || is_str "C" action then
    Ret ([(DEBUG, "Ignoring transaction control message")], None)
  else
    operation <- action_map_get action ;;
    match operation with
    | None => Ret ([(WARNING, "Unknown action")], None)
    | Some op =>
        schema <- meth_get change "schema" (PStr "public") ;;
        table <- meth_get change "table" PNone ;;
        if negb (truthy table) then
          Ret ([(WARNING, "No table name in wal2json output")], None)
        else
          new_data <- optional_row change "columns" ;;
          old_data <- optional_row change "identity" ;;
          let primary_key := derive_primary_key old_data new_data in
          has_ts <- str_in "timestamp" change ;;
          ts <- (if has_ts then
                   t <- subscript_str change "timestamp" ;;
                   Ret (match date_parse t with Some d => d | None => now end)
                 else Ret now) ;;
          l <- meth_get change "lsn" PNone ;;
          xid <- meth_get data "xid" PNone ;;
          nextlsn <- meth_get data "nextlsn" PNone ;;
          Ret ([], Some
            {| operation := op;
               table := table;
               schema := schema;
               timestamp := ts;
               database_type := "postgres";
               old_data := old_data;
               new_data := new_data;
               primary_key := primary_key;
               ddl_statement := None;
               transaction_id := xid;
               lsn := if truthy l then l else opt_str (current_position self);
               position := None;
               metadata :=
                 [(PStr "publication", PStr (publication_name self));
                  (PStr "slot", PStr (slot_name self));
                  (PStr "plugin", PStr "wal2json");
                  (PStr "nextlsn", nextlsn)] |})
    end.

(** The [try] block of [_parse_wal2json]. *)
Definition parse_try (self : PostgreSQLCDCListener) (now : datetime)
    (payload : string) : exc (list log_entry * option (ChangeEvent datetime)) :=
  data <- json_loads payload ;;
  sel <- select_change data ;;
  match sel with
  | None => Ret ([], None)
  | Some change => parse_change self now data change
  end.

(** [_parse_wal2json]: both [except] clauses log and return [None].  The
    result pairs the log records written with the returned event. *)
Definition _parse_wal2json (self : PostgreSQLCDCListener) (now : datetime)
    (payload : string) : list log_entry * option (ChangeEvent datetime) :=
  match parse_try self now payload with
  | Ret r => r
  | Raise e =>
      match exn_cls e with
      | JSONDecodeError =>
          ([(ERROR, "Error parsing wal2json JSON"); (DEBUG, "Payload")], None)
      | _ =>
          ([(ERROR, "Error parsing wal2json output"); (DEBUG, "Payload")], None)
      end
  end.

(** *** Message processing *)

Definition callback_t : Type := ChangeEvent datetime -> W -> W * option exn.

(** [_process_message]: the position is assigned before the payload is
    parsed; every exception of the body is caught and logged. *)
Definition _process_message (self : PostgreSQLCDCListener) (msg : message)
    (callback : callback_t) (w : W)
    : PostgreSQLCDCListener * W * list log_entry :=
  let log0 := [(DEBUG, "Processing message payload")] in
  let self1 := set_current_position (Some (str_int (data_start msg))) self in
  let '(plog, event) := _parse_wal2json self1 (datetime_now w) (payload msg) in
  let '(w1, raised, log1) :=
    match event with
    | Some ev =>
        let '(w', r) := callback ev w in
        (w', r, [(INFO, "Parsed event")])
    | None => (w, None, [(DEBUG, "No event parsed from payload")])
    end in
  match raised with
  | Some _ => (self1, w1, log0 ++ plog ++ log1 ++ [(ERROR, "Error processing message")])
  | None =>
      let '(w2, r) := send_feedback (data_start msg) w1 in
      match r with
      | None => (self1, w2, log0 ++ plog ++ log1)
      | Some _ => (self1, w2, log0 ++ plog ++ log1 ++ [(ERROR, "Error processing message")])
      end
  end.

Definition get_current_position (self : PostgreSQLCDCListener) : option string :=
  current_position self.

Definition resume_from_position (self : PostgreSQLCDCListener) (position : string)
    : PostgreSQLCDCListener :=
  set_current_position (Some position) self.

End Parser.

End PostgresListener.

(** ** A reference JSON decoder

    [json.loads] belongs to the Python library, so the listener above takes
    it as a parameter.  For worked examples this module gives a decoder of
    the JSON documents whose numbers are integers and whose strings use no
    [\u] escape; on a document outside that fragment it raises
    [NotImplementedError], never a decode error. *)

Module Json.
Import Py.

Definition decode_error {A : Type} (why : string) : exc A :=
  Raise (Exn JSONDecodeError why).

Definition unsupported {A : Type} (what : string) : exc A :=
  Raise (Exn (OtherException "NotImplementedError") what).

Definition is_ws (c : ascii) : bool :=
  match nat_of_ascii c with
  | 32 | 9 | 10 | 13 => true
  | _ => false
  end.

Fixpoint skip_ws (s : string) : string :=
  match s with
  | String c s' => if is_ws c then skip_ws s' else s
  | EmptyString => s
  end.

Definition dquote : ascii := ascii_of_nat 34.
Definition backslash : ascii := ascii_of_nat 92.

Definition is_digit (c : ascii) : bool :=
  let n := nat_of_ascii c in (48 <=? n)%nat && (n <=? 57)%nat.

Definition digit_val (c : ascii) : Z := Z.of_nat (nat_of_ascii c) - 48.

(** The digits at the head of [s], accumulated in base ten. *)
Fixpoint digits (acc : Z) (s : string) : Z * string :=
  match s with
  | String c s' => if is_digit c then digits (10 * acc + digit_val c) s' else (acc, s)
  | EmptyString => (acc, s)
  end.

Definition starts_fraction (s : string) : bool :=
  match s with
  | String c _ => Ascii.eqb c "." || Ascii.eqb c "e" || Ascii.eqb c "E"
  | EmptyString => false
  end.

(** An optional minus sign, then a single zero or a digit string without
    leading zero; a fraction or exponent makes the number a float. *)
Definition number (neg : bool) (s : string) : exc (pyval * string) :=
  match s with
  | String c s' =>
      if Ascii.eqb c "0" then
        if starts_fraction s' then unsupported "float"
        else Ret (PInt 0, s')
      else if is_digit c then
        let '(n, rest) := digits 0 s in
        if starts_fraction rest then unsupported "float"
        else Ret (PInt (if neg then - n else n), rest)
      else decode_error "Expecting value"
  | EmptyString => decode_error "Expecting value"
  end.

(** The characters of a string literal after its opening quote. *)
Fixpoint string_body (s : string) : exc (string * string) :=
  match s with
  | EmptyString => decode_error "Unterminated string"
  | String c s' =>
      if Ascii.eqb c dquote then Ret (EmptyString, s')
      else if Ascii.eqb c backslash then
        match s' with
        | String e s'' =>
            let esc (x : ascii) :=
              r <- string_body s'' ;; Ret (String x (fst r), snd r) in
            if Ascii.eqb e dquote then esc dquote
            else if Ascii.eqb e backslash then esc backslash
            else if Ascii.eqb e "/" then esc "/"%char
            else if Ascii.eqb e "b" then esc (ascii_of_nat 8)
            else if Ascii.eqb e "f" then esc (ascii_of_nat 12)
            else if Ascii.eqb e "n" then esc (ascii_of_nat 10)
            else if Ascii.eqb e "r" then esc (ascii_of_nat 13)
            else if Ascii.eqb e "t" then esc (ascii_of_nat 9)
            else if Ascii.eqb e "u" then unsupported "unicode escape"
            else decode_error "Invalid escape"
        | EmptyString => decode_error "Unterminated string"
        end
      else if (nat_of_ascii c <? 32)%nat then decode_error "Invalid control character"
      else r <- string_body s' ;; Ret (String c (fst r), snd r)
  end.

Definition literal (lit : string) (v : pyval) (s : string) : exc (pyval * string) :=
  if prefix lit s then Ret (v, substring (length lit) (length s - length lit) s)
  else decode_error "Expecting value".

(** Values, array elements and object members; [fuel] bounds the nesting
    and the number of items. *)
Fixpoint value (fuel : nat) (s : string) : exc (pyval * string) :=
  match fuel with
  | O => unsupported "document too deep"
  | S n =>
      match skip_ws s with
      | EmptyString => decode_error "Expecting value"
      | String c s' =>
          if Ascii.eqb c "{" then
            match skip_ws s' with
            | String c' s'' =>
                if Ascii.eqb c' "}" then Ret (PDict [], s'')
                else r <- members n [] s' ;; Ret (PDict (fst r), snd r)
            | EmptyString => decode_error "Expecting property name"
            end
          else if Ascii.eqb c "[" then
            match skip_ws s' with
            | String c' s'' =>
                if Ascii.eqb c' "]" then Ret (PList [], s'')
                else r <- elements n s' ;; Ret (PList (fst r), snd r)
            | EmptyString => decode_error "Expecting value"
            end
          else if Ascii.eqb c dquote then
            r <- string_body s' ;; Ret (PStr (fst r), snd r)
          else if Ascii.eqb c "-" then number true s'
          else if Ascii.eqb c "n" then literal "null" PNone (String c s')
          else if Ascii.eqb c "t" then literal "true" (PBool true) (String c s')
          else if Ascii.eqb c "f" then literal "false" (PBool false) (String c s')
          else if Ascii.eqb c "N" || Ascii.eqb c "I" then unsupported "float"
          else number false (String c s')
      end
  end
with elements (fuel : nat) (s : string) : exc (list pyval * string) :=
  match fuel with
  | O => unsupported "document too long"
  | S n =>
      r <- value n s ;;
      match skip_ws (snd r) with
      | String c s' =>
          if Ascii.eqb c "," then
            rs <- elements n s' ;; Ret (fst r :: fst rs, snd rs)
          else if Ascii.eqb c "]" then Ret ([fst r], s')
          else decode_error "Expecting ',' delimiter"
      | EmptyString => decode_error "Expecting ',' delimiter"
      end
  end
with members (fuel : nat) (acc : pydict) (s : string) : exc (pydict * string) :=
  match fuel with
  | O => unsupported "document too long"
  | S n =>
      match skip_ws s with
      | String q s1 =>
          if Ascii.eqb q dquote then
            k <- string_body s1 ;;
            match skip_ws (snd k) with
            | String colon s2 =>
                if Ascii.eqb colon ":" then
                  v <- value n s2 ;;
                  let acc' := dict_set (PStr (fst k)) (fst v) acc in
                  match skip_ws (snd v) with
                  | String c s3 =>
                      if Ascii.eqb c "," then members n acc' s3
                      else if Ascii.eqb c "}" then Ret (acc', s3)
                      else decode_error "Expecting ',' delimiter"
                  | EmptyString => decode_error "Expecting ',' delimiter"
                  end
                else decode_error "Expecting ':' delimiter"
            | EmptyString => decode_error "Expecting ':' delimiter"
            end
          else decode_error "Expecting property name enclosed in double quotes"
      | EmptyString => decode_error "Expecting property name enclosed in double quotes"
      end
  end.

(** The whole document: one value, then only whitespace. *)
Definition loads (s : string) : exc pyval :=
  r <- value (S (length s)) s ;;
  match skip_ws (snd r) with
  | EmptyString => Ret (fst r)
  | String _ _ => decode_error "Extra data"
  end.

End Json.

(** ** manager.py: registries, batching, dispatch and metrics *)

Module Manager.
Import Py Base.

(** The two mutexes of the manager. *)
Inductive lock : Type := QueueLock | MetricsLock.


Section Manager.

Context `{Runtime}.

Definition Event : Type := ChangeEvent datetime.

(** The handler interface [CDCHandler].  A method acts on the world and
    either returns ([None]) or raises an [Exception] ([Some e]). *)
Record CDCHandler : Type := {
  class_name : string;
  can_handle : Event -> bool;
  handle_change : Event -> W -> W * option exn;
  handle_batch : list Event -> W -> W * option exn
}.

(** The listener interface [CDCListener]. *)
Record CDCListener : Type := {
  setup : W -> W * option exn;
  start_streaming : W -> W * option exn;
  stop_streaming : W -> W * option exn;
  get_status : W -> W * exc pydict;
  cleanup : W -> W * option exn
}.

(** One entry of [metrics['errors']]: the batch path stores the number of
    events, the single-event path stores [str(event)]. *)
Inductive error_record : Type :=
| BatchError (handler error : string) (timestamp : datetime) (event_count : Z)
| EventError (handler error : string) (timestamp : datetime) (event : string).

Record Metrics : Type := {
  events_received : Z;
  events_processed : Z;
  events_failed : Z;
  batches_processed : Z;
  last_event_time : option datetime;
  errors : list error_record
}.

Record CDCManager : Type := {
  listeners : list (string * CDCListener);
  handlers : list CDCHandler;
  batch_size : Z;
  batch_timeout : float;
  enable_batching : bool;
  event_queue : list Event;
  (** [batch_thread is not None] *)
  batch_thread : bool;
  (** the flag of the [stop_batching] event *)
  stop_batching : bool;
  metrics : Metrics
}.

(** [CDCManager.__init__]. *)
Definition init (batch_size : Z) (batch_timeout : float) (enable_batching : bool)
    : CDCManager :=
  {| listeners := [];
     handlers := [];
     batch_size := batch_size;
     batch_timeout := batch_timeout;
     enable_batching := enable_batching;
     event_queue := [];
     batch_thread := false;
     stop_batching := false;
     metrics := {| events_received := 0;
                   events_processed := 0;
                   events_failed := 0;
                   batches_processed := 0;
                   last_event_time := None;
                   errors := [] |} |}.

Definition set_listeners (l : list (string * CDCListener)) (m : CDCManager) : CDCManager :=
  {| listeners := l; handlers := handlers m; batch_size := batch_size m;
     batch_timeout := batch_timeout m; enable_batching := enable_batching m;
     event_queue := event_queue m; batch_thread := batch_thread m;
     stop_batching := stop_batching m; metrics := metrics m |}.

Definition set_handlers (h : list CDCHandler) (m : CDCManager) : CDCManager :=
  {| listeners := listeners m; handlers := h; batch_size := batch_size m;
     batch_timeout := batch_timeout m; enable_batching := enable_batching m;
     event_queue := event_queue m; batch_thread := batch_thread m;
     stop_batching := stop_batching m; metrics := metrics m |}.

Definition set_event_queue (q : list Event) (m : CDCManager) : CDCManager :=
  {| listeners := listeners m; handlers := handlers m; batch_size := batch_size m;
     batch_timeout := batch_timeout m; enable_batching := enable_batching m;
     event_queue := q; batch_thread := batch_thread m;
     stop_batching := stop_batching m; metrics := metrics m |}.

Definition set_batch_thread (b : bool) (m : CDCManager) : CDCManager :=
  {| listeners := listeners m; handlers := handlers m; batch_size := batch_size m;
     batch_timeout := batch_timeout m; enable_batching := enable_batching m;
     event_queue := event_queue m; batch_thread := b;
     stop_batching := stop_batching m; metrics := metrics m |}.

Definition set_stop_batching (b : bool) (m : CDCManager) : CDCManager :=
  {| listeners := listeners m; handlers := handlers m; batch_size := batch_size m;
     batch_timeout := batch_timeout m; enable_batching := enable_batching m;
     event_queue := event_queue m; batch_thread := batch_thread m;
     stop_batching := b; metrics := metrics m |}.

Definition set_metrics (x : Metrics) (m : CDCManager) : CDCManager :=
  {| listeners := listeners m; handlers := handlers m; batch_size := batch_size m;
     batch_timeout := batch_timeout m; enable_batching := enable_batching m;
     event_queue := event_queue m; batch_thread := batch_thread m;
     stop_batching := stop_batching m; metrics := x |}.

(** *** Observable actions

    A run of a manager method is observed as the sequence of lock
    operations and handler calls it performs, in program order. *)
Inductive action : Type :=
| Acquire (l : lock)
| Release (l : lock)
| CallProcessBatch (events : list Event)
| CallHandleBatch (i : nat) (events : list Event)
| ReturnHandleBatch (i : nat) (events : list Event) (raised : option exn)
| CallHandleChange (i : nat) (event : Event)
| ReturnHandleChange (i : nat) (event : Event) (raised : option exn).

(** *** The state monad of the manager: the object, the world, and the
    actions performed so far by the call. *)
Record sys : Type := { mgr : CDCManager; world : W }.

Definition M (A : Type) : Type := sys -> A * sys * list action.

Definition ret {A : Type} (a : A) : M A := fun s => (a, s, []).

Definition mbind {A B : Type} (c : M A) (k : A -> M B) : M B :=
  fun s =>
    let '(a, s1, t1) := c s in
    let '(b, s2, t2) := k a s1 in
    (b, s2, t1 ++ t2).

Definition emit (a : action) : M unit := fun s => (tt, s, [a]).

Definition self : M CDCManager := fun s => (mgr s, s, []).

Definition update (f : CDCManager -> CDCManager) : M unit :=
  fun s => (tt, {| mgr := f (mgr s); world := world s |}, []).

(** A call into the world (a handler, a listener). *)
Definition call {A : Type} (f : W -> W * A) : M A :=
  fun s => let '(w, a) := f (world s) in (a, {| mgr := mgr s; world := w |}, []).

Definition now : M datetime := fun s => (datetime_now (world s), s, []).

Definition result {A : Type} (r : A * sys * list action) : A := fst (fst r).
Definition final {A : Type} (r : A * sys * list action) : sys := snd (fst r).
Definition actions {A : Type} (r : A * sys * list action) : list action := snd r.

Notation "'do' x <- c ; k" := (mbind c (fun x => k))
  (at level 10, x name, c at level 100, k at level 200).
Notation "c1 >> c2" := (mbind c1 (fun _ => c2))
  (at level 62, right associativity).

(** [with lock: body]. *)
Definition with_lock {A : Type} (l : lock) (body : M A) : M A :=
  emit (Acquire l) >>
  do r <- body;
  emit (Release l) >>
  ret r.

Definition update_metrics (f : Metrics -> Metrics) : M unit :=
  update (fun m => set_metrics (f (metrics m)) m).

Definition len {A : Type} (l : list A) : Z := Z.of_nat (List.length l).

(** [name in self.listeners]. *)
Fixpoint registered (name : string) (ls : list (string * CDCListener)) : bool :=
  match ls with
  | [] => false
  | (n, _) :: ls' => String.eqb n name || registered name ls'
  end.

(** [self.listeners[name] = listener]. *)
Fixpoint listeners_set (name : string) (l : CDCListener)
    (ls : list (string * CDCListener)) : list (string * CDCListener) :=
  match ls with
  | [] => [(name, l)]
  | (n, l') :: ls' =>
      if String.eqb n name then (n, l) :: ls' else (n, l') :: listeners_set name l ls'
  end.

(** [register_listener]: the result is the exception that leaves the
    method, if any. *)
Definition register_listener (name : string) (listener : CDCListener)
    (auto_setup : bool) : M (option exn) :=
  do m <- self;
  if registered name (listeners m) then
    ret (Some (Exn CDCError ("Listener '" ++ name ++ "' already registered")))
  else
    update (fun m => set_listeners (listeners_set name listener (listeners m)) m) >>
    if auto_setup then
      do r <- call (setup listener);
      match r with
      | None => ret None
      | Some e => ret (Some e)
      end
    else ret None.

(** [add_handler]. *)
Definition add_handler (handler : CDCHandler) : M unit :=
  update (fun m => set_handlers (handlers m ++ [handler]) m).

(** One turn of the loop of [_process_batch]. *)
Definition _process_batch_handler (events : list Event) (i : nat)
    (handler : CDCHandler) : M unit :=
  let handler_events := filter (can_handle handler) events in
  match handler_events with
  | [] => ret tt
  | _ :: _ =>
      emit (CallHandleBatch i handler_events) >>
      do r <- call (handle_batch handler handler_events);
      emit (ReturnHandleBatch i handler_events r) >>
      match r with
      | None =>
          with_lock MetricsLock
            (update_metrics (fun x =>
               {| events_received := events_received x;
                  events_processed := events_processed x + len handler_events;
                  events_failed := events_failed x;
                  batches_processed := batches_processed x + 1;
                  last_event_time := last_event_time x;
                  errors := errors x |}))
      | Some e =>
          with_lock MetricsLock
            (do t <- now;
             update_metrics (fun x =>
               {| events_received := events_received x;
                  events_processed := events_processed x;
                  events_failed := events_failed x + len handler_events;
                  batches_processed := batches_processed x;
                  last_event_time := last_event_time x;
                  errors := errors x ++
                    [BatchError (class_name handler) (exn_str e) t (len handler_events)] |}))
      end
  end.

(** [for handler in self.handlers: body], with the position of the handler. *)
Fixpoint for_handlers (body : nat -> CDCHandler -> M unit) (i : nat)
    (hs : list CDCHandler) : M unit :=
  match hs with
  | [] => ret tt
  | h :: hs' => body i h >> for_handlers body (S i) hs'
  end.

(** [_process_batch]. *)
Definition _process_batch (events : list Event) : M unit :=
  emit (CallProcessBatch events) >>
  match events with
  | [] => ret tt
  | _ :: _ =>
      do m <- self;
      for_handlers (_process_batch_handler events) 0 (handlers m)
  end.

(** One turn of the loop of [_process_event]. *)
Definition _process_event_handler (event : Event) (i : nat)
    (handler : CDCHandler) : M unit :=
  if can_handle handler event then
    emit (CallHandleChange i event) >>
    do r <- call (handle_change handler event);
    emit (ReturnHandleChange i event r) >>
    match r with
    | None =>
        with_lock MetricsLock
          (update_metrics (fun x =>
             {| events_received := events_received x;
                events_processed := events_processed x + 1;
                events_failed := events_failed x;
                batches_processed := batches_processed x;
                last_event_time := last_event_time x;
                errors := errors x |}))
    | Some e =>
        with_lock MetricsLock
          (do t <- now;
           update_metrics (fun x =>
             {| events_received := events_received x;
                events_processed := events_processed x;
                events_failed := events_failed x + 1;
                batches_processed := batches_processed x;
                last_event_time := last_event_time x;
                errors := errors x ++
                  [EventError (class_name handler) (exn_str e) t (ChangeEvent_str event)] |}))
    end
  else ret tt.

(** [_process_event]. *)
Definition _process_event (event : Event) : M unit :=
  do m <- self;
  for_handlers (_process_event_handler event) 0 (handlers m).

(** [_handle_change]: the ingestion entry point. *)
Definition _handle_change (event : Event) : M unit :=
  with_lock MetricsLock
    (do t <- now;
     update_metrics (fun x =>
       {| events_received := events_received x + 1;
          events_processed := events_processed x;
          events_failed := events_failed x;
          batches_processed := batches_processed x;
          last_event_time := Some t;
          errors := errors x |})) >>
  do m <- self;
  if enable_batching m then
    with_lock QueueLock
      (update (fun m => set_event_queue (event_queue m ++ [event]) m) >>
       do m <- self;
       if (batch_size m <=? len (event_queue m))%Z then
         let batch := event_queue m in
         update (set_event_queue []) >>
         _process_batch batch
       else ret tt)
  else _process_event event.

(** One turn of the loop of [_batch_processor], after the sleep:
    [current_time] is the reading of [time.time()]; the result is the new
    [last_process_time]. *)
Definition _batch_processor_turn (current_time last_process_time : float) : M float :=
  let elapsed := PrimFloat.sub current_time last_process_time in
  do m <- self;
  if PrimFloat.leb (batch_timeout m) elapsed then
    with_lock QueueLock
      (do m <- self;
       match event_queue m with
       | [] => ret tt
       | _ :: _ =>
           let batch := event_queue m in
           update (set_event_queue []) >>
           _process_batch batch
       end) >>
    ret current_time
  else ret last_process_time.



(** [for name, listener in self.listeners.items(): try: f(listener) ...],
    every exception caught and logged. *)
Fixpoint for_listeners (f : CDCListener -> W -> W * option exn)
    (ls : list (string * CDCListener)) : M unit :=
  match ls with
  | [] => ret tt
  | (_, l) :: ls' => call (f l) >> for_listeners f ls'
  end.

(** [start_all]. *)
Definition start_all : M unit :=
  do m <- self;
  match listeners m with
  | [] => ret tt
  | _ :: _ =>
      (if enable_batching m then
         update (set_stop_batching false) >>
         update (set_batch_thread true)
       else ret tt) >>
      for_listeners start_streaming (listeners m)
  end.

(** [self.batch_thread.join(timeout=10)] lets the flush thread finish the
    turn it is in: [in_flight] is the clock reading and the
    [last_process_time] of that turn, or [None] when the thread is not in a
    turn. *)
Definition join_batch_thread (in_flight : option (float * float)) : M unit :=
  match in_flight with
  | Some (current_time, last_process_time) =>
      _batch_processor_turn current_time last_process_time >> ret tt
  | None => ret tt
  end.

(** The end of [stop_all]: [if self.event_queue: ...]. *)
Definition process_remaining : M unit :=
  do m <- self;
  match event_queue m with
  | [] => ret tt
  | _ :: _ =>
      _process_batch (event_queue m) >>
      update (set_event_queue [])
  end.

(** [stop_all]. *)
Definition stop_all (in_flight : option (float * float)) : M unit :=
  do m <- self;
  for_listeners stop_streaming (listeners m) >>
  if batch_thread m then
    update (set_stop_batching true) >>
    join_batch_thread in_flight >>
    process_remaining
  else ret tt.

(** The dict returned by [get_status]. *)
Record batching_status : Type := {
  enabled : bool;
  status_batch_size : Z;
  status_batch_timeout : float;
  queue_size : Z
}.

Record manager_status : Type := {
  status_listeners : list (string * pydict);
  status_handlers : list string;
  status_metrics : Metrics;
  batching : batching_status
}.

Fixpoint listener_statuses (ls : list (string * CDCListener))
    : M (list (string * pydict)) :=
  match ls with
  | [] => ret []
  | (name, l) :: ls' =>
      do r <- call (get_status l);
      do rest <- listener_statuses ls';
      ret ((name,
            match r with
            | Ret d => d
            | Raise e => [(PStr "error", PStr (exn_str e))]
            end) :: rest)
  end.

(** [get_status]. *)
Definition manager_get_status : M manager_status :=
  do m <- self;
  do ls <- listener_statuses (listeners m);
  ret {| status_listeners := ls;
         status_handlers := map class_name (handlers m);
         status_metrics := metrics m;
         batching := {| enabled := enable_batching m;
                        status_batch_size := batch_size m;
                        status_batch_timeout := batch_timeout m;
                        queue_size := len (event_queue m) |} |}.

(** [cleanup_all]. *)
Definition cleanup_all : M unit :=
  do m <- self;
  for_listeners cleanup (listeners m).

(** *** Reading a trace *)

(** The batches passed to [_process_batch], in order. *)
Fixpoint flushes (tr : list action) : list (list Event) :=
  match tr with
  | [] => []
  | CallProcessBatch events :: tr' => events :: flushes tr'
  | _ :: tr' => flushes tr'
  end.

(** The [handle_batch] calls: handler position and argument, in order. *)
Fixpoint batch_calls (tr : list action) : list (nat * list Event) :=
  match tr with
  | [] => []
  | CallHandleBatch i events :: tr' => (i, events) :: batch_calls tr'
  | _ :: tr' => batch_calls tr'
  end.

(** The number of events given to [handle_batch] calls that raised. *)
Fixpoint failed_events (tr : list action) : Z :=
  match tr with
  | [] => 0
  | ReturnHandleBatch _ events (Some _) :: tr' => len events + failed_events tr'
  | _ :: tr' => failed_events tr'
  end.




(** What [_process_batch] is to call: each handler, in registration
    order, with the events its predicate accepts, unless there are none. *)
Fixpoint expected_calls (events : list Event) (i : nat) (hs : list CDCHandler)
    : list (nat * list Event) :=
  match hs with
  | [] => []
  | h :: hs' =>
      match filter (can_handle h) events with
      | [] => expected_calls events (S i) hs'
      | sub => (i, sub) :: expected_calls events (S i) hs'
      end
  end.

End Manager.

End Manager.

(** ** graph_schema.py: the schema the handlers are built from *)

Module Schema.

(** [Property]: the handlers read only the name. *)
Record Property : Type := {
  name : string
}.

Record NodeType : Type := {
  label : string;
  properties : list Property;
  source_table : option string;
  primary_key : option string
}.

Record GraphSchema : Type := {
  node_types : list NodeType
}.

End Schema.

(** ** handlers.py: the graph-sync handler *)

Module Handlers.
Import Py Base.

(** The methods of [GraphDatabaseConnector] that the handler calls, acting
    on a graph store [G].  The values they return are not used. *)
Record GraphDatabaseConnector (G : Type) : Type := {
  create_node : string -> pydict -> G -> G * option exn;
  batch_create_nodes : string -> list pydict -> G -> G * option exn;
  execute_query : string -> option pydict -> G -> G * option exn
}.
Arguments create_node {G} _ _ _ _.
Arguments batch_create_nodes {G} _ _ _ _.
Arguments execute_query {G} _ _ _ _.

Definition newline : string := String (ascii_of_nat 10) EmptyString.
Definition indent16 : string := "                ".

(** The three Cypher statements the handler writes. *)
Definition update_query (label pk : string) : string :=
  (newline ++ indent16 ++ "MATCH (n:" ++ label ++ " {" ++ pk ++ ": $pk_value})"
   ++ newline ++ indent16 ++ "SET n += $properties"
   ++ newline ++ indent16 ++ "RETURN n"
   ++ newline ++ indent16)%string.

Definition delete_query (label pk : string) : string :=
  (newline ++ indent16 ++ "MATCH (n:" ++ label ++ " {" ++ pk ++ ": $pk_value})"
   ++ newline ++ indent16 ++ "DETACH DELETE n"
   ++ newline ++ indent16)%string.

Definition truncate_query (label : string) : string :=
  ("MATCH (n:" ++ label ++ ") DETACH DELETE n")%string.

Definition table_map : Type := list (string * Schema.NodeType).

Fixpoint table_map_get (t : string) (m : table_map) : option Schema.NodeType :=
  match m with
  | [] => None
  | (t', nt) :: m' => if String.eqb t' t then Some nt else table_map_get t m'
  end.

Fixpoint table_map_set (t : string) (nt : Schema.NodeType) (m : table_map) : table_map :=
  match m with
  | [] => [(t, nt)]
  | (t', nt') :: m' =>
      if String.eqb t' t then (t', nt) :: m' else (t', nt') :: table_map_set t nt m'
  end.

Section GraphSync.

Context `{Runtime}.
Variable G : Type.

Record GraphSyncHandler : Type := {
  graph_db : GraphDatabaseConnector G;
  graph_schema : Schema.GraphSchema;
  domain_prefix : string;
  table_to_node_type : table_map
}.

(** [GraphSyncHandler.__init__]. *)
Definition init (graph_db : GraphDatabaseConnector G)
    (graph_schema : Schema.GraphSchema) (domain_prefix : string) : GraphSyncHandler :=
  {| graph_db := graph_db;
     graph_schema := graph_schema;
     domain_prefix := domain_prefix;
     table_to_node_type :=
       fold_left
         (fun m nt =>
            match Schema.source_table nt with
            | Some t => if String.eqb t EmptyString then m else table_map_set t nt m
            | None => m
            end)
         (Schema.node_types graph_schema) [] |}.

(** Handler code: it acts on the graph store and returns or raises. *)
Definition H_ (A : Type) : Type := G -> G * exc A.

Definition hret {A : Type} (a : A) : H_ A := fun g => (g, Ret a).

Definition hraise {A : Type} (e : exn) : H_ A := fun g => (g, Raise e).

Definition hbind {A B : Type} (c : H_ A) (k : A -> H_ B) : H_ B :=
  fun g =>
    match c g with
    | (g', Ret a) => k a g'
    | (g', Raise e) => (g', Raise e)
    end.

Notation "'do' x <- c ; k" := (hbind c (fun x => k))
  (at level 10, x name, c at level 100, k at level 200).
Notation "c1 >> c2" := (hbind c1 (fun _ => c2))
  (at level 62, right associativity).

(** A connector call. *)
Definition db_call (f : G -> G * option exn) : H_ unit :=
  fun g =>
    match f g with
    | (g', None) => (g', Ret tt)
    | (g', Some e) => (g', Raise e)
    end.

(** [self.table_to_node_type.get(table)]: the key is hashed. *)
Definition node_type_of (self : GraphSyncHandler) (table : pyval)
    : H_ (option Schema.NodeType) :=
  if hashable table then
    hret (match table with
          | PStr t => table_map_get t (table_to_node_type self)
          | _ => None
          end)
  else hraise (Exn TypeError "unhashable type").

(** [_prepare_properties]. *)
Definition _prepare_properties (data : option pydict) (node_type : Schema.NodeType)
    : pydict :=
  match data with
  | None | Some [] => []
  | Some d =>
      fold_left
        (fun props prop =>
           match dict_get (PStr (Schema.name prop)) d with
           | Some PNone | None => props
           | Some value => dict_set (PStr (Schema.name prop)) value props
           end)
        (Schema.properties node_type) []
  end.

(** The key value an update or delete is addressed with, when the event
    and the node type both have a usable primary key. *)
Definition usable_pk (event : ChangeEvent datetime) (node_type : Schema.NodeType)
    : option (string * pyval) :=
  match primary_key event, Schema.primary_key node_type with
  | Some ((_ :: _) as epk), Some pk =>
      if String.eqb pk EmptyString then None
      else
        match dict_get (PStr pk) epk with
        | Some pk_value => if truthy pk_value then Some (pk, pk_value) else None
        | None => None
        end
  | _, _ => None
  end.

(** [_handle_insert]. *)
Definition _handle_insert (self : GraphSyncHandler) (event : ChangeEvent datetime)
    : H_ unit :=
  do node_type <- node_type_of self (table event);
  match node_type with
  | None => hret tt
  | Some nt =>
      let properties := _prepare_properties (new_data event) nt in
      db_call (create_node (graph_db self) (Schema.label nt) properties)
  end.

(** [_handle_update]. *)
Definition _handle_update (self : GraphSyncHandler) (event : ChangeEvent datetime)
    : H_ unit :=
  do node_type <- node_type_of self (table event);
  match node_type with
  | None => hret tt
  | Some nt =>
      let properties := _prepare_properties (new_data event) nt in
      match usable_pk event nt with
      | Some (pk, pk_value) =>
          db_call (execute_query (graph_db self)
                     (update_query (Schema.label nt) pk)
                     (Some [(PStr "pk_value", pk_value);
                            (PStr "properties", PDict properties)]))
      | None => hret tt
      end
  end.

(** [_handle_delete]. *)
Definition _handle_delete (self : GraphSyncHandler) (event : ChangeEvent datetime)
    : H_ unit :=
  do node_type <- node_type_of self (table event);
  match node_type with
  | None => hret tt
  | Some nt =>
      match usable_pk event nt with
      | Some (pk, pk_value) =>
          db_call (execute_query (graph_db self)
                     (delete_query (Schema.label nt) pk)
                     (Some [(PStr "pk_value", pk_value)]))
      | None => hret tt
      end
  end.

(** [_handle_truncate]. *)
Definition _handle_truncate (self : GraphSyncHandler) (event : ChangeEvent datetime)
    : H_ unit :=
  do node_type <- node_type_of self (table event);
  match node_type with
  | None => hret tt
  | Some nt =>
      db_call (execute_query (graph_db self) (truncate_query (Schema.label nt)) None)
  end.

(** [handle_change]: the single-event entry point. *)
Definition handle_change (self : GraphSyncHandler) (event : ChangeEvent datetime)
    : H_ unit :=
  match operation event with
  | INSERT => _handle_insert self event
  | UPDATE => _handle_update self event
  | DELETE => _handle_delete self event
  | TRUNCATE => _handle_truncate self event
  | DDL => hret tt
  end.

Fixpoint for_each {A : Type} (f : A -> H_ unit) (l : list A) : H_ unit :=
  match l with
  | [] => hret tt
  | x :: l' => f x >> for_each f l'
  end.

(** [by_table[event.table].append(event)], creating the group when the
    table is new. *)
Fixpoint group_add (t : pyval) (event : ChangeEvent datetime)
    (groups : list (pyval * list (ChangeEvent datetime)))
    : list (pyval * list (ChangeEvent datetime)) :=
  match groups with
  | [] => [(t, [event])]
  | (t', es) :: groups' =>
      if key_eqb t' t then (t', es ++ [event]) :: groups'
      else (t', es) :: group_add t event groups'
  end.

Fixpoint group_by_table (events : list (ChangeEvent datetime))
    (groups : list (pyval * list (ChangeEvent datetime)))
    : H_ (list (pyval * list (ChangeEvent datetime))) :=
  match events with
  | [] => hret groups
  | event :: rest =>
      if hashable (table event) then
        group_by_table rest (group_add (table event) event groups)
      else hraise (Exn TypeError "unhashable type")
  end.

(** [_batch_insert]. *)
Definition _batch_insert (self : GraphSyncHandler)
    (events : list (ChangeEvent datetime)) : H_ unit :=
  do by_table <- group_by_table events [];
  for_each
    (fun '(t, table_events) =>
       do node_type <- node_type_of self t;
       match node_type with
       | None => hret tt
       | Some nt =>
           let nodes :=
             map (fun event => _prepare_properties (new_data event) nt) table_events in
           match nodes with
           | [] => hret tt
           | _ :: _ => db_call (batch_create_nodes (graph_db self) (Schema.label nt) nodes)
           end
       end)
    by_table.

(** [_batch_update] and [_batch_delete]. *)
Definition _batch_update (self : GraphSyncHandler)
    (events : list (ChangeEvent datetime)) : H_ unit :=
  for_each (_handle_update self) events.

Definition _batch_delete (self : GraphSyncHandler)
    (events : list (ChangeEvent datetime)) : H_ unit :=
  for_each (_handle_delete self) events.

Definition has_operation (op : ChangeOperation) (event : ChangeEvent datetime) : bool :=
  match op, operation event with
  | INSERT, INSERT | UPDATE, UPDATE | DELETE, DELETE
  | TRUNCATE, TRUNCATE | DDL, DDL => true
  | _, _ => false
  end.

(** [handle_batch]: the batch entry point.  The loop sorts the events into
    [inserts], [updates] and [deletes]. *)
Definition handle_batch (self : GraphSyncHandler)
    (events : list (ChangeEvent datetime)) : H_ unit :=
  let inserts := filter (has_operation INSERT) events in
  let updates := filter (has_operation UPDATE) events in
  let deletes := filter (has_operation DELETE) events in
  (match inserts with [] => hret tt | _ :: _ => _batch_insert self inserts end) >>
  (match updates with [] => hret tt | _ :: _ => _batch_update self updates end) >>
  (match deletes with [] => hret tt | _ :: _ => _batch_delete self deletes end).

(** [can_handle]. *)
Definition can_handle (self : GraphSyncHandler) (event : ChangeEvent datetime)
    : exc bool :=
  if hashable (table event) then
    Ret (match table event with
         | PStr t =>
             match table_map_get t (table_to_node_type self) with
             | Some _ => true
             | None => false
             end
         | _ => false
         end)
  else Raise (Exn TypeError "unhashable type").

End GraphSync.

Arguments init {G} graph_db graph_schema domain_prefix.
Arguments table_to_node_type {G} _.
Arguments graph_db {G} _.
Arguments node_type_of {G} self table _.
Arguments _handle_insert {H G} self event _.
Arguments _handle_update {H G} self event _.
Arguments _handle_delete {H G} self event _.
Arguments _handle_truncate {H G} self event _.
Arguments _batch_insert {H G} self events _.
Arguments _batch_update {H G} self events _.
Arguments _batch_delete {H G} self events _.
Arguments handle_change {H G} self event _.
Arguments handle_batch {H G} self events _.
Arguments can_handle {H G} self event.
Arguments db_call {G} f _.
Arguments hret {G A} a _.

End Handlers.

(** ** A reference graph store

    The graph database is outside the repository.  This in-memory store
    gives the three statements of the handler their Cypher meaning, for
    labels and keys written without blanks and brackets: nodes are
    labelled property maps. *)

Module MemGraph.
Import Py.

Record node : Type := {
  node_label : string;
  node_props : pydict
}.

Definition store : Type := list node.

Inductive statement : Type :=
| DeleteAll (label : string)
| DeleteByKey (label key : string)
| MergeByKey (label key : string).

Fixpoint strip_prefix (p s : string) : option string :=
  match p with
  | EmptyString => Some s
  | String a p' =>
      match s with
      | String b s' => if Ascii.eqb a b then strip_prefix p' s' else None
      | EmptyString => None
      end
  end.

(** The characters before the first one that satisfies [stop], and the rest. *)
Fixpoint take_until (stop : ascii -> bool) (s : string) : string * string :=
  match s with
  | EmptyString => (EmptyString, EmptyString)
  | String c s' =>
      if stop c then (EmptyString, s)
      else let '(a, b) := take_until stop s' in (String c a, b)
  end.

Definition only_blanks (s : string) : bool :=
  match Json.skip_ws s with
  | EmptyString => true
  | String _ _ => false
  end.

Definition after (p : string) (s : option string) : option string :=
  match s with
  | Some t => strip_prefix p (Json.skip_ws t)
  | None => None
  end.

(** Reading a statement back from its text. *)
Definition classify (q : string) : option statement :=
  match after "MATCH (n:" (Some q) with
  | None => None
  | Some s1 =>
      let '(lbl, r) := take_until (fun c => Ascii.eqb c ")" || Ascii.eqb c " ") s1 in
      match strip_prefix ")" r with
      | Some r2 =>
          match after "DETACH DELETE n" (Some r2) with
          | Some r3 => if only_blanks r3 then Some (DeleteAll lbl) else None
          | None => None
          end
      | None =>
          match strip_prefix " {" r with
          | None => None
          | Some r2 =>
              let '(key, r3) := take_until (fun c => Ascii.eqb c ":") r2 in
              match strip_prefix ": $pk_value})" r3 with
              | None => None
              | Some r4 =>
                  match after "DETACH DELETE n" (Some r4) with
                  | Some r5 => if only_blanks r5 then Some (DeleteByKey lbl key) else None
                  | None =>
                      match after "RETURN n" (after "SET n += $properties" (Some r4)) with
                      | Some r6 => if only_blanks r6 then Some (MergeByKey lbl key) else None
                      | None => None
                      end
                  end
              end
          end
      end
  end.

Definition matches (label key : string) (v : pyval) (n : node) : bool :=
  String.eqb (node_label n) label &&
  match dict_get (PStr key) (node_props n) with
  | Some x => key_eqb x v
  | None => false
  end.

Definition merge_props (new old : pydict) : pydict :=
  fold_left (fun acc kv => dict_set (fst kv) (snd kv) acc) new old.

Definition syntax_error : exn := Exn (OtherException "CypherSyntaxError") "unknown statement".
Definition parameter_missing : exn := Exn (OtherException "ParameterMissing") "missing parameter".

Definition run (q : string) (parameters : option pydict) (g : store) : store * option exn :=
  let param k :=
    match parameters with
    | Some ps => dict_get (PStr k) ps
    | None => None
    end in
  match classify q with
  | Some (DeleteAll label) =>
      (filter (fun n => negb (String.eqb (node_label n) label)) g, None)
  | Some (DeleteByKey label key) =>
      match param "pk_value" with
      | Some v => (filter (fun n => negb (matches label key v n)) g, None)
      | None => (g, Some parameter_missing)
      end
  | Some (MergeByKey label key) =>
      match param "pk_value", param "properties" with
      | Some v, Some (PDict props) =>
          (map (fun n =>
                  if matches label key v n
                  then {| node_label := node_label n;
                          node_props := merge_props props (node_props n) |}
                  else n) g, None)
      | _, _ => (g, Some parameter_missing)
      end
  | None => (g, Some syntax_error)
  end.

Definition connector : Handlers.GraphDatabaseConnector store :=
  {| Handlers.create_node := fun label props g =>
       (g ++ [{| node_label := label; node_props := props |}], None);
     Handlers.batch_create_nodes := fun label nodes g =>
       (g ++ map (fun props => {| node_label := label; node_props := props |}) nodes, None);
     Handlers.execute_query := run |}.

(** The nodes of a label. *)
Definition nodes_of (label : string) (g : store) : list node :=
  filter (fun n => String.eqb (node_label n) label) g.

End MemGraph.

(** ** A concrete runtime for worked examples *)

Module Example.
Import Py Base.

(** The world is a log of what happened in it; the clock reads its length. *)
Inductive happening : Type :=
| Feedback (lsn : Z)
| Delivered (table : pyval)
| Handled (handler : string) (count : nat)
| ListenerSetup (name : string).

(** A timestamp text is read as its length; anything else is not a date. *)
#[export] Instance runtime : Runtime :=
  {| W := list happening;
     datetime := nat;
     datetime_now := fun w => List.length w;
     format_value := fun v => match v with PStr s => s | _ => "?" end;
     format_datetime := fun t => NilZero.string_of_uint (Nat.to_uint t);
     json_loads := Json.loads;
     date_parse := fun v => match v with PStr s => Some (String.length s) | _ => None end;
     send_feedback := fun lsn w => (w ++ [Feedback lsn], None) |}.

(** A reading of the clock and the empty world. *)
Definition midnight : datetime := 0%nat.
Definition nothing : W := [].

(** A JSON text is written with an apostrophe for each double quote. *)
Fixpoint json (s : string) : string :=
  match s with
  | EmptyString => EmptyString
  | String c s' => String (if Ascii.eqb c "'" then Json.dquote else c) (json s')
  end.

End Example.

(** ** Vocabulary of the listener properties *)

Module ListenerSpec.
Import Py Base PostgresListener.

(** The primary key as the specification words it: old-data when the
    payload carries identity columns, else the [id] column of new-data,
    else nothing. *)
Definition spec_primary_key (old_data new_data : option pydict) : option pydict :=
  match old_data with
  | Some (c :: cs) => Some (c :: cs)
  | _ =>
      match new_data with
      | Some nd =>
          match dict_get (PStr "id") nd with
          | Some v => Some [(PStr "id", v)]
          | None => None
          end
      | None => None
      end
  end.

(** The operation an action code stands for. *)
Definition operation_of_code (code : string) : option ChangeOperation :=
  if String.eqb code "I" then Some INSERT
  else if String.eqb code "U" then Some UPDATE
  else if String.eqb code "D" then Some DELETE
  else if String.eqb code "T" then Some TRUNCATE
  else None.

(** A column array the row builder accepts: an iterable of objects, each
    with a hashable [name]. *)
Definition column_ok (col : pyval) : bool :=
  match col with
  | PDict c =>
      match dict_get (PStr "name") c with
      | Some k => hashable k
      | None => false
      end
  | _ => false
  end.

Definition columns_ok (v : option pyval) : bool :=
  match v with
  | None => true
  | Some cols =>
      match py_iter cols with
      | Ret items => forallb column_ok items
      | Raise _ => false
      end
  end.

(** A valid change record: a table name, and well-formed [columns] and
    [identity] arrays where present. *)
Definition valid_change (change : pyval) : bool :=
  match change with
  | PDict d =>
      match dict_get (PStr "table") d with
      | Some t => truthy t
      | None => false
      end
      && columns_ok (dict_get (PStr "columns") d)
      && columns_ok (dict_get (PStr "identity") d)
  | _ => false
  end.

(** A change record without a usable table name. *)
Definition lacks_table (change : pyval) : bool :=
  match change with
  | PDict d =>
      match dict_get (PStr "table") d with
      | Some t => negb (truthy t)
      | None => true
      end
  | _ => false
  end.

(** Case analysis along the binds of a computation in [exc]. *)
Ltac step_binds H :=
  repeat match type of H with
         | context [bind ?c _] => destruct c eqn:?; cbn [bind] in H; try discriminate
         | context [if ?b then _ else _] => destruct b eqn:?; try discriminate
         | context [match ?o with Some _ => _ | None => _ end] =>
             destruct o eqn:?; try discriminate
         end.

(** The example payload of the specification, as a text and decoded. *)
Definition patients_payload : string :=
  Example.json
    "{'action':'I','schema':'public','table':'patients','columns':[{'name':'id','value':7},{'name':'name','value':'Amy'}]}".

Definition patients_change : pydict :=
  [(PStr "action", PStr "I");
   (PStr "schema", PStr "public");
   (PStr "table", PStr "patients");
   (PStr "columns",
    PList [PDict [(PStr "name", PStr "id"); (PStr "value", PInt 7)];
           PDict [(PStr "name", PStr "name"); (PStr "value", PStr "Amy")]])].

Definition patients_document : pyval := PDict patients_change.

End ListenerSpec.

(** ** Vocabulary of the manager properties *)

Module ManagerSpec.
Import Py Base Manager.

Section Spec.

Context `{Runtime}.

(** The metrics update at the head of [_handle_change]. *)
Definition count_received (t : datetime) (m : CDCManager) : CDCManager :=
  set_metrics
    {| events_received := events_received (metrics m) + 1;
       events_processed := events_processed (metrics m);
       events_failed := events_failed (metrics m);
       batches_processed := batches_processed (metrics m);
       last_event_time := Some t;
       errors := errors (metrics m) |} m.


End Spec.

End ManagerSpec.

(** ** Concrete systems for the worked examples *)

Module Examples.
Import Py Base Example.

(** *** Listener *)

Definition listener0 : PostgresListener.PostgreSQLCDCListener :=
  {| PostgresListener.slot_name := "graph_sync_slot";
     PostgresListener.publication_name := "graph_sync_pub";
     PostgresListener.is_running := true;
     PostgresListener.current_position := None |}.

(** A transaction-begin message. *)
Definition begin_payload : string := Example.json "{'action':'B'}".
Definition begin_change : pydict := [(PStr "action", PStr "B")].

(** A payload cut off in the middle, and a change record without table. *)
Definition truncated_payload : string := Example.json "{'action':'I','schema':".
Definition tableless_payload : string := Example.json "{'action':'I','schema':'public'}".
Definition tableless_change : pydict :=
  [(PStr "action", PStr "I"); (PStr "schema", PStr "public")].

Definition garbled_message : PostgresListener.message :=
  {| PostgresListener.payload := truncated_payload;
     PostgresListener.data_start := 23456789 |}.

(** *** Manager *)

Definition event_on (t : string) (op : ChangeOperation) : ChangeEvent nat :=
  {| operation := op;
     table := PStr t;
     schema := PStr "public";
     timestamp := 0;
     database_type := "postgres";
     old_data := None;
     new_data := None;
     primary_key := None;
     ddl_statement := None;
     transaction_id := PNone;
     lsn := PNone;
     position := None;
     metadata := [] |}.

Definition on_table (t : string) (e : ChangeEvent nat) : bool :=
  match table e with
  | PStr t' => String.eqb t t'
  | _ => false
  end.

(** A handler that records what it is given. *)
Definition recording_handler (name table : string) : Manager.CDCHandler :=
  {| Manager.class_name := name;
     Manager.can_handle := on_table table;
     Manager.handle_change := fun e w => (w ++ [Handled name 1], None);
     Manager.handle_batch := fun es w => (w ++ [Handled name (List.length es)], None) |}.


Definition steady_listener : Manager.CDCListener :=
  {| Manager.setup := fun w => (w, None);
     Manager.start_streaming := fun w => (w, None);
     Manager.stop_streaming := fun w => (w, None);
     Manager.get_status := fun w => (w, Ret [(PStr "is_running", PBool true)]);
     Manager.cleanup := fun w => (w, None) |}.

(** A listener whose [setup] raises. *)
Definition unprepared_listener : Manager.CDCListener :=
  {| Manager.setup := fun w =>
       (w ++ [ListenerSetup "pg"],
        Some (Exn CDCSetupError "Failed to set up PostgreSQL CDC: wal_level must be logical"));
     Manager.start_streaming := fun w => (w, None);
     Manager.stop_streaming := fun w => (w, None);
     Manager.get_status := fun w => (w, Ret []);
     Manager.cleanup := fun w => (w, None) |}.

(** A manager with the given batch size, handlers and queue, and whether
    its flush thread has been started. *)
Definition manager (batch_size : Z) (hs : list Manager.CDCHandler)
    (queue : list (ChangeEvent nat)) (started : bool) : Manager.sys :=
  {| Manager.mgr :=
       Manager.set_batch_thread started
         (Manager.set_event_queue queue
            (Manager.set_handlers hs
               (Manager.set_listeners [("pg", steady_listener)]
                  (Manager.init batch_size 5 true))));
     Manager.world := [] |}.

Definition e1 : ChangeEvent nat := event_on "patients" INSERT.
Definition e2 : ChangeEvent nat := event_on "visits" INSERT.
Definition e3 : ChangeEvent nat := event_on "patients" UPDATE.

Definition embedding_sync : Manager.CDCHandler :=
  recording_handler "EmbeddingSyncHandler" "patients".

(** A manager brought up by [start_all], with two events in its queue. *)
Definition started_manager : Manager.sys :=
  Manager.final (Manager.start_all (manager 5 [embedding_sync] [e1; e2] false)).


(** *** Graph-sync handler over the reference store *)

Definition patient_type : Schema.NodeType :=
  {| Schema.label := "Patient";
     Schema.properties := [{| Schema.name := "id" |}; {| Schema.name := "name" |}];
     Schema.source_table := Some "patients";
     Schema.primary_key := Some "id" |}.

Definition clinic_schema : Schema.GraphSchema :=
  {| Schema.node_types := [patient_type] |}.

Definition patient_handler : Handlers.GraphSyncHandler MemGraph.store :=
  Handlers.init MemGraph.connector clinic_schema EmptyString.

Definition amy : MemGraph.node :=
  {| MemGraph.node_label := "Patient";
     MemGraph.node_props := [(PStr "id", PInt 7); (PStr "name", PStr "Amy")] |}.

Definition bob : MemGraph.node :=
  {| MemGraph.node_label := "Patient";
     MemGraph.node_props := [(PStr "id", PInt 8); (PStr "name", PStr "Bob")] |}.

Definition ward : MemGraph.node :=
  {| MemGraph.node_label := "Ward";
     MemGraph.node_props := [(PStr "id", PInt 1)] |}.

Definition clinic : MemGraph.store := [amy; ward; bob].

Definition truncate_patients : ChangeEvent nat := event_on "patients" TRUNCATE.

End Examples.

(** ** The manager driven by its threads *)

Module ManagerRun.
Import Py Base Manager.

Section Run.

Context `{Runtime}.

(** What the threads do to the manager: a listener thread delivers an
    event to [_handle_change]; the flush thread wakes up and makes a turn
    of its loop with the clock reading it takes. *)
Inductive step : Type :=
| Ingest (event : Event)
| Wake (current_time : float).

(** A schedule of such steps, each running to its end before the next;
    the [last_process_time] of the flush thread is threaded through. *)
Fixpoint run (steps : list step) (last_process_time : float) : M float :=
  match steps with
  | [] => ret last_process_time
  | Ingest event :: rest => mbind (_handle_change event) (fun _ => run rest last_process_time)
  | Wake current_time :: rest =>
      mbind (_batch_processor_turn current_time last_process_time)
        (fun last => run rest last)
  end.

(** The events a schedule delivers, in order. *)
Fixpoint ingested (steps : list step) : list Event :=
  match steps with
  | [] => []
  | Ingest event :: rest => event :: ingested rest
  | Wake _ :: rest => ingested rest
  end.

(** The [handle_change] calls of a trace: handler position and argument. *)
Fixpoint change_calls (tr : list action) : list (nat * Event) :=
  match tr with
  | [] => []
  | CallHandleChange i event :: tr' => (i, event) :: change_calls tr'
  | _ :: tr' => change_calls tr'
  end.


(** The number of events given to [handle_batch] calls that returned, and
    the number of such calls. *)
Fixpoint processed_events (tr : list action) : Z :=
  match tr with
  | [] => 0
  | ReturnHandleBatch _ events None :: tr' => len events + processed_events tr'
  | _ :: tr' => processed_events tr'
  end.

Fixpoint returned_batches (tr : list action) : Z :=
  match tr with
  | [] => 0
  | ReturnHandleBatch _ _ None :: tr' => 1 + returned_batches tr'
  | _ :: tr' => returned_batches tr'
  end.



(** The total size of a list of calls. *)
Definition total_size (calls : list (nat * list Event)) : Z :=
  fold_right (fun c n => len (snd c) + n)%Z 0%Z calls.

(** The world after the listeners have been gone through with [f],
    whatever each call returned or raised. *)
Definition after_listeners (f : CDCListener -> W -> W * option exn)
    (ls : list (string * CDCListener)) (w : W) : W :=
  fold_left (fun w nl => fst (f (snd nl) w)) ls w.

End Run.

End ManagerRun.

(** ** The listener's worker loop and its switches *)

Module ListenerRun.
Import Py Base PostgresListener.

(** The value a column array gives to the name [n]: that of the last
    column so named, [None] (the Python value) when that column has no
    [value] key. *)
Definition column_value_of (n : string) (cols : list pyval) : option pyval :=
  fold_left
    (fun found col =>
       match col with
       | PDict c =>
           match dict_get (PStr "name") c with
           | Some (PStr m) =>
               if String.eqb m n then
                 Some (match dict_get (PStr "value") c with
                       | Some v => v
                       | None => PNone
                       end)
               else found
           | _ => found
           end
       | _ => found
       end)
    cols None.

(** A column object whose name is a str. *)
Definition named_column (col : pyval) : bool :=
  match col with
  | PDict c =>
      match dict_get (PStr "name") c with
      | Some (PStr _) => true
      | _ => false
      end
  | _ => false
  end.

Definition set_is_running (b : bool) (self : PostgreSQLCDCListener)
    : PostgreSQLCDCListener :=
  {| slot_name := slot_name self;
     publication_name := publication_name self;
     is_running := b;
     current_position := current_position self |}.

(** [start_streaming]: the result tells whether a worker thread is
    started. *)
Definition start_streaming (self : PostgreSQLCDCListener)
    : PostgreSQLCDCListener * bool :=
  if is_running self then (self, false)
  else (set_is_running true self, true).

(** [stop_streaming]: the result tells whether the stop event is set and
    the worker joined. *)
Definition stop_streaming (self : PostgreSQLCDCListener)
    : PostgreSQLCDCListener * bool :=
  if is_running self then (set_is_running false self, true)
  else (self, false).

Section Worker.

Context `{Runtime}.





End Worker.

End ListenerRun.

(** ** The handler's table map and batches, read as a whole *)

Module HandlerSpec.
Import Py Base Handlers.

(** The node type a schema declares for the table [t]: the last one, in
    the order of the schema, whose source table is [t]. *)
Definition declared_for (t : string) (nts : list Schema.NodeType)
    : option Schema.NodeType :=
  find (fun nt =>
          match Schema.source_table nt with
          | Some s => String.eqb s t
          | None => false
          end)
       (rev nts).

(** The name a table value looks a node type up with: a str. *)
Definition table_name (t : pyval) : option string :=
  match t with
  | PStr s => Some s
  | _ => None
  end.

Section Spec.

Context `{Runtime}.

(** The node an insert event stands for in the reference store: none
    when the table has no node type. *)
Definition node_of_insert (self : GraphSyncHandler MemGraph.store)
    (event : ChangeEvent datetime) : list MemGraph.node :=
  match table_name (table event) with
  | Some t =>
      match table_map_get t (table_to_node_type self) with
      | Some nt =>
          [{| MemGraph.node_label := Schema.label nt;
              MemGraph.node_props := _prepare_properties (new_data event) nt |}]
      | None => []
      end
  | None => []
  end.

(** What holds of the groups [_batch_insert] builds: a group is not
    empty, its key can be hashed, and its events look up the node type
    its key looks up. *)
Definition groups_ok (groups : list (pyval * list (ChangeEvent datetime))) : Prop :=
  Forall (fun g =>
            hashable (fst g) = true /\ snd g <> [] /\
            Forall (fun e => table_name (table e) = table_name (fst g)) (snd g))
         groups.

End Spec.

End HandlerSpec.

(** ** handlers.py: the embedding-sync handler, and [VectorStore.add_vectors] *)

Module EmbeddingHandlers.
Import Py Base Handlers.

(** The two methods of [EmbeddingService] the handler calls, acting on
    the service's side [S] of the world; [V] is an embedding vector. *)
Record EmbeddingService (S V : Type) : Type := {
  embed_text : string -> S -> S * exc V;
  embed_texts : list string -> S -> S * exc (list V)
}.
Arguments embed_text {S V} _ _ _.
Arguments embed_texts {S V} _ _ _.

(** [VectorStore]: the FAISS index [I] and the list of metadata. *)
Record VectorStore (I : Type) : Type := {
  index : I;
  store_metadata : list pydict
}.
Arguments index {I} _.
Arguments store_metadata {I} _.

Definition mismatch : exn :=
  Exn (OtherException "ValueError")
      "Number of vectors must match number of metadata items".

Section EmbeddingSync.

Context `{Runtime}.
Variables S V I : Type.

(** [t.isoformat()]. *)
Variable isoformat : datetime -> string.

(** [np.array(vectors)] followed by [index.add]: the index afterwards,
    and the exception if one is raised. *)
Variable index_add : list V -> I -> I * option exn.

(** [VectorStore.add_vectors].  Saving to disk afterwards changes nothing
    in memory and raises nothing: [_auto_save] catches every exception. *)
Definition add_vectors (vectors : list V) (metadata : list pydict)
    (store : VectorStore I) : VectorStore I * option exn :=
  if Nat.eqb (List.length vectors) (List.length metadata) then
    match index_add vectors (index store) with
    | (i, None) =>
        ({| index := i; store_metadata := store_metadata store ++ metadata |}, None)
    | (i, Some e) =>
        ({| index := i; store_metadata := store_metadata store |}, Some e)
    end
  else (store, Some mismatch).

Record EmbeddingSyncHandler : Type := {
  embedding_service : EmbeddingService S V;
  graph_schema : Schema.GraphSchema;
  table_to_node_type : table_map
}.

(** [EmbeddingSyncHandler.__init__]. *)
Definition init (embedding_service : EmbeddingService S V)
    (graph_schema : Schema.GraphSchema) : EmbeddingSyncHandler :=
  {| embedding_service := embedding_service;
     graph_schema := graph_schema;
     table_to_node_type :=
       fold_left
         (fun m nt =>
            match Schema.source_table nt with
            | Some t => if String.eqb t EmptyString then m else table_map_set t nt m
            | None => m
            end)
         (Schema.node_types graph_schema) [] |}.

(** Handler code: it acts on the service and on the vector store, and
    returns or raises. *)
Definition E_ (A : Type) : Type := S * VectorStore I -> S * VectorStore I * exc A.

(** [_create_text_representation]. *)
Definition _create_text_representation (data : pydict) (node_type : Schema.NodeType)
    : string :=
  String.concat ", "
    (("Label: " ++ Schema.label node_type)%string ::
     flat_map
       (fun kv =>
          match snd kv with
          | PNone => []
          | value => [(format_value (fst kv) ++ ": " ++ format_value value)%string]
          end)
       data).

(** [self.table_to_node_type.get(table)], once the key is hashed. *)
Definition lookup (self : EmbeddingSyncHandler) (table : pyval)
    : option Schema.NodeType :=
  match table with
  | PStr t => table_map_get t (table_to_node_type self)
  | _ => None
  end.

(** [_handle_insert]. *)
Definition _handle_insert (self : EmbeddingSyncHandler)
    (event : ChangeEvent datetime) : E_ unit :=
  fun st =>
    let '(s, store) := st in
    if hashable (table event) then
      match lookup self (table event), new_data event with
      | Some nt, Some ((_ :: _) as data) =>
          let text := _create_text_representation data nt in
          match embed_text (embedding_service self) text s with
          | (s', Ret embedding) =>
              let metadata :=
                [(PStr "table", table event);
                 (PStr "label", PStr (Schema.label nt));
                 (PStr "timestamp", PStr (isoformat (timestamp event)))] in
              match add_vectors [embedding] [metadata] store with
              | (store', None) => (s', store', Ret tt)
              | (store', Some e) => (s', store', Raise e)
              end
          | (s', Raise e) => (s', store, Raise e)
          end
      | _, _ => (s, store, Ret tt)
      end
    else (s, store, Raise (Exn TypeError "unhashable type")).

(** [_handle_update]. *)
Definition _handle_update (self : EmbeddingSyncHandler)
    (event : ChangeEvent datetime) : E_ unit :=
  _handle_insert self event.

(** [_handle_delete]: it writes to the log only. *)
Definition _handle_delete (self : EmbeddingSyncHandler)
    (event : ChangeEvent datetime) : E_ unit :=
  fun st => (st, Ret tt).

(** [handle_change]: the single-event entry point. *)
Definition handle_change (self : EmbeddingSyncHandler)
    (event : ChangeEvent datetime) : E_ unit :=
  match operation event with
  | INSERT => _handle_insert self event
  | UPDATE => _handle_update self event
  | DELETE => _handle_delete self event
  | TRUNCATE | DDL => fun st => (st, Ret tt)
  end.

(** The loop of [handle_batch] that gathers [texts] and [metadatas]. *)
Fixpoint gather (self : EmbeddingSyncHandler) (events : list (ChangeEvent datetime))
    (texts : list string) (metadatas : list pydict)
    : exc (list string * list pydict) :=
  match events with
  | [] => Ret (texts, metadatas)
  | event :: rest =>
      match operation event with
      | INSERT | UPDATE =>
          if hashable (table event) then
            match lookup self (table event), new_data event with
            | Some nt, Some ((_ :: _) as data) =>
                let text := _create_text_representation data nt in
                let metadata :=
                  [(PStr "table", table event);
                   (PStr "label", PStr (Schema.label nt));
                   (PStr "operation", PStr (ChangeOperation_value (operation event)));
                   (PStr "timestamp", PStr (isoformat (timestamp event)))] in
                gather self rest (texts ++ [text]) (metadatas ++ [metadata])
            | _, _ => gather self rest texts metadatas
            end
          else Raise (Exn TypeError "unhashable type")
      | _ => gather self rest texts metadatas
      end
  end.

(** [handle_batch]: the batch entry point. *)
Definition handle_batch (self : EmbeddingSyncHandler)
    (events : list (ChangeEvent datetime)) : E_ unit :=
  fun st =>
    let '(s, store) := st in
    match gather self events [] [] with
    | Raise e => (s, store, Raise e)
    | Ret ([], _) => (s, store, Ret tt)
    | Ret ((_ :: _) as texts, metadatas) =>
        match embed_texts (embedding_service self) texts s with
        | (s', Ret embeddings) =>
            match add_vectors embeddings metadatas store with
            | (store', None) => (s', store', Ret tt)
            | (store', Some e) => (s', store', Raise e)
            end
        | (s', Raise e) => (s', store, Raise e)
        end
    end.

(** [can_handle]. *)
Definition can_handle (self : EmbeddingSyncHandler) (event : ChangeEvent datetime)
    : exc bool :=
  if hashable (table event) then
    Ret (match lookup self (table event) with
         | Some _ => true
         | None => false
         end)
  else Raise (Exn TypeError "unhashable type").

(** Events handled one after the other, as [_process_event] hands them
    over, up to the first exception. *)
Fixpoint handle_each (self : EmbeddingSyncHandler)
    (events : list (ChangeEvent datetime)) : E_ unit :=
  fun st =>
    match events with
    | [] => (st, Ret tt)
    | event :: rest =>
        match handle_change self event st with
        | (st', Ret _) => handle_each self rest st'
        | (st', Raise e) => (st', Raise e)
        end
    end.

(** The events a batch embeds: inserts and updates of a table with a node
    type, with a row that is not empty. *)
Definition embedded (self : EmbeddingSyncHandler) (event : ChangeEvent datetime)
    : option (Schema.NodeType * pydict) :=
  match operation event with
  | INSERT | UPDATE =>
      match lookup self (table event), new_data event with
      | Some nt, Some ((_ :: _) as data) => Some (nt, data)
      | _, _ => None
      end
  | _ => None
  end.

(** The metadata a batch stores for such an event. *)
Definition batch_metadata (self : EmbeddingSyncHandler)
    (event : ChangeEvent datetime) : list pydict :=
  match embedded self event with
  | Some (nt, _) =>
      [[(PStr "table", table event);
        (PStr "label", PStr (Schema.label nt));
        (PStr "operation", PStr (ChangeOperation_value (operation event)));
        (PStr "timestamp", PStr (isoformat (timestamp event)))]]
  | None => []
  end.

(** The text a batch sends to the service for such an event. *)
Definition batch_text (self : EmbeddingSyncHandler)
    (event : ChangeEvent datetime) : list string :=
  match embedded self event with
  | Some (nt, data) => [_create_text_representation data nt]
  | None => []
  end.

End EmbeddingSync.

Arguments add_vectors {V I} index_add vectors metadata store.
Arguments EmbeddingSyncHandler S V : clear implicits.
Arguments init {S V} embedding_service graph_schema.
Arguments embedding_service {S V} _.
Arguments table_to_node_type {S V} _.
Arguments lookup {S V} self table.
Arguments _handle_insert {H S V I} isoformat index_add self event _.
Arguments handle_change {H S V I} isoformat index_add self event _.
Arguments handle_batch {H S V I} isoformat index_add self events _.
Arguments handle_each {H S V I} isoformat index_add self events _.
Arguments gather {H S V} isoformat self events texts metadatas.
Arguments can_handle {H S V} self event.
Arguments embedded {H S V} self event.
Arguments batch_metadata {H S V} isoformat self event.
Arguments batch_text {H S V} self event.

End EmbeddingHandlers.

(** ** More concrete systems for the worked examples *)

Module MoreExamples.
Import Py Base Example Examples.

(** *** Manager *)


(** Two deliveries, a turn of the flush thread after the timeout, and one
    more delivery. *)
Definition schedule : list ManagerRun.step :=
  [ManagerRun.Ingest e1; ManagerRun.Ingest e2; ManagerRun.Wake 10; ManagerRun.Ingest e3].

(** *** Listener *)

(** The event of the example payload, received at midnight. *)
Definition patients_event : ChangeEvent nat :=
  {| operation := INSERT;
     table := PStr "patients";
     schema := PStr "public";
     timestamp := 0;
     database_type := "postgres";
     old_data := None;
     new_data := Some [(PStr "id", PInt 7); (PStr "name", PStr "Amy")];
     primary_key := Some [(PStr "id", PInt 7)];
     ddl_statement := None;
     transaction_id := PNone;
     lsn := PNone;
     position := None;
     metadata :=
       [(PStr "publication", PStr "graph_sync_pub");
        (PStr "slot", PStr "graph_sync_slot");
        (PStr "plugin", PStr "wal2json");
        (PStr "nextlsn", PNone)] |}.

Definition patients_columns : list pyval :=
  [PDict [(PStr "name", PStr "id"); (PStr "value", PInt 7)];
   PDict [(PStr "name", PStr "name"); (PStr "value", PStr "Amy")]].

(** Envelopes of one transaction with one change, with two and with
    none. *)
Definition insert_patient : pyval :=
  PDict [(PStr "action", PStr "I"); (PStr "table", PStr "patients")].
Definition delete_visit : pyval :=
  PDict [(PStr "action", PStr "D"); (PStr "table", PStr "visits")].

Definition envelope (changes : list pyval) : pydict :=
  [(PStr "xid", PInt 5); (PStr "change", PList changes)].

Definition one_change_payload : string :=
  Example.json "{'xid':5,'change':[{'action':'I','table':'patients'}]}".
Definition two_change_payload : string :=
  Example.json
    "{'xid':5,'change':[{'action':'I','table':'patients'},{'action':'D','table':'visits'}]}".
Definition no_change_payload : string := Example.json "{'xid':5,'change':[]}".





(** *** Graph-sync handler *)

(** An update and a delete of the row with key 0. *)
Definition keyed (op : ChangeOperation) (key : Z) : ChangeEvent nat :=
  {| operation := op;
     table := PStr "patients";
     schema := PStr "public";
     timestamp := 0;
     database_type := "postgres";
     old_data := None;
     new_data := Some [(PStr "id", PInt key); (PStr "name", PStr "Amy")];
     primary_key := Some [(PStr "id", PInt key)];
     ddl_statement := None;
     transaction_id := PNone;
     lsn := PNone;
     position := None;
     metadata := [] |}.

Definition visit_type : Schema.NodeType :=
  {| Schema.label := "Visit";
     Schema.properties := [{| Schema.name := "id" |}];
     Schema.source_table := Some "visits";
     Schema.primary_key := Some "id" |}.

(** *** Embedding-sync handler *)

(** A service that records the texts it is sent and embeds a text as its
    length; an index that counts its vectors. *)
Definition length_service : EmbeddingHandlers.EmbeddingService (list string) nat :=
  {| EmbeddingHandlers.embed_text := fun text s => (s ++ [text], Ret (String.length text));
     EmbeddingHandlers.embed_texts := fun texts s =>
       (s ++ texts, Ret (map String.length texts)) |}.

Definition counting_index (vectors : list nat) (i : nat) : nat * option exn :=
  (i + List.length vectors, None).

Definition patient_embedder : EmbeddingHandlers.EmbeddingSyncHandler (list string) nat :=
  EmbeddingHandlers.init length_service clinic_schema.

Definition empty_store : EmbeddingHandlers.VectorStore nat :=
  {| EmbeddingHandlers.index := 0; EmbeddingHandlers.store_metadata := [] |}.

End MoreExamples.

(** * Properties of the listener *)

Module ListenerFacts.
Import Py Base PostgresListener ListenerSpec.

Section Facts.

Context `{Runtime}.

Lemma derive_primary_key_spec (old_data new_data : option pydict) :
  derive_primary_key old_data new_data = spec_primary_key old_data new_data.
Proof.
  unfold derive_primary_key, spec_primary_key, _extract_pk_from_data.
  destruct old_data as [[|c cs]|]; destruct new_data as [[|n ns]|]; reflexivity.
Qed.

Lemma build_row_items_ok (items : list pyval) :
  forallb column_ok items = true ->
  forall acc, exists d, build_row_items items acc = Ret d.
Proof.
  induction items as [|col rest IH]; intros Hok acc; simpl in *.
  - eauto.
  - apply andb_true_iff in Hok as [Hc Hr].
    destruct col as [| | | | | |c]; simpl in Hc; try discriminate.
    simpl. destruct (dict_get (PStr "name") c) as [k|]; try discriminate.
    simpl. destruct (dict_get (PStr "value") c); simpl; rewrite Hc; apply IH, Hr.
Qed.

Lemma optional_row_ok (d : pydict) (key : string) :
  columns_ok (dict_get (PStr key) d) = true ->
  exists r, optional_row (PDict d) key = Ret r.
Proof.
  unfold columns_ok, optional_row, str_in, dict_has, subscript_str, build_row.
  destruct (dict_get (PStr key) d) as [cols|]; simpl; [|eauto].
  destruct (py_iter cols) as [items|]; simpl; [|discriminate].
  intros Hok. destruct (build_row_items_ok items Hok []) as [r ->]. simpl. eauto.
Qed.

Lemma select_change_dict (data : pyval) (d : pydict) :
  select_change data = Ret (Some (PDict d)) -> exists dd, data = PDict dd.
Proof.
  unfold select_change.
  destruct data as [| | | |s|l|dd]; simpl; try discriminate; [| |eauto].
  - destruct (index 0 "change" s); simpl; discriminate.
  - destruct (existsb _ l); simpl; discriminate.
Qed.

Lemma code_cases (code : string) (op : ChangeOperation) :
  operation_of_code code = Some op ->
  (code = "I" /\ op = INSERT) \/ (code = "U" /\ op = UPDATE) \/
  (code = "D" /\ op = DELETE) \/ (code = "T" /\ op = TRUNCATE).
Proof.
  unfold operation_of_code.
  destruct (String.eqb_spec code "I"); [intros [= <-]; auto|].
  destruct (String.eqb_spec code "U"); [intros [= <-]; auto|].
  destruct (String.eqb_spec code "D"); [intros [= <-]; auto 6|].
  destruct (String.eqb_spec code "T"); [intros [= <-]; auto 6|].
  discriminate.
Qed.

(** A valid change record with a mapped action code parses to an event. *)
Lemma parse_change_valid (self : PostgreSQLCDCListener) (now : datetime)
    (dd d : pydict) (code : string) (op : ChangeOperation) :
  action_of (PDict d) = Ret (PStr code) ->
  operation_of_code code = Some op ->
  valid_change (PDict d) = true ->
  exists ev,
    parse_change self now (PDict dd) (PDict d) = Ret ([], Some ev) /\
    operation ev = op /\
    dict_get (PStr "table") d = Some (table ev) /\
    schema ev = match dict_get (PStr "schema") d with
                | Some s => s
                | None => PStr "public"
                end /\
    optional_row (PDict d) "columns" = Ret (new_data ev) /\
    optional_row (PDict d) "identity" = Ret (old_data ev) /\
    primary_key ev = derive_primary_key (old_data ev) (new_data ev).
Proof.
  intros Hact Hop Hvalid.
  unfold valid_change in Hvalid.
  apply andb_true_iff in Hvalid as [Hvalid Hid].
  apply andb_true_iff in Hvalid as [Htab Hcols].
  destruct (optional_row_ok d "columns" Hcols) as [nd Hnd].
  destruct (optional_row_ok d "identity" Hid) as [od Hod].
  destruct (dict_get (PStr "table") d) as [t|] eqn:Ht; [|discriminate].
  unfold parse_change. rewrite Hact.
  assert (Hmap : (is_str "B" (PStr code) || is_str "C" (PStr code) = false)
                 /\ action_map_get (PStr code) = Ret (Some op)).
  { destruct (code_cases code op Hop) as [[-> ->]|[[-> ->]|[[-> ->]|[-> ->]]]];
      split; reflexivity. }
  destruct Hmap as [HBC Hmap].
  cbn [bind]. rewrite HBC, Hmap. cbn [bind].
  unfold meth_get at 1 2. rewrite Ht.
  destruct (dict_get (PStr "schema") d) as [sc|] eqn:Hsc; cbn [bind];
    rewrite Htab; cbn [negb]; rewrite Hnd, Hod; cbn [bind];
    unfold str_in, subscript_str, meth_get, dict_has;
    destruct (dict_get (PStr "timestamp") d); cbn [bind];
    destruct (dict_get (PStr "lsn") d); cbn [bind];
    destruct (dict_get (PStr "xid") dd); cbn [bind];
    destruct (dict_get (PStr "nextlsn") dd); cbn [bind];
    eexists; (split; [reflexivity|]); cbn; auto 10.
Qed.

(** Whatever [parse_change] returns as an event has its row data built
    from the arrays of the change record and its key derived from them. *)
Lemma parse_change_Some (self : PostgreSQLCDCListener) (now : datetime)
    (data change : pyval) (log : list log_entry) (ev : ChangeEvent datetime) :
  parse_change self now data change = Ret (log, Some ev) ->
  optional_row change "columns" = Ret (new_data ev) /\
  optional_row change "identity" = Ret (old_data ev) /\
  primary_key ev = derive_primary_key (old_data ev) (new_data ev).
Proof.
  unfold parse_change. intros Hp.
  destruct (action_of change) as [action|]; cbn [bind] in Hp; [|discriminate].
  destruct (is_str "B" action || is_str "C" action); [discriminate|].
  destruct (action_map_get action) as [[op|]|]; cbn [bind] in Hp; try discriminate.
  destruct (meth_get change "schema" (PStr "public")) as [sc|]; cbn [bind] in Hp;
    [|discriminate].
  destruct (meth_get change "table" PNone) as [t|]; cbn [bind] in Hp; [|discriminate].
  destruct (negb (truthy t)); [discriminate|].
  destruct (optional_row change "columns") as [nd|]; cbn [bind] in Hp; [|discriminate].
  destruct (optional_row change "identity") as [od|]; cbn [bind] in Hp; [|discriminate].
  step_binds Hp; injection Hp as _ <-; cbn; auto.
Qed.

Lemma parse_change_control (self : PostgreSQLCDCListener) (now : datetime)
    (data change : pyval) (code : string) :
  action_of change = Ret (PStr code) ->
  code = "B" \/ code = "C" ->
  parse_change self now data change =
    Ret ([(DEBUG, "Ignoring transaction control message")], None).
Proof.
  intros Hact [-> | ->]; unfold parse_change; rewrite Hact; reflexivity.
Qed.

Lemma parse_change_no_table (self : PostgreSQLCDCListener) (now : datetime)
    (data change : pyval) :
  lacks_table change = true ->
  match parse_change self now data change with
  | Ret (log, r) => r = None /\ log <> []
  | Raise _ => True
  end.
Proof.
  destruct change as [| | | | | |d]; try discriminate. unfold lacks_table.
  intros Hno. unfold parse_change.
  destruct (action_of (PDict d)) as [action|]; cbn [bind]; [|exact I].
  destruct (is_str "B" action || is_str "C" action); [split; [reflexivity|discriminate]|].
  destruct (action_map_get action) as [[op|]|]; cbn [bind];
    [|split; [reflexivity|discriminate]|exact I].
  unfold meth_get at 1 2.
  destruct (dict_get (PStr "schema") d); cbn [bind];
    destruct (dict_get (PStr "table") d) as [t|]; cbn [bind];
    try (rewrite Hno); cbn; (split; [reflexivity|discriminate]).
Qed.

Lemma parse_wal2json_of_try (self : PostgreSQLCDCListener) (now : datetime)
    (payload : string) r :
  parse_try self now payload = Ret r -> _parse_wal2json self now payload = r.
Proof. unfold _parse_wal2json. now intros ->. Qed.

(** C3.  After [_process_message] the listener's [current_position] is
    the text of the message's offset, whatever the payload is and whatever
    the callback and the feedback call do.  The assignment comes before the
    parse: the event handed to the callback is the one parsed by the
    listener that already has the new position. *)
Theorem process_message_sets_position :
  forall (self : PostgreSQLCDCListener) (msg : message) (callback : callback_t) (w : W),
    let '(self', w', _) := _process_message self msg callback w in
    let positioned := set_current_position (Some (str_int (data_start msg))) self in
    current_position self' = Some (str_int (data_start msg)) /\
    self' = positioned /\
    match snd (_parse_wal2json positioned (datetime_now w) (payload msg)) with
    | Some ev =>
        w' = match callback ev w with
             | (w1, Some _) => w1
             | (w1, None) => fst (send_feedback (data_start msg) w1)
             end
    | None => w' = fst (send_feedback (data_start msg) w)
    end.
Proof.
  intros self msg callback w. unfold _process_message.
  destruct (_parse_wal2json _ _ _) as [plog [ev|]]; cbn [snd].
  - destruct (callback ev w) as [w' [e|]].
    + cbn. auto.
    + destruct (send_feedback (data_start msg) w') as [w2 [e|]]; cbn; auto.
  - destruct (send_feedback (data_start msg) w) as [w2 [e|]]; cbn; auto.
Qed.

(** C7.  A payload whose change record is valid and carries the action
    code I, U, D or T parses to an event with the mapped operation, the
    table of the record and its schema; a payload whose action code is B or
    C parses to no event. *)
Theorem parse_maps_action_codes :
  forall (self : PostgreSQLCDCListener) (now : datetime) (payload : string)
         (data : pyval) (d : pydict) (code : string),
    json_loads payload = Ret data ->
    select_change data = Ret (Some (PDict d)) ->
    action_of (PDict d) = Ret (PStr code) ->
    (forall op,
        operation_of_code code = Some op ->
        valid_change (PDict d) = true ->
        exists ev,
          snd (_parse_wal2json self now payload) = Some ev /\
          operation ev = op /\
          dict_get (PStr "table") d = Some (table ev) /\
          (forall s, dict_get (PStr "schema") d = Some s -> schema ev = s)) /\
    (code = "B" \/ code = "C" -> snd (_parse_wal2json self now payload) = None).
Proof.
  intros self now payload data d code Hload Hsel Hact.
  destruct (select_change_dict data d Hsel) as [dd ->].
  split.
  - intros op Hop Hvalid.
    destruct (parse_change_valid self now dd d code op Hact Hop Hvalid)
      as (ev & Hp & Ho & Ht & Hs & _).
    exists ev. split; [|split; [exact Ho|split; [exact Ht|]]].
    + rewrite (parse_wal2json_of_try self now payload ([], Some ev)); [reflexivity|].
      unfold parse_try. rewrite Hload. cbn [bind]. rewrite Hsel. cbn [bind]. exact Hp.
    + intros s Hd. rewrite Hs, Hd. reflexivity.
  - intros Hbc.
    rewrite (parse_wal2json_of_try self now payload
               ([(DEBUG, "Ignoring transaction control message")], None));
      [reflexivity|].
    unfold parse_try. rewrite Hload. cbn [bind]. rewrite Hsel. cbn [bind].
    apply (parse_change_control self now (PDict dd) (PDict d) code); assumption.
Qed.

(** C8.  The primary key of every parsed event is the one the
    specification describes: old-data when there are identity columns,
    else the [id] column of new-data, else none; old-data and new-data are
    the rows built from the [identity] and [columns] arrays of the change
    record.  The example insert payload for table patients parses to the
    event of the specification. *)
Theorem primary_key_derivation :
  forall (self : PostgreSQLCDCListener) (now : datetime) (payload : string),
    (forall data change ev,
        json_loads payload = Ret data ->
        select_change data = Ret (Some change) ->
        snd (_parse_wal2json self now payload) = Some ev ->
        optional_row change "identity" = Ret (old_data ev) /\
        optional_row change "columns" = Ret (new_data ev) /\
        primary_key ev = spec_primary_key (old_data ev) (new_data ev)) /\
    (json_loads payload = Ret patients_document ->
     exists ev,
       snd (_parse_wal2json self now payload) = Some ev /\
       operation ev = INSERT /\
       table ev = PStr "patients" /\
       schema ev = PStr "public" /\
       new_data ev = Some [(PStr "id", PInt 7); (PStr "name", PStr "Amy")] /\
       old_data ev = None /\
       primary_key ev = Some [(PStr "id", PInt 7)]).
Proof.
  intros self now payload. split.
  - intros data change ev Hload Hsel Hev.
    unfold _parse_wal2json in Hev.
    destruct (parse_try self now payload) as [[log r]|e] eqn:Htry.
    + cbn in Hev. subst r.
      unfold parse_try in Htry. rewrite Hload in Htry. cbn [bind] in Htry.
      rewrite Hsel in Htry. cbn [bind] in Htry.
      apply parse_change_Some in Htry as (Hn & Ho & Hk).
      rewrite <- derive_primary_key_spec. auto.
    + destruct (exn_cls e); discriminate.
  - intros Hload.
    unfold _parse_wal2json, parse_try. rewrite Hload.
    eexists. split; [reflexivity|]. cbn. auto 10.
Qed.

(** C9.  A payload that is not valid JSON, and a payload whose change
    record has no table name, parse to no event and leave a log record;
    [_process_message] then does not call the callback, acknowledges the
    offset and returns. *)
Theorem parse_drops_malformed :
  forall (self : PostgreSQLCDCListener) (now : datetime) (payload : string),
    (forall e,
        json_loads payload = Raise e ->
        exn_cls e = JSONDecodeError ->
        _parse_wal2json self now payload =
          ([(ERROR, "Error parsing wal2json JSON"); (DEBUG, "Payload")], None)) /\
    (forall data change,
        json_loads payload = Ret data ->
        select_change data = Ret (Some change) ->
        lacks_table change = true ->
        snd (_parse_wal2json self now payload) = None /\
        fst (_parse_wal2json self now payload) <> [] /\
        (forall code op,
            action_of change = Ret (PStr code) ->
            operation_of_code code = Some op ->
            fst (_parse_wal2json self now payload) =
              [(WARNING, "No table name in wal2json output")])) /\
    (forall (msg : message) (callback : callback_t) (w : W),
        snd (_parse_wal2json
               (set_current_position (Some (str_int (data_start msg))) self)
               (datetime_now w) (PostgresListener.payload msg)) = None ->
        fst (_process_message self msg callback w) =
          (set_current_position (Some (str_int (data_start msg))) self,
           fst (send_feedback (data_start msg) w))).
Proof.
  intros self now payload. split; [|split].
  - intros e Hload Hcls. unfold _parse_wal2json, parse_try.
    rewrite Hload. cbn [bind]. rewrite Hcls. reflexivity.
  - intros data change Hload Hsel Hno.
    pose proof (parse_change_no_table self now data change Hno) as Hp.
    assert (Htry : parse_try self now payload = parse_change self now data change).
    { unfold parse_try. rewrite Hload. cbn [bind]. rewrite Hsel. reflexivity. }
    split; [|split].
    + unfold _parse_wal2json. rewrite Htry.
      destruct (parse_change self now data change) as [[log r]|e].
      * apply Hp.
      * destruct (exn_cls e); reflexivity.
    + unfold _parse_wal2json. rewrite Htry.
      destruct (parse_change self now data change) as [[log r]|e].
      * apply Hp.
      * destruct (exn_cls e); discriminate.
    + intros code op Hact Hop.
      unfold _parse_wal2json. rewrite Htry.
      destruct change as [| | | | | |d]; try discriminate.
      unfold lacks_table in Hno. unfold parse_change. rewrite Hact.
      destruct (code_cases code op Hop) as [[-> ->]|[[-> ->]|[[-> ->]|[-> ->]]]];
        cbn [bind]; cbn -[dict_get]; unfold meth_get;
        destruct (dict_get (PStr "schema") d); cbn [bind];
        destruct (dict_get (PStr "table") d); cbn [bind];
        try rewrite Hno; reflexivity.
  - intros msg callback w Hnone. unfold _process_message.
    destruct (_parse_wal2json _ _ _) as [plog ev]. cbn in Hnone. subst ev.
    destruct (send_feedback (data_start msg) w) as [w2 [e|]]; reflexivity.
Qed.

End Facts.

End ListenerFacts.

(** * Properties of the manager *)

Module ManagerFacts.
Import Py Base Manager ManagerSpec.

Section Facts.

Context `{Runtime}.

(** ** Sequencing *)

Lemma mbind_run {A B : Type} (c : M A) (k : A -> M B) (s : sys) :
  mbind c k s =
    (result (k (result (c s)) (final (c s))),
     final (k (result (c s)) (final (c s))),
     actions (c s) ++ actions (k (result (c s)) (final (c s)))).
Proof.
  unfold mbind, result, final, actions.
  destruct (c s) as [[a s1] t1]. cbn.
  destruct (k a s1) as [[b s2] t2]. reflexivity.
Qed.

(** ** Reading traces piecewise *)

Lemma flushes_app (t1 t2 : list action) :
  flushes (t1 ++ t2) = flushes t1 ++ flushes t2.
Proof.
  induction t1 as [|a t1 IH]; [reflexivity|].
  destruct a; cbn; rewrite IH; reflexivity.
Qed.

Lemma batch_calls_app (t1 t2 : list action) :
  batch_calls (t1 ++ t2) = batch_calls t1 ++ batch_calls t2.
Proof.
  induction t1 as [|a t1 IH]; [reflexivity|].
  destruct a; cbn; rewrite IH; reflexivity.
Qed.

Lemma failed_events_app (t1 t2 : list action) :
  failed_events (t1 ++ t2) = (failed_events t1 + failed_events t2)%Z.
Proof.
  induction t1 as [|a t1 IH]; [reflexivity|].
  destruct a as [| | | |i ev [e|]| |]; cbn; rewrite IH; lia.
Qed.




(** ** One handler's turn in [_process_batch] *)

Lemma batch_turn_run (events : list Event) (i : nat) (h : CDCHandler) (s : sys) :
  let sub := filter (can_handle h) events in
  let out := handle_batch h sub (world s) in
  _process_batch_handler events i h s =
    match sub with
    | [] => (tt, s, [])
    | _ :: _ =>
        (tt,
         {| mgr :=
              set_metrics
                match snd out with
                | None =>
                    {| events_received := events_received (metrics (mgr s));
                       events_processed := events_processed (metrics (mgr s)) + len sub;
                       events_failed := events_failed (metrics (mgr s));
                       batches_processed := batches_processed (metrics (mgr s)) + 1;
                       last_event_time := last_event_time (metrics (mgr s));
                       errors := errors (metrics (mgr s)) |}
                | Some e =>
                    {| events_received := events_received (metrics (mgr s));
                       events_processed := events_processed (metrics (mgr s));
                       events_failed := events_failed (metrics (mgr s)) + len sub;
                       batches_processed := batches_processed (metrics (mgr s));
                       last_event_time := last_event_time (metrics (mgr s));
                       errors := errors (metrics (mgr s)) ++
                         [BatchError (class_name h) (exn_str e)
                            (datetime_now (fst out)) (len sub)] |}
                end (mgr s);
            world := fst out |},
         [CallHandleBatch i sub; ReturnHandleBatch i sub (snd out);
          Acquire MetricsLock; Release MetricsLock])
    end%Z.
Proof.
  cbn zeta. unfold _process_batch_handler.
  destruct (filter (can_handle h) events) as [|x sub]; [reflexivity|].
  unfold mbind, emit, call, with_lock, update_metrics, update, now, ret.
  cbn. destruct (handle_batch h (x :: sub) (world s)) as [w' [e|]]; reflexivity.
Qed.

Lemma batch_turn_final (events : list Event) (i : nat) (h : CDCHandler) (s : sys) :
  exists x, mgr (final (_process_batch_handler events i h s)) = set_metrics x (mgr s).
Proof.
  rewrite batch_turn_run. cbn zeta.
  destruct (filter (can_handle h) events); cbn; [|eauto].
  exists (metrics (mgr s)). destruct (mgr s); reflexivity.
Qed.

Lemma batch_turn_actions (events : list Event) (i : nat) (h : CDCHandler) (s : sys) :
  actions (_process_batch_handler events i h s) =
    match filter (can_handle h) events with
    | [] => []
    | sub =>
        [CallHandleBatch i sub;
         ReturnHandleBatch i sub (snd (handle_batch h sub (world s)));
         Acquire MetricsLock; Release MetricsLock]
    end.
Proof.
  rewrite batch_turn_run. cbn zeta.
  destruct (filter (can_handle h) events); reflexivity.
Qed.


Lemma for_handlers_cons (body : nat -> CDCHandler -> M unit) (i : nat)
    (h : CDCHandler) (hs : list CDCHandler) (s : sys) :
  for_handlers body i (h :: hs) s =
    (tt,
     final (for_handlers body (S i) hs (final (body i h s))),
     actions (body i h s) ++ actions (for_handlers body (S i) hs (final (body i h s)))).
Proof.
  cbn [for_handlers]. rewrite mbind_run. f_equal. f_equal.
  destruct (result _). reflexivity.
Qed.

(** The loop of [_process_batch] changes the metrics and the world only. *)
Lemma batch_loop_final (events : list Event) (hs : list CDCHandler) :
  forall (i : nat) (s : sys),
    exists x,
      mgr (final (for_handlers (_process_batch_handler events) i hs s)) =
        set_metrics x (mgr s).
Proof.
  induction hs as [|h hs IH]; intros i s.
  - exists (metrics (mgr s)). cbn. destruct (mgr s); reflexivity.
  - rewrite for_handlers_cons. cbn [final fst snd].
    destruct (IH (S i) (final (_process_batch_handler events i h s))) as [x ->].
    destruct (batch_turn_final events i h s) as [y ->]. exists x. reflexivity.
Qed.

(** It calls each handler that accepts some event, in registration order,
    with the events it accepts; whether earlier handlers raised does not
    matter. *)
Lemma batch_loop_calls (events : list Event) (hs : list CDCHandler) :
  forall (i : nat) (s : sys),
    batch_calls (actions (for_handlers (_process_batch_handler events) i hs s)) =
      expected_calls events i hs.
Proof.
  induction hs as [|h hs IH]; intros i s; [reflexivity|].
  rewrite for_handlers_cons. cbn [actions snd].
  rewrite batch_calls_app, IH, batch_turn_actions. cbn [expected_calls].
  destruct (filter (can_handle h) events); reflexivity.
Qed.

Lemma batch_loop_flushes (events : list Event) (hs : list CDCHandler) :
  forall (i : nat) (s : sys),
    flushes (actions (for_handlers (_process_batch_handler events) i hs s)) = [].
Proof.
  induction hs as [|h hs IH]; intros i s; [reflexivity|].
  rewrite for_handlers_cons. cbn [actions snd].
  rewrite flushes_app, IH, batch_turn_actions.
  destruct (filter (can_handle h) events); reflexivity.
Qed.










(** ** [_process_batch] *)

Lemma process_batch_run (events : list Event) (s : sys) :
  events <> [] ->
  _process_batch events s =
    (tt,
     final (for_handlers (_process_batch_handler events) 0 (handlers (mgr s)) s),
     CallProcessBatch events ::
       actions (for_handlers (_process_batch_handler events) 0 (handlers (mgr s)) s)).
Proof.
  intros Hne. unfold _process_batch. destruct events as [|x l]; [contradiction|].
  rewrite mbind_run. cbn [emit result final actions fst snd app].
  rewrite mbind_run. cbn [self result final actions fst snd app].
  f_equal. f_equal. destruct (result _). reflexivity.
Qed.




(** ** [_handle_change] with batching *)

Lemma handle_change_batching_run (event : Event) (s : sys) :
  enable_batching (mgr s) = true ->
  let m1 := count_received (datetime_now (world s)) (mgr s) in
  let q := event_queue (mgr s) ++ [event] in
  _handle_change event s =
    if (batch_size (mgr s) <=? len q)%Z then
      let r := _process_batch q {| mgr := set_event_queue [] m1; world := world s |} in
      (tt, final r,
       [Acquire MetricsLock; Release MetricsLock; Acquire QueueLock]
         ++ actions r ++ [Release QueueLock])
    else
      (tt, {| mgr := set_event_queue q m1; world := world s |},
       [Acquire MetricsLock; Release MetricsLock; Acquire QueueLock; Release QueueLock]).
Proof.
  intros Hb. cbn zeta.
  unfold _handle_change, with_lock, update_metrics, mbind, emit, self, update, now, ret.
  cbn -[_process_batch len]. rewrite Hb.
  cbn -[_process_batch len].
  destruct (batch_size (mgr s) <=? len (event_queue (mgr s) ++ [event]))%Z.
  - cbn -[_process_batch len].
    destruct (_process_batch _ _) as [[[] s3] t3]. cbn. reflexivity.
  - reflexivity.
Qed.



(** ** Locks around the flushes *)





Lemma batch_processor_turn_run (current_time last_process_time : float) (s : sys) :
  _batch_processor_turn current_time last_process_time s =
    if PrimFloat.leb (batch_timeout (mgr s)) (PrimFloat.sub current_time last_process_time)
    then
      match event_queue (mgr s) with
      | [] => (current_time, s, [Acquire QueueLock; Release QueueLock])
      | _ :: _ =>
          let r := _process_batch (event_queue (mgr s))
                     {| mgr := set_event_queue [] (mgr s); world := world s |} in
          (current_time, final r, Acquire QueueLock :: actions r ++ [Release QueueLock])
      end
    else (last_process_time, s, []).
Proof.
  unfold _batch_processor_turn, with_lock, mbind, emit, self, update, ret.
  cbn -[_process_batch].
  destruct (PrimFloat.leb _ _); [|destruct s; reflexivity].
  destruct (event_queue (mgr s)) as [|x q] eqn:Hq; cbn -[_process_batch].
  - destruct s; reflexivity.
  - destruct (_process_batch _ _) as [[[] s3] t3]. cbn. now rewrite app_nil_r.
Qed.




(** ** Start and stop *)

Lemma for_listeners_run (f : CDCListener -> W -> W * option exn)
    (ls : list (string * CDCListener)) :
  forall s : sys,
    exists w, for_listeners f ls s = (tt, {| mgr := mgr s; world := w |}, []).
Proof.
  induction ls as [|[name l] ls IH]; intros s.
  - exists (world s). destruct s; reflexivity.
  - cbn [for_listeners]. unfold mbind, call.
    destruct (f l (world s)) as [w1 r].
    destruct (IH {| mgr := mgr s; world := w1 |}) as [w2 ->]. eauto.
Qed.

(** [start_all] on a manager with batching enabled and a listener
    registered launches the flush thread. *)
Lemma start_all_launches_flush_thread (s : sys) :
  enable_batching (mgr s) = true ->
  listeners (mgr s) <> [] ->
  batch_thread (mgr (final (start_all s))) = true /\
  event_queue (mgr (final (start_all s))) = event_queue (mgr s).
Proof.
  intros Hb Hl. unfold start_all, mbind, self, update, ret.
  cbn -[for_listeners]. destruct (listeners (mgr s)) as [|[name l] ls] eqn:Els;
    [contradiction|].
  rewrite Hb. cbn -[for_listeners].
  match goal with
  | |- context [for_listeners ?f ?ls ?s0] =>
      destruct (for_listeners_run f ls s0) as [w ->]
  end.
  cbn. auto.
Qed.



(** ** Registration *)

Lemma registered_set (name : string) (l : CDCListener) (ls : list (string * CDCListener)) :
  registered name (listeners_set name l ls) = true.
Proof.
  induction ls as [|[n l'] ls IH]; cbn.
  - now rewrite String.eqb_refl.
  - destruct (String.eqb n name) eqn:Heq; cbn; rewrite Heq; [reflexivity|exact IH].
Qed.

Lemma listeners_set_fresh (name : string) (l : CDCListener)
    (ls : list (string * CDCListener)) :
  registered name ls = false -> listeners_set name l ls = ls ++ [(name, l)].
Proof.
  induction ls as [|[n l'] ls IH]; cbn; [reflexivity|].
  intros Hr. apply orb_false_iff in Hr as [Hn Hr]. rewrite Hn, (IH Hr). reflexivity.
Qed.

(** C10.  When [register_listener] is called with automatic setup for a
    name that is not registered and [setup] raises, the exception leaves
    the method and the listener stays in the registry under that name; a
    later registration under the same name fails as a duplicate and
    changes nothing. *)
Theorem register_listener_keeps_failed_setup :
  forall (s : sys) (name : string) (listener : CDCListener) (e : exn),
    registered name (listeners (mgr s)) = false ->
    snd (setup listener (world s)) = Some e ->
    let r := register_listener name listener true s in
    result r = Some e /\
    listeners (mgr (final r)) = listeners (mgr s) ++ [(name, listener)] /\
    registered name (listeners (mgr (final r))) = true /\
    forall (other : CDCListener) (auto_setup : bool),
      register_listener name other auto_setup (final r) =
        (Some (Exn CDCError ("Listener '" ++ name ++ "' already registered")),
         final r, []).
Proof.
  intros s name listener e Hfresh Hraise. cbn zeta.
  assert (Hrun : register_listener name listener true s =
                 (Some e,
                  {| mgr := set_listeners (listeners_set name listener (listeners (mgr s)))
                              (mgr s);
                     world := fst (setup listener (world s)) |}, [])).
  { unfold register_listener, mbind, self, update, call, ret. cbn.
    rewrite Hfresh. cbn.
    destruct (setup listener (world s)) as [w' r]. cbn in Hraise. subst r. reflexivity. }
  rewrite Hrun. cbn [result final fst snd mgr listeners set_listeners].
  split; [reflexivity|split; [now apply listeners_set_fresh|split; [apply registered_set|]]].
  intros other auto_setup.
  unfold register_listener, mbind, self, ret. cbn.
  rewrite registered_set. reflexivity.
Qed.

End Facts.

End ManagerFacts.

(** * Properties of the graph-sync handler *)

Module HandlerFacts.
Import Py Base Handlers.

Section Facts.

Context `{Runtime}.
Variable G : Type.

Lemma filter_other_operation (op other : ChangeOperation)
    (events : list (ChangeEvent datetime)) :
  op <> other ->
  forallb (has_operation op) events = true ->
  filter (has_operation other) events = [].
Proof.
  intros Hdiff. induction events as [|e events IH]; [reflexivity|].
  cbn. intros Hall. apply andb_true_iff in Hall as [He Hall].
  rewrite (IH Hall). unfold has_operation in *.
  destruct op, other, (operation e); try discriminate; try reflexivity;
    contradiction.
Qed.

(** The batch entry point sorts only inserts, updates and deletes: a batch
    of truncate events reaches no connector call. *)
Lemma handle_batch_skips_truncate (self : GraphSyncHandler G)
    (events : list (ChangeEvent datetime)) (g : G) :
  forallb (has_operation TRUNCATE) events = true ->
  handle_batch self events g = (g, Ret tt).
Proof.
  intros Hall. unfold handle_batch.
  rewrite (filter_other_operation TRUNCATE INSERT events) by (discriminate || assumption).
  rewrite (filter_other_operation TRUNCATE UPDATE events) by (discriminate || assumption).
  rewrite (filter_other_operation TRUNCATE DELETE events) by (discriminate || assumption).
  reflexivity.
Qed.

(** The single-event entry point sends the label-wide delete statement
    for a truncate event on a mapped table. *)
Lemma handle_change_truncate (self : GraphSyncHandler G)
    (event : ChangeEvent datetime) (t : string) (nt : Schema.NodeType) (g : G) :
  operation event = TRUNCATE ->
  table event = PStr t ->
  table_map_get t (table_to_node_type self) = Some nt ->
  handle_change self event g =
    db_call (execute_query (graph_db self) (truncate_query (Schema.label nt)) None) g.
Proof.
  intros Hop Ht Hmap. unfold handle_change, _handle_truncate, node_type_of, hbind.
  rewrite Hop, Ht. cbn. rewrite Hmap. reflexivity.
Qed.

End Facts.

Import Example.

(** C2, as the code has it.  The table patients is in the handler's
    lookup and the store holds two Patient nodes.  Given the truncate event
    through [handle_change], the handler removes them; given the same event
    through [handle_batch], it returns without touching the store and both
    nodes remain. *)
Theorem handle_batch_leaves_truncated_nodes :
  can_handle Examples.patient_handler Examples.truncate_patients = Ret true /\
  MemGraph.nodes_of "Patient" Examples.clinic = [Examples.amy; Examples.bob] /\
  handle_change Examples.patient_handler Examples.truncate_patients Examples.clinic =
    ([Examples.ward], Ret tt) /\
  handle_batch Examples.patient_handler [Examples.truncate_patients] Examples.clinic =
    (Examples.clinic, Ret tt) /\
  MemGraph.nodes_of "Patient"
    (fst (handle_batch Examples.patient_handler [Examples.truncate_patients]
            Examples.clinic)) = [Examples.amy; Examples.bob].
Proof.
  repeat split; vm_compute; reflexivity.
Qed.

End HandlerFacts.

(** * The theorems at concrete inputs *)

Module Witnesses.
Import Py Base PostgresListener ListenerSpec Manager ManagerSpec Example Examples.

Lemma parse_maps_action_codes_witness :
  json_loads patients_payload = Ret patients_document /\
  (exists ev,
      snd (_parse_wal2json listener0 midnight patients_payload) = Some ev /\
      operation ev = INSERT /\
      table ev = PStr "patients" /\
      schema ev = PStr "public") /\
  snd (_parse_wal2json listener0 midnight begin_payload) = None.
Proof.
  split; [reflexivity|split].
  - destruct (ListenerFacts.parse_maps_action_codes listener0 midnight patients_payload
                patients_document patients_change "I" eq_refl eq_refl eq_refl)
      as [Hvalid _].
    destruct (Hvalid INSERT eq_refl eq_refl) as (ev & Hev & Hop & Htab & Hsch).
    exists ev. split; [exact Hev|split; [exact Hop|split]].
    + cbn in Htab. injection Htab as Htab. symmetry. exact Htab.
    + apply Hsch. reflexivity.
  - apply (ListenerFacts.parse_maps_action_codes listener0 midnight begin_payload
             (PDict begin_change) begin_change "B" eq_refl eq_refl eq_refl).
    left. reflexivity.
Defined.

Lemma primary_key_derivation_witness :
  json_loads patients_payload = Ret patients_document /\
  exists ev,
    snd (_parse_wal2json listener0 midnight patients_payload) = Some ev /\
    primary_key ev = spec_primary_key (old_data ev) (new_data ev) /\
    primary_key ev = Some [(PStr "id", PInt 7)].
Proof.
  split; [reflexivity|].
  destruct (ListenerFacts.primary_key_derivation listener0 midnight patients_payload)
    as [Hgeneral Hexample].
  destruct (Hexample eq_refl) as (ev & Hev & _ & _ & _ & _ & _ & Hkey).
  exists ev. split; [exact Hev|split; [|exact Hkey]].
  apply (Hgeneral patients_document patients_document ev eq_refl eq_refl Hev).
Defined.

Lemma parse_drops_malformed_witness :
  json_loads truncated_payload = Raise (Exn JSONDecodeError "Expecting value") /\
  snd (_parse_wal2json listener0 midnight truncated_payload) = None /\
  json_loads tableless_payload = Ret (PDict tableless_change) /\
  _parse_wal2json listener0 midnight tableless_payload =
    ([(WARNING, "No table name in wal2json output")], None) /\
  fst (_process_message listener0 garbled_message
         (fun e w => (w ++ [Delivered (table e)], None)) nothing) =
    (set_current_position (Some "23456789") listener0, [Feedback 23456789]).
Proof.
  split; [reflexivity|split; [|split; [reflexivity|split]]].
  - destruct (ListenerFacts.parse_drops_malformed listener0 midnight truncated_payload)
      as [Hjson _].
    rewrite (Hjson (Exn JSONDecodeError "Expecting value") eq_refl eq_refl).
    reflexivity.
  - destruct (ListenerFacts.parse_drops_malformed listener0 midnight tableless_payload)
      as [_ [Htable _]].
    destruct (Htable (PDict tableless_change) (PDict tableless_change)
                eq_refl eq_refl eq_refl) as (Hnone & _ & Hlog).
    specialize (Hlog "I" INSERT eq_refl eq_refl).
    destruct (_parse_wal2json listener0 midnight tableless_payload) as [log r].
    cbn in Hnone, Hlog. now subst.
  - destruct (ListenerFacts.parse_drops_malformed listener0 midnight truncated_payload)
      as [_ [_ Hmsg]].
    apply (Hmsg garbled_message). reflexivity.
Defined.




Lemma register_listener_keeps_failed_setup_witness :
  result (register_listener "replica" unprepared_listener true (manager 5 [] [] false)) =
    Some (Exn CDCSetupError "Failed to set up PostgreSQL CDC: wal_level must be logical") /\
  registered "replica"
    (listeners (mgr (final (register_listener "replica" unprepared_listener true
                              (manager 5 [] [] false))))) = true /\
  result (register_listener "replica" steady_listener false
            (final (register_listener "replica" unprepared_listener true
                      (manager 5 [] [] false)))) =
    Some (Exn CDCError "Listener 'replica' already registered").
Proof.
  destruct (ManagerFacts.register_listener_keeps_failed_setup
              (manager 5 [] [] false) "replica" unprepared_listener
              (Exn CDCSetupError "Failed to set up PostgreSQL CDC: wal_level must be logical")
              eq_refl eq_refl) as (Hraise & _ & Hkept & Hagain).
  split; [exact Hraise|split; [exact Hkept|]].
  rewrite (Hagain steady_listener false). reflexivity.
Defined.


End Witnesses.

(** * Dictionaries *)

Module PyFacts.
Import Py.

Lemma dict_get_set_str (n m : string) (v : pyval) (d : pydict) :
  dict_get (PStr n) (dict_set (PStr m) v d) =
    if String.eqb m n then Some v else dict_get (PStr n) d.
Proof.
  induction d as [|[k x] d IH]; cbn.
  - destruct (String.eqb m n); reflexivity.
  - destruct (key_eqb k (PStr m)) eqn:Hk; cbn.
    + destruct k; try discriminate Hk. cbn in Hk. apply String.eqb_eq in Hk. subst s.
      cbn. destruct (String.eqb m n); reflexivity.
    + rewrite IH. destruct (key_eqb k (PStr n)) eqn:Hn; [|reflexivity].
      destruct k; try discriminate Hn. cbn in Hk, Hn.
      apply String.eqb_eq in Hn. subst s. rewrite String.eqb_sym, Hk. reflexivity.
Qed.

Lemma dict_get_In (k : pyval) (d : pydict) (v : pyval) :
  dict_get k d = Some v -> In v (map snd d).
Proof.
  induction d as [|[k' x] d IH]; cbn; [discriminate|].
  destruct (key_eqb k' k); [intros [= ->]; now left|right; auto].
Qed.

Lemma key_eqb_str (k : pyval) (s : string) :
  key_eqb k (PStr s) = true -> k = PStr s.
Proof.
  destruct k; cbn; try discriminate. intros E. apply String.eqb_eq in E. now subst.
Qed.

End PyFacts.

(** * Further properties of the manager *)

Module ManagerMore.
Import Py Base Manager ManagerSpec ManagerRun ManagerFacts.

Section Facts.

Context `{Runtime}.

(** ** Reading traces piecewise *)

Lemma change_calls_app (t1 t2 : list action) :
  change_calls (t1 ++ t2) = change_calls t1 ++ change_calls t2.
Proof.
  induction t1 as [|a t1 IH]; [reflexivity|].
  destruct a; cbn; rewrite IH; reflexivity.
Qed.

Lemma processed_events_app (t1 t2 : list action) :
  processed_events (t1 ++ t2) = (processed_events t1 + processed_events t2)%Z.
Proof.
  induction t1 as [|a t1 IH]; [reflexivity|].
  destruct a as [| | | |i ev [e|]| |]; cbn -[Z.add]; rewrite IH; lia.
Qed.

Lemma returned_batches_app (t1 t2 : list action) :
  returned_batches (t1 ++ t2) = (returned_batches t1 + returned_batches t2)%Z.
Proof.
  induction t1 as [|a t1 IH]; [reflexivity|].
  destruct a as [| | | |i ev [e|]| |]; cbn -[Z.add]; rewrite IH; lia.
Qed.



(** ** The counters of [_process_batch] *)

Lemma batch_turn_counters (events : list Event) (i : nat) (h : CDCHandler) (s : sys) :
  let r := _process_batch_handler events i h s in
  let sub := filter (can_handle h) events in
  (events_processed (metrics (mgr (final r))) =
     events_processed (metrics (mgr s)) + processed_events (actions r))%Z /\
  (batches_processed (metrics (mgr (final r))) =
     batches_processed (metrics (mgr s)) + returned_batches (actions r))%Z /\
  events_received (metrics (mgr (final r))) = events_received (metrics (mgr s)) /\
  last_event_time (metrics (mgr (final r))) = last_event_time (metrics (mgr s)) /\
  (processed_events (actions r) + failed_events (actions r) = len sub)%Z.
Proof.
  cbn zeta. rewrite batch_turn_run. cbn zeta.
  destruct (filter (can_handle h) events) as [|x sub]; cbn.
  - repeat split; lia.
  - destruct (snd (handle_batch h (x :: sub) (world s))) as [e|];
      cbn -[len Z.add]; repeat split; lia.
Qed.

Lemma batch_loop_counters (events : list Event) (hs : list CDCHandler) :
  forall (i : nat) (s : sys),
    let r := for_handlers (_process_batch_handler events) i hs s in
    (events_processed (metrics (mgr (final r))) =
       events_processed (metrics (mgr s)) + processed_events (actions r))%Z /\
    (batches_processed (metrics (mgr (final r))) =
       batches_processed (metrics (mgr s)) + returned_batches (actions r))%Z /\
    events_received (metrics (mgr (final r))) = events_received (metrics (mgr s)) /\
    last_event_time (metrics (mgr (final r))) = last_event_time (metrics (mgr s)) /\
    (processed_events (actions r) + failed_events (actions r) =
       total_size (expected_calls events i hs))%Z.
Proof.
  induction hs as [|h hs IH]; intros i s; cbn zeta.
  - cbn. repeat split; lia.
  - rewrite for_handlers_cons. cbn [actions final fst snd].
    destruct (IH (S i) (final (_process_batch_handler events i h s)))
      as (Hp & Hb & Hr & Ht & Hsum).
    destruct (batch_turn_counters events i h s) as (Hp1 & Hb1 & Hr1 & Ht1 & Hsum1).
    rewrite processed_events_app, returned_batches_app, failed_events_app.
    repeat split; try congruence; try lia.
    cbn [expected_calls].
    destruct (filter (can_handle h) events) as [|x sub] eqn:Hf.
    + unfold len in Hsum1; cbn in Hsum1. lia.
    + cbn [total_size fold_right snd]. fold (total_size (expected_calls events (S i) hs)).
      lia.
Qed.


(** ** The single-event path *)










(** ** Ingestion and flush turns in sequence *)

Lemma process_batch_frame (events : list Event) (s : sys) :
  events <> [] ->
  let r := _process_batch events s in
  flushes (actions r) = [events] /\
  batch_calls (actions r) = expected_calls events 0 (handlers (mgr s)) /\
  change_calls (actions r) = [] /\
  exists x,
    mgr (final r) = set_metrics x (mgr s) /\
    events_received x = events_received (metrics (mgr s)).
Proof.
  intros Hne. cbn zeta. rewrite (process_batch_run events s Hne).
  cbn [actions final fst snd flushes batch_calls change_calls].
  rewrite batch_loop_flushes, batch_loop_calls.
  destruct (batch_loop_final events (handlers (mgr s)) 0 s) as [x Hx].
  destruct (batch_loop_counters events (handlers (mgr s)) 0 s) as (_ & _ & Hr & _).
  repeat split.
  - assert (Hc : forall hs i s0,
               change_calls (actions (for_handlers (_process_batch_handler events) i hs s0))
               = []).
    { induction hs as [|h hs IH]; intros i s0; [reflexivity|].
      rewrite for_handlers_cons. cbn [actions snd].
      rewrite change_calls_app, IH, batch_turn_actions.
      destruct (filter (can_handle h) events); reflexivity. }
    apply Hc.
  - exists x. split; [exact Hx|]. rewrite Hx in Hr. exact Hr.
Qed.

(** One delivery with batching enabled: the event goes to the end of the
    queue, and the queue is flushed whole when it has reached the batch
    size. *)
Lemma ingest_step (event : Event) (s : sys) :
  enable_batching (mgr s) = true ->
  let r := _handle_change event s in
  let q := event_queue (mgr s) ++ [event] in
  (exists x q', mgr (final r) = set_metrics x (set_event_queue q' (mgr s)) /\
                (events_received x = events_received (metrics (mgr s)) + 1)%Z) /\
  ((flushes (actions r) = [] /\ event_queue (mgr (final r)) = q /\
    (len q < batch_size (mgr s))%Z) \/
   (flushes (actions r) = [q] /\ event_queue (mgr (final r)) = [] /\
    (batch_size (mgr s) <= len q)%Z)).
Proof.
  intros Hb. cbn zeta. rewrite (handle_change_batching_run event s Hb). cbn zeta.
  destruct (batch_size (mgr s) <=? len (event_queue (mgr s) ++ [event]))%Z eqn:Hlen.
  - apply Z.leb_le in Hlen.
    assert (Hne : event_queue (mgr s) ++ [event] <> [])
      by (destruct (event_queue (mgr s)); discriminate).
    destruct (process_batch_frame (event_queue (mgr s) ++ [event])
                {| mgr := set_event_queue []
                            (count_received (datetime_now (world s)) (mgr s));
                   world := world s |} Hne) as (Hf & _ & _ & x & Hx & Hr).
    cbn [actions final fst snd app flushes]. rewrite flushes_app, Hf, Hx.
    split.
    + exists x, []. split; [reflexivity|]. rewrite Hr. reflexivity.
    + right. cbn. auto.
  - apply Z.leb_gt in Hlen. cbn [actions final fst snd mgr]. split.
    + eexists. eexists. split; [reflexivity|]. reflexivity.
    + left. cbn. auto.
Qed.

(** One turn of the flush thread: nothing before the timeout; afterwards
    the queue, if not empty, is flushed whole. *)
Lemma wake_step (current_time last_process_time : float) (s : sys) :
  let r := _batch_processor_turn current_time last_process_time s in
  (exists x q', mgr (final r) = set_metrics x (set_event_queue q' (mgr s)) /\
                events_received x = events_received (metrics (mgr s))) /\
  ((flushes (actions r) = [] /\ event_queue (mgr (final r)) = event_queue (mgr s)) \/
   (flushes (actions r) = [event_queue (mgr s)] /\ event_queue (mgr (final r)) = [] /\
    event_queue (mgr s) <> [])).
Proof.
  cbn zeta. rewrite batch_processor_turn_run.
  assert (Hsame : exists x q',
             mgr s = set_metrics x (set_event_queue q' (mgr s)) /\
             events_received x = events_received (metrics (mgr s))).
  { exists (metrics (mgr s)), (event_queue (mgr s)). split; [|reflexivity].
    destruct (mgr s); reflexivity. }
  destruct (PrimFloat.leb _ _); [|cbn; auto].
  destruct (event_queue (mgr s)) as [|x q] eqn:Hq; [cbn; auto|].
  cbn zeta. cbn [actions final fst snd flushes].
  assert (Hne : x :: q <> []) by discriminate.
  destruct (process_batch_frame (x :: q)
              {| mgr := set_event_queue [] (mgr s); world := world s |} Hne)
    as (Hf & _ & _ & y & Hy & Hr).
  rewrite flushes_app, Hf, Hy. split.
  - exists y, []. split; [reflexivity|exact Hr].
  - right. cbn. auto.
Qed.

(** X3.  Through any schedule of deliveries and flush-thread turns, with
    batching enabled, no event is lost, duplicated or reordered: the
    batches flushed so far, one after the other, followed by the queue,
    are the events that were queued at the start followed by the events
    delivered; and [events_received] has grown by the number of
    deliveries. *)
Theorem run_conserves_events :
  forall (steps : list step) (last_process_time : float) (s : sys),
    enable_batching (mgr s) = true ->
    let r := run steps last_process_time s in
    List.concat (flushes (actions r)) ++ event_queue (mgr (final r)) =
      event_queue (mgr s) ++ ingested steps /\
    (events_received (metrics (mgr (final r))) =
       events_received (metrics (mgr s)) + len (ingested steps))%Z.
Proof.
  induction steps as [|st steps IH]; intros last s Hb; cbn zeta.
  - cbn. rewrite app_nil_r. split; [reflexivity|lia].
  - destruct st as [event|current_time]; cbn [run ingested]; rewrite mbind_run;
      cbn [actions final fst snd]; rewrite flushes_app, concat_app.
    + destruct (ingest_step event s Hb) as ((x & q' & Hm & Hr) & Hcase).
      assert (Hb' : enable_batching (mgr (final (_handle_change event s))) = true)
        by (rewrite Hm; exact Hb).
      destruct (IH last (final (_handle_change event s)) Hb') as [Hq Hn].
      rewrite <- app_assoc, Hq. split.
      * destruct Hcase as [(-> & -> & _)|(-> & -> & _)]; cbn;
          rewrite <- ?app_assoc; reflexivity.
      * rewrite Hn, Hm. cbn [metrics set_metrics]. rewrite Hr.
        unfold len. cbn [List.length]. rewrite Nat2Z.inj_succ. lia.
    + destruct (wake_step current_time last s) as ((x & q' & Hm & Hr) & Hcase).
      assert (Hb' : enable_batching
                      (mgr (final (_batch_processor_turn current_time last s))) = true)
        by (rewrite Hm; exact Hb).
      destruct (IH (result (_batch_processor_turn current_time last s))
                   (final (_batch_processor_turn current_time last s)) Hb') as [Hq Hn].
      rewrite <- app_assoc, Hq. split.
      * destruct Hcase as [(-> & ->)|(-> & -> & _)]; cbn;
          rewrite ?app_nil_r; reflexivity.
      * rewrite Hn, Hm. cbn [metrics set_metrics]. rewrite Hr. reflexivity.
Qed.

(** X4.  With a batch size of at least one and a queue that starts below
    it, the queue stays below the batch size after every step of any
    schedule, and no batch handed to [_process_batch] is empty or larger
    than the batch size. *)
Theorem run_bounds_queue_and_batches :
  forall (steps : list step) (last_process_time : float) (s : sys),
    enable_batching (mgr s) = true ->
    (1 <= batch_size (mgr s))%Z ->
    (len (event_queue (mgr s)) < batch_size (mgr s))%Z ->
    let r := run steps last_process_time s in
    (len (event_queue (mgr (final r))) < batch_size (mgr s))%Z /\
    Forall (fun batch => batch <> [] /\ (len batch <= batch_size (mgr s))%Z)
           (flushes (actions r)).
Proof.
  induction steps as [|st steps IH]; intros last s Hb Hone Hq; cbn zeta.
  - cbn. auto.
  - destruct st as [event|current_time]; cbn [run]; rewrite mbind_run;
      cbn [actions final fst snd]; rewrite flushes_app.
    + destruct (ingest_step event s Hb) as ((x & q' & Hm & _) & Hcase).
      assert (Hsize : batch_size (mgr (final (_handle_change event s))) = batch_size (mgr s))
        by (rewrite Hm; reflexivity).
      assert (Hb' : enable_batching (mgr (final (_handle_change event s))) = true)
        by (rewrite Hm; exact Hb).
      assert (Hlen : (len (event_queue (mgr s) ++ [event]) =
                      len (event_queue (mgr s)) + 1)%Z)
        by (unfold len; rewrite length_app; cbn; lia).
      assert (Hq' : (len (event_queue (mgr (final (_handle_change event s)))) <
                     batch_size (mgr s))%Z).
      { destruct Hcase as [(_ & -> & Hlt)|(_ & -> & _)]; [exact Hlt|unfold len; cbn; lia]. }
      rewrite <- Hsize in Hq' at 1. rewrite <- Hsize in Hone.
      destruct (IH last (final (_handle_change event s)) Hb' Hone
                  ltac:(rewrite Hsize in *; exact Hq')) as [Hfin Hall].
      rewrite Hsize in *. split; [exact Hfin|]. apply Forall_app. split; [|exact Hall].
      destruct Hcase as [(-> & _)|(-> & _ & _)]; constructor; [|constructor].
      split; [destruct (event_queue (mgr s)); discriminate|lia].
    + destruct (wake_step current_time last s) as ((x & q' & Hm & _) & Hcase).
      assert (Hsize : batch_size (mgr (final (_batch_processor_turn current_time last s)))
                      = batch_size (mgr s)) by (rewrite Hm; reflexivity).
      assert (Hb' : enable_batching
                      (mgr (final (_batch_processor_turn current_time last s))) = true)
        by (rewrite Hm; exact Hb).
      assert (Hq' : (len (event_queue
                            (mgr (final (_batch_processor_turn current_time last s)))) <
                     batch_size (mgr s))%Z).
      { destruct Hcase as [(_ & ->)|(_ & -> & _)]; [exact Hq|unfold len; cbn; lia]. }
      rewrite <- Hsize in Hone.
      destruct (IH (result (_batch_processor_turn current_time last s))
                  (final (_batch_processor_turn current_time last s)) Hb' Hone
                  ltac:(rewrite Hsize in *; exact Hq')) as [Hfin Hall].
      rewrite Hsize in *. split; [exact Hfin|]. apply Forall_app. split; [|exact Hall].
      destruct Hcase as [(-> & _)|(-> & _ & Hne)]; constructor; [|constructor].
      split; [exact Hne|lia].
Qed.


(** ** Going through the listeners *)

Lemma for_listeners_world (f : CDCListener -> W -> W * option exn)
    (ls : list (string * CDCListener)) :
  forall s : sys,
    for_listeners f ls s =
      (tt, {| mgr := mgr s; world := after_listeners f ls (world s) |}, []).
Proof.
  induction ls as [|[name l] ls IH]; intros s.
  - destruct s; reflexivity.
  - cbn [for_listeners]. unfold mbind, call, after_listeners. cbn [fold_left snd].
    destruct (f l (world s)) as [w1 r]. rewrite IH. reflexivity.
Qed.


(** X6.  When the flush thread was never started, [stop_all] stops the
    listeners and nothing else: events still in the queue are not handed
    to any handler and stay in the queue. *)
Theorem stop_all_without_flush_thread :
  forall (s : sys) (in_flight : option (float * float)),
    batch_thread (mgr s) = false ->
    let r := stop_all in_flight s in
    mgr (final r) = mgr s /\
    world (final r) = after_listeners stop_streaming (listeners (mgr s)) (world s) /\
    actions r = [].
Proof.
  intros s in_flight Ht. cbn zeta.
  unfold stop_all. rewrite mbind_run. cbn [self result final actions fst snd app].
  rewrite mbind_run, for_listeners_world.
  cbn [result final actions fst snd app]. rewrite Ht. cbn. auto.
Qed.


(** X8.  [start_all] on an empty registry does nothing at all: no flush
    thread is started even when batching is enabled.  On a non-empty
    registry it starts every listener in registry order, whether or not an
    earlier one raised, and starts the flush thread exactly when batching
    is enabled, with the stop flag cleared.  It never touches the queue and
    calls no handler. *)
Theorem start_all_effect :
  forall s : sys,
    let r := start_all s in
    actions r = [] /\
    event_queue (mgr (final r)) = event_queue (mgr s) /\
    (listeners (mgr s) = [] -> final r = s) /\
    (listeners (mgr s) <> [] ->
     world (final r) = after_listeners start_streaming (listeners (mgr s)) (world s) /\
     batch_thread (mgr (final r)) = (enable_batching (mgr s) || batch_thread (mgr s)) /\
     (enable_batching (mgr s) = true -> stop_batching (mgr (final r)) = false)).
Proof.
  intros s. cbn zeta. unfold start_all. rewrite mbind_run.
  cbn [self result final actions fst snd app].
  destruct (listeners (mgr s)) as [|nl ls] eqn:Hl.
  - cbn. split; [reflexivity|split; [reflexivity|split; [reflexivity|]]].
    intros Hne. contradiction.
  - rewrite mbind_run, for_listeners_world.
    destruct (enable_batching (mgr s)) eqn:Hb.
    + unfold mbind, update. cbn.
      split; [reflexivity|split; [reflexivity|split; [discriminate|auto]]].
    + cbn. split; [reflexivity|split; [reflexivity|split; [discriminate|]]].
      intros _. split; [reflexivity|split; [reflexivity|discriminate]].
Qed.

(** ** The registry *)

Lemma registered_In (name : string) (ls : list (string * CDCListener)) :
  registered name ls = true <-> In name (map fst ls).
Proof.
  induction ls as [|[n l] ls IH]; cbn; [split; [discriminate|intros []]|].
  rewrite orb_true_iff, IH, String.eqb_eq. reflexivity.
Qed.

(** X9.  The registry keeps its names unique and is write-once:
    [register_listener] never replaces or removes an entry.  With a name
    already registered it raises the configuration error and changes
    nothing, not even the world; with a new name it appends the listener
    and, with automatic setup, runs its [setup] and lets its exception
    through. *)
Theorem register_listener_keeps_names_unique :
  forall (s : sys) (name : string) (listener : CDCListener) (auto_setup : bool),
    NoDup (map fst (listeners (mgr s))) ->
    let r := register_listener name listener auto_setup s in
    NoDup (map fst (listeners (mgr (final r)))) /\
    (forall n l, In (n, l) (listeners (mgr s)) -> In (n, l) (listeners (mgr (final r)))) /\
    (registered name (listeners (mgr s)) = true ->
     r = (Some (Exn CDCError ("Listener '" ++ name ++ "' already registered")), s, [])) /\
    (registered name (listeners (mgr s)) = false ->
     listeners (mgr (final r)) = listeners (mgr s) ++ [(name, listener)] /\
     result r = (if auto_setup then snd (setup listener (world s)) else None) /\
     world (final r) = (if auto_setup then fst (setup listener (world s)) else world s)).
Proof.
  intros s name listener auto_setup Hnodup. cbn zeta.
  destruct (registered name (listeners (mgr s))) eqn:Hreg.
  - assert (Hrun : register_listener name listener auto_setup s =
                   (Some (Exn CDCError ("Listener '" ++ name ++ "' already registered")),
                    s, [])).
    { unfold register_listener, mbind, self, ret. cbn. rewrite Hreg.
      destruct s; reflexivity. }
    rewrite Hrun. cbn [result final fst snd].
    split; [exact Hnodup|split; [auto|split; [reflexivity|discriminate]]].
  - assert (Hrun : register_listener name listener auto_setup s =
                   (if auto_setup then snd (setup listener (world s)) else None,
                    {| mgr := set_listeners (listeners (mgr s) ++ [(name, listener)]) (mgr s);
                       world := if auto_setup then fst (setup listener (world s))
                                else world s |}, [])).
    { unfold register_listener, mbind, self, update, call, ret. cbn.
      rewrite Hreg. cbn. rewrite (listeners_set_fresh name listener _ Hreg).
      destruct auto_setup; [|reflexivity].
      cbn. destruct (setup listener (world s)) as [w' [e|]]; reflexivity. }
    rewrite Hrun. cbn [result final fst snd mgr world listeners set_listeners].
    split; [|split; [|split; [discriminate|auto]]].
    + rewrite map_app. cbn. apply NoDup_app; [exact Hnodup|repeat constructor; intros []|].
      intros n Hin [<-|[]]. apply registered_In in Hin. congruence.
    + intros n l Hin. apply in_or_app. now left.
Qed.

(** ** Status *)

Lemma listener_statuses_run (ls : list (string * CDCListener)) :
  forall s : sys,
    let r := listener_statuses ls s in
    mgr (final r) = mgr s /\ actions r = [] /\
    map fst (result r) = map fst ls /\
    forall i name l,
      nth_error ls i = Some (name, l) ->
      exists w,
        nth_error (result r) i =
          Some (name, match snd (get_status l w) with
                      | Ret d => d
                      | Raise e => [(PStr "error", PStr (exn_str e))]
                      end).
Proof.
  induction ls as [|[n l0] ls IH]; intros s; cbn zeta.
  - cbn. repeat split; auto. intros [|i] name l Hn; discriminate.
  - cbn [listener_statuses]. unfold mbind, call, ret.
    destruct (get_status l0 (world s)) as [w1 st] eqn:Hst.
    destruct (IH {| mgr := mgr s; world := w1 |}) as (Hm & Ha & Hn & Hi).
    destruct (listener_statuses ls {| mgr := mgr s; world := w1 |}) as [[rest s2] t2].
    cbn in *. subst t2.
    split; [exact Hm|split; [reflexivity|split; [f_equal; exact Hn|]]].
    intros [|i] name l Hnth; cbn in *.
    + injection Hnth as <- <-. exists (world s). rewrite Hst. reflexivity.
    + apply Hi. exact Hnth.
Qed.

(** X10.  [get_status] changes nothing in the manager and takes no lock.
    It reports the registered listeners under their names in registry
    order, the handlers' class names in registration order, the metrics
    and the current queue size.  A listener whose own status call raises
    is reported as an error entry with the text of the exception, and the
    listeners after it are still reported. *)
Theorem get_status_reports_registry :
  forall s : sys,
    let r := manager_get_status s in
    mgr (final r) = mgr s /\
    actions r = [] /\
    map fst (status_listeners (result r)) = map fst (listeners (mgr s)) /\
    status_handlers (result r) = map class_name (handlers (mgr s)) /\
    status_metrics (result r) = metrics (mgr s) /\
    queue_size (batching (result r)) = len (event_queue (mgr s)) /\
    forall i name l,
      nth_error (listeners (mgr s)) i = Some (name, l) ->
      exists w,
        nth_error (status_listeners (result r)) i =
          Some (name, match snd (get_status l w) with
                      | Ret d => d
                      | Raise e => [(PStr "error", PStr (exn_str e))]
                      end).
Proof.
  intros s. cbn zeta.
  destruct (listener_statuses_run (listeners (mgr s)) s) as (Hm & Ha & Hn & Hi).
  unfold manager_get_status, mbind, self, ret. cbn -[listener_statuses].
  destruct (listener_statuses (listeners (mgr s)) s) as [[ls s1] t1].
  cbn in *. subst t1. repeat split; auto.
Qed.

End Facts.

End ManagerMore.

(** * Further properties of the listener *)

Module ListenerMore.
Import Py Base PostgresListener ListenerSpec ListenerRun ListenerFacts PyFacts.

Section Facts.

Context `{Runtime}.

(** ** What a parsed event looks like *)

(** Everything [parse_change] puts into an event, read back. *)
Lemma parse_change_event (self : PostgreSQLCDCListener) (now : datetime)
    (data change : pyval) (log : list log_entry) (ev : ChangeEvent datetime) :
  parse_change self now data change = Ret (log, Some ev) ->
  exists d action,
    change = PDict d /\
    log = [] /\
    action_of change = Ret action /\
    action_map_get action = Ret (Some (operation ev)) /\
    dict_get (PStr "table") d = Some (table ev) /\
    truthy (table ev) = true /\
    schema ev = match dict_get (PStr "schema") d with
                | Some s => s
                | None => PStr "public"
                end /\
    timestamp ev = match dict_get (PStr "timestamp") d with
                   | Some t => match date_parse t with Some x => x | None => now end
                   | None => now
                   end /\
    lsn ev = match dict_get (PStr "lsn") d with
             | Some l => if truthy l then l else opt_str (current_position self)
             | None => opt_str (current_position self)
             end /\
    meth_get data "xid" PNone = Ret (transaction_id ev) /\
    database_type ev = "postgres" /\
    ddl_statement ev = None /\
    position ev = None /\
    exists nextlsn,
      meth_get data "nextlsn" PNone = Ret nextlsn /\
      metadata ev = [(PStr "publication", PStr (publication_name self));
                     (PStr "slot", PStr (slot_name self));
                     (PStr "plugin", PStr "wal2json");
                     (PStr "nextlsn", nextlsn)].
Proof.
  unfold parse_change. intros Hp.
  destruct (action_of change) as [action|] eqn:Hact; cbn [bind] in Hp; [|discriminate].
  destruct (is_str "B" action || is_str "C" action); [discriminate|].
  destruct (action_map_get action) as [[op|]|] eqn:Hmap; cbn [bind] in Hp;
    try discriminate.
  destruct change as [| | | | | |d]; try discriminate Hact.
  unfold meth_get at 1 2 in Hp.
  exists d, action.
  destruct (dict_get (PStr "table") d) as [t|] eqn:Ht; cbn [bind] in Hp.
  2:{ destruct (dict_get (PStr "schema") d); cbn in Hp; discriminate. }
  assert (Hp' :
    (if negb (truthy t) then Ret ([(WARNING, "No table name in wal2json output")], None)
     else
       bind (optional_row (PDict d) "columns") (fun new_data =>
       bind (optional_row (PDict d) "identity") (fun old_data =>
       bind (str_in "timestamp" (PDict d)) (fun has_ts =>
       bind (if has_ts then
               bind (subscript_str (PDict d) "timestamp") (fun t0 =>
                 Ret (match date_parse t0 with Some x => x | None => now end))
             else Ret now) (fun ts =>
       bind (meth_get (PDict d) "lsn" PNone) (fun l =>
       bind (meth_get data "xid" PNone) (fun xid =>
       bind (meth_get data "nextlsn" PNone) (fun nextlsn =>
       Ret ([], Some
         {| operation := op; table := t;
            schema := match dict_get (PStr "schema") d with
                      | Some s => s | None => PStr "public" end;
            timestamp := ts; database_type := "postgres";
            old_data := old_data; new_data := new_data;
            primary_key := derive_primary_key old_data new_data;
            ddl_statement := None; transaction_id := xid;
            lsn := if truthy l then l else opt_str (current_position self);
            position := None;
            metadata :=
              [(PStr "publication", PStr (publication_name self));
               (PStr "slot", PStr (slot_name self));
               (PStr "plugin", PStr "wal2json");
               (PStr "nextlsn", nextlsn)] |})))))))))
    = Ret (log, Some ev)).
  { destruct (dict_get (PStr "schema") d); exact Hp. }
  clear Hp. destruct (truthy t) eqn:Htruthy; cbn [negb] in Hp'; [|discriminate].
  destruct (optional_row (PDict d) "columns") as [nd|]; cbn [bind] in Hp'; [|discriminate].
  destruct (optional_row (PDict d) "identity") as [od|]; cbn [bind] in Hp'; [|discriminate].
  unfold str_in, subscript_str, dict_has in Hp'. unfold meth_get at 1 in Hp'.
  destruct (meth_get data "xid" PNone) as [xid|] eqn:Hxid.
  2:{ destruct (dict_get (PStr "timestamp") d); destruct (dict_get (PStr "lsn") d);
      cbn in Hp'; discriminate. }
  destruct (meth_get data "nextlsn" PNone) as [nextlsn|] eqn:Hnext.
  2:{ destruct (dict_get (PStr "timestamp") d); destruct (dict_get (PStr "lsn") d);
      cbn in Hp'; discriminate. }
  destruct (dict_get (PStr "timestamp") d) as [t0|];
    destruct (dict_get (PStr "lsn") d) as [l|];
    cbn [bind] in Hp'; injection Hp' as <- <-; cbn;
    (repeat (split; [reflexivity || assumption|])); eauto.
Qed.

Lemma parse_wal2json_Some (self : PostgreSQLCDCListener) (now : datetime)
    (payload : string) (ev : ChangeEvent datetime) :
  snd (_parse_wal2json self now payload) = Some ev ->
  exists data change,
    json_loads payload = Ret data /\
    select_change data = Ret (Some change) /\
    parse_change self now data change = Ret ([], Some ev) /\
    fst (_parse_wal2json self now payload) = [].
Proof.
  unfold _parse_wal2json. intros Hev.
  destruct (parse_try self now payload) as [[log r]|e] eqn:Htry.
  - cbn in Hev. subst r. unfold parse_try in Htry.
    destruct (json_loads payload) as [data|] eqn:Hload; cbn [bind] in Htry;
      [|discriminate].
    destruct (select_change data) as [[change|]|] eqn:Hsel; cbn [bind] in Htry;
      try discriminate.
    exists data, change.
    destruct (parse_change_event _ _ _ _ _ _ Htry) as (d & a & _ & Hlog & _).
    subst log. repeat split; auto.
  - destruct (exn_cls e); discriminate.
Qed.

(** X11.  Whatever the payload, an event that [_parse_wal2json] returns
    has a table name that is not empty, one of the four row operations as
    given by the action code of its change record (never DDL), the source
    tag postgres and the plugin, slot and publication of the listener in
    its metadata; and the parser has logged nothing. *)
Theorem parsed_event_is_well_formed :
  forall (self : PostgreSQLCDCListener) (now : datetime) (payload : string)
         (ev : ChangeEvent datetime),
    snd (_parse_wal2json self now payload) = Some ev ->
    fst (_parse_wal2json self now payload) = [] /\
    truthy (table ev) = true /\
    operation ev <> DDL /\
    (exists data change action,
        json_loads payload = Ret data /\
        select_change data = Ret (Some change) /\
        action_of change = Ret action /\
        action_map_get action = Ret (Some (operation ev))) /\
    database_type ev = "postgres" /\
    ddl_statement ev = None /\
    dict_get (PStr "plugin") (metadata ev) = Some (PStr "wal2json") /\
    dict_get (PStr "slot") (metadata ev) = Some (PStr (slot_name self)) /\
    dict_get (PStr "publication") (metadata ev) = Some (PStr (publication_name self)).
Proof.
  intros self now payload ev Hev.
  destruct (parse_wal2json_Some self now payload ev Hev)
    as (data & change & Hload & Hsel & Hp & Hlog).
  destruct (parse_change_event _ _ _ _ _ _ Hp)
    as (d & action & -> & _ & Hact & Hmap & _ & Htruthy & _ & _ & _ & _ & Hdb & Hddl
        & _ & nextlsn & _ & Hmeta).
  split; [exact Hlog|split; [exact Htruthy|split; [|split; [|split; [exact Hdb|split;
    [exact Hddl|]]]]]].
  - unfold action_map_get in Hmap. destruct (hashable action); [|discriminate].
    injection Hmap as Hmap. intros Hddl'. rewrite Hddl' in Hmap.
    destruct (is_str "I" action); [discriminate|].
    destruct (is_str "U" action); [discriminate|].
    destruct (is_str "D" action); [discriminate|].
    destruct (is_str "T" action); discriminate.
  - exists (data), (PDict d), action. auto.
  - rewrite Hmeta. cbn. auto.
Qed.

(** X12.  The fields of a parsed event that have a fallback: the schema
    is public when the change record names none; the timestamp is the
    time of receipt when the record has none or when its text does not
    parse, and the parsed time otherwise; the lsn is that of the record
    when it has a non-empty one and the listener's current position
    otherwise; the transaction id is the [xid] of the payload. *)
Theorem parsed_event_fallbacks :
  forall (self : PostgreSQLCDCListener) (now : datetime) (payload : string)
         (data : pyval) (d : pydict) (ev : ChangeEvent datetime),
    json_loads payload = Ret data ->
    select_change data = Ret (Some (PDict d)) ->
    snd (_parse_wal2json self now payload) = Some ev ->
    (dict_get (PStr "schema") d = None -> schema ev = PStr "public") /\
    (dict_get (PStr "timestamp") d = None -> timestamp ev = now) /\
    (forall t, dict_get (PStr "timestamp") d = Some t ->
               timestamp ev = match date_parse t with Some x => x | None => now end) /\
    (forall l, dict_get (PStr "lsn") d = Some l -> truthy l = true -> lsn ev = l) /\
    (forall l, dict_get (PStr "lsn") d = Some l -> truthy l = false ->
               lsn ev = opt_str (current_position self)) /\
    (dict_get (PStr "lsn") d = None -> lsn ev = opt_str (current_position self)) /\
    meth_get data "xid" PNone = Ret (transaction_id ev).
Proof.
  intros self now payload data d ev Hload Hsel Hev.
  destruct (parse_wal2json_Some self now payload ev Hev)
    as (data' & change & Hload' & Hsel' & Hp & _).
  rewrite Hload in Hload'. injection Hload' as <-.
  rewrite Hsel in Hsel'. injection Hsel' as <-.
  destruct (parse_change_event _ _ _ _ _ _ Hp)
    as (d' & action & Hd & _ & _ & _ & _ & _ & Hschema & Hts & Hlsn & Hxid & _).
  injection Hd as <-.
  split; [intros Hn; now rewrite Hschema, Hn|].
  split; [intros Hn; now rewrite Hts, Hn|].
  split; [intros t Hn; now rewrite Hts, Hn|].
  split; [intros l Hn Ht; now rewrite Hlsn, Hn, Ht|].
  split; [intros l Hn Ht; now rewrite Hlsn, Hn, Ht|].
  split; [intros Hn; now rewrite Hlsn, Hn|exact Hxid].
Qed.

(** ** Envelopes *)

Lemma parse_change_data (self : PostgreSQLCDCListener) (now : datetime)
    (data data' change : pyval) :
  meth_get data "xid" PNone = meth_get data' "xid" PNone ->
  meth_get data "nextlsn" PNone = meth_get data' "nextlsn" PNone ->
  parse_change self now data change = parse_change self now data' change.
Proof.
  intros Hxid Hnext. unfold parse_change.
  destruct (action_of change) as [action|]; cbn [bind]; [|reflexivity].
  destruct (is_str "B" action || is_str "C" action); [reflexivity|].
  destruct (action_map_get action) as [[op|]|]; cbn [bind]; try reflexivity.
  destruct (meth_get change "schema" (PStr "public")) as [sc|]; cbn [bind]; [|reflexivity].
  destruct (meth_get change "table" PNone) as [t|]; cbn [bind]; [|reflexivity].
  destruct (negb (truthy t)); [reflexivity|].
  destruct (optional_row change "columns") as [nd|]; cbn [bind]; [|reflexivity].
  destruct (optional_row change "identity") as [od|]; cbn [bind]; [|reflexivity].
  destruct (str_in "timestamp" change) as [has|]; cbn [bind]; [|reflexivity].
  destruct (if has then _ else _) as [ts|]; cbn [bind]; [|reflexivity].
  destruct (meth_get change "lsn" PNone) as [l|]; cbn [bind]; [|reflexivity].
  rewrite Hxid, Hnext. reflexivity.
Qed.

(** X13.  Of a [change] envelope only the first change is parsed: two
    payloads whose envelopes start with the same change and that agree on
    [xid] and [nextlsn] give the same result, whatever changes follow.  An
    envelope without changes gives no event and no log record. *)
Theorem envelope_uses_first_change_only :
  forall (self : PostgreSQLCDCListener) (now : datetime),
    (forall (p1 p2 : string) (d1 d2 : pydict) (c : pyval) (rest1 rest2 : list pyval),
        json_loads p1 = Ret (PDict d1) ->
        json_loads p2 = Ret (PDict d2) ->
        dict_get (PStr "change") d1 = Some (PList (c :: rest1)) ->
        dict_get (PStr "change") d2 = Some (PList (c :: rest2)) ->
        dict_get (PStr "xid") d1 = dict_get (PStr "xid") d2 ->
        dict_get (PStr "nextlsn") d1 = dict_get (PStr "nextlsn") d2 ->
        _parse_wal2json self now p1 = _parse_wal2json self now p2) /\
    (forall (p : string) (d : pydict) (v : pyval),
        json_loads p = Ret (PDict d) ->
        dict_get (PStr "change") d = Some v ->
        truthy v = false ->
        _parse_wal2json self now p = ([], None)).
Proof.
  intros self now. split.
  - intros p1 p2 d1 d2 c rest1 rest2 H1 H2 Hc1 Hc2 Hxid Hnext.
    unfold _parse_wal2json, parse_try. rewrite H1, H2. cbn [bind].
    unfold select_change, str_in, dict_has, subscript_str.
    rewrite Hc1, Hc2. cbn [bind truthy negb subscript_0].
    rewrite (parse_change_data self now (PDict d1) (PDict d2) c);
      [reflexivity| |]; unfold meth_get; [rewrite Hxid|rewrite Hnext]; reflexivity.
  - intros p d v Hload Hc Hfalsy.
    unfold _parse_wal2json, parse_try. rewrite Hload. cbn [bind].
    unfold select_change, str_in, dict_has, subscript_str. rewrite Hc. cbn [bind].
    rewrite Hfalsy. reflexivity.
Qed.

(** ** Rows *)

Lemma build_row_items_reads (cols : list pyval) :
  forallb named_column cols = true ->
  forall acc, exists row,
    build_row_items cols acc = Ret row /\
    forall n,
      dict_get (PStr n) row =
        fold_left
          (fun found col =>
             match col with
             | PDict c =>
                 match dict_get (PStr "name") c with
                 | Some (PStr m) =>
                     if String.eqb m n then
                       Some (match dict_get (PStr "value") c with
                             | Some v => v
                             | None => PNone
                             end)
                     else found
                 | _ => found
                 end
             | _ => found
             end)
          cols (dict_get (PStr n) acc).
Proof.
  induction cols as [|col cols IH]; intros Hok acc.
  - exists acc. split; reflexivity.
  - cbn in Hok. apply andb_true_iff in Hok as [Hcol Hok].
    destruct col as [| | | | | |c]; try discriminate Hcol. cbn in Hcol.
    destruct (dict_get (PStr "name") c) as [[| | | |m| |]|] eqn:Hname;
      try discriminate Hcol.
    cbn [build_row_items subscript_str meth_get bind]. rewrite Hname. cbn [bind].
    set (v := match dict_get (PStr "value") c with Some x => x | None => PNone end).
    assert (Hv : (match dict_get (PStr "value") c with
                  | Some x => Ret x
                  | None => Ret PNone
                  end) = Ret v)
      by (unfold v; destruct (dict_get (PStr "value") c); reflexivity).
    rewrite Hv. cbn [bind hashable].
    destruct (IH Hok (dict_set (PStr m) v acc)) as (row & Hrow & Hget).
    exists row. split; [exact Hrow|].
    intros n. rewrite Hget, dict_get_set_str. cbn [fold_left]. rewrite Hname.
    fold v. reflexivity.
Qed.

(** X14.  The row built from a [columns] (or [identity]) array of objects
    with str names gives each name the value of the last column of that
    name, [None] when that column has no value, and has no other names:
    a lookup by name in [new_data] reads the array back. *)
Theorem row_reads_back_columns :
  forall (d : pydict) (key : string) (cols : list pyval),
    dict_get (PStr key) d = Some (PList cols) ->
    forallb named_column cols = true ->
    exists row,
      optional_row (PDict d) key = Ret (Some row) /\
      forall n, dict_get (PStr n) row = column_value_of n cols.
Proof.
  intros d key cols Hkey Hok.
  destruct (build_row_items_reads cols Hok []) as (row & Hrow & Hget).
  exists row. split.
  - unfold optional_row, str_in, dict_has, subscript_str, build_row.
    rewrite Hkey. cbn [bind py_iter]. rewrite Hrow. reflexivity.
  - intros n. rewrite Hget. reflexivity.
Qed.

(** ** The worker loop *)





End Facts.

End ListenerMore.

(** * Further properties of the graph-sync handler *)

Module HandlerMore.
Import Py Base Handlers HandlerSpec PyFacts HandlerFacts.

Section Facts.

Context `{Runtime}.
Variable G : Type.

(** ** The table map *)

Lemma table_map_get_set (t u : string) (nt : Schema.NodeType) (m : table_map) :
  table_map_get u (table_map_set t nt m) =
    if String.eqb t u then Some nt else table_map_get u m.
Proof.
  induction m as [|[t' nt'] m IH]; cbn.
  - reflexivity.
  - destruct (String.eqb t' t) eqn:Ht; cbn.
    + apply String.eqb_eq in Ht. subst t'. destruct (String.eqb t u); reflexivity.
    + rewrite IH. destruct (String.eqb t' u) eqn:Hu; [|reflexivity].
      apply String.eqb_eq in Hu. subst t'. rewrite String.eqb_sym, Ht. reflexivity.
Qed.

Lemma init_fold_lookup (t : string) (nts : list Schema.NodeType) (acc : table_map) :
  table_map_get t
    (fold_left
       (fun m nt =>
          match Schema.source_table nt with
          | Some t => if String.eqb t EmptyString then m else table_map_set t nt m
          | None => m
          end)
       nts acc) =
    if String.eqb t EmptyString then table_map_get t acc
    else match declared_for t nts with
         | Some nt => Some nt
         | None => table_map_get t acc
         end.
Proof.
  induction nts as [|nt nts IH] using rev_ind.
  - cbn. destruct (String.eqb t EmptyString); reflexivity.
  - rewrite fold_left_app. cbn [fold_left]. unfold declared_for.
    rewrite rev_app_distr. cbn [rev app find].
    destruct (Schema.source_table nt) as [s|] eqn:Hs.
    + destruct (String.eqb s EmptyString) eqn:Hse.
      * rewrite IH. destruct (String.eqb t EmptyString) eqn:Hte; [reflexivity|].
        apply String.eqb_eq in Hse. subst s.
        rewrite String.eqb_sym, Hte. reflexivity.
      * rewrite table_map_get_set.
        destruct (String.eqb s t) eqn:Hst.
        -- apply String.eqb_eq in Hst. subst s. rewrite Hse. reflexivity.
        -- rewrite IH. reflexivity.
    + rewrite IH. reflexivity.
Qed.

(** X17.  The handler built by [__init__] looks a table up to the last
    node type of the schema that names it as its source table; a node
    type with no source table or an empty one is never looked up. *)
Theorem init_last_declaration_wins :
  forall (db : GraphDatabaseConnector G) (schema : Schema.GraphSchema)
         (prefix t : string),
    table_map_get t (table_to_node_type (init db schema prefix)) =
      if String.eqb t EmptyString then None
      else declared_for t (Schema.node_types schema).
Proof.
  intros db schema prefix t. unfold init. cbn [table_to_node_type].
  rewrite init_fold_lookup. cbn.
  destruct (String.eqb t EmptyString); [reflexivity|].
  destruct (declared_for t (Schema.node_types schema)); reflexivity.
Qed.

(** X18.  [can_handle] accepts an event exactly when its table is a
    non-empty str that some node type of the schema names as its source
    table. *)
Theorem can_handle_iff_declared :
  forall (db : GraphDatabaseConnector G) (schema : Schema.GraphSchema)
         (prefix : string) (event : ChangeEvent datetime),
    can_handle (init db schema prefix) event = Ret true <->
    exists t nt,
      table event = PStr t /\ t <> EmptyString /\
      In nt (Schema.node_types schema) /\ Schema.source_table nt = Some t.
Proof.
  intros db schema prefix event. unfold can_handle.
  destruct (table event) as [| | | |t| |] eqn:Ht; cbn;
    try (split; [discriminate|intros (t' & nt & Hx & _); discriminate Hx]).
  pose proof (init_fold_lookup t (Schema.node_types schema) []) as Hl.
  cbn [table_map_get] in Hl. cbn. rewrite Hl. clear Hl.
  destruct (String.eqb t EmptyString) eqn:Hte.
  - apply String.eqb_eq in Hte. subst t.
    split; [discriminate|]. intros (t' & nt & [= <-] & Hne & _). now elim Hne.
  - unfold declared_for.
    destruct (find _ (rev (Schema.node_types schema))) as [nt|] eqn:Hf.
    + split; [intros _|reflexivity].
      apply find_some in Hf. destruct Hf as [Hin Hs].
      apply in_rev in Hin.
      destruct (Schema.source_table nt) as [s|] eqn:Hsrc; [|discriminate].
      apply String.eqb_eq in Hs. subst s.
      exists t, nt. repeat split; auto.
      intros ->. discriminate Hte.
    + split; [discriminate|]. intros (t' & nt & [= <-] & Hne & Hin & Hsrc).
      apply in_rev in Hin.
      apply (find_none _ _ Hf) in Hin. rewrite Hsrc, String.eqb_refl in Hin.
      discriminate Hin.
Qed.

(** ** Properties sent to the graph *)

Lemma prepare_fold_reads (d : pydict) (n : string) (props : list Schema.Property) :
  forall acc : pydict,
    dict_get (PStr n)
      (fold_left
         (fun props prop =>
            match dict_get (PStr (Schema.name prop)) d with
            | Some PNone | None => props
            | Some value => dict_set (PStr (Schema.name prop)) value props
            end)
         props acc) =
      if existsb (fun p => String.eqb (Schema.name p) n) props
      then match dict_get (PStr n) d with
           | Some PNone | None => dict_get (PStr n) acc
           | Some v => Some v
           end
      else dict_get (PStr n) acc.
Proof.
  induction props as [|p props IH]; intros acc; [reflexivity|].
  cbn [fold_left existsb]. rewrite IH. clear IH.
  destruct (String.eqb (Schema.name p) n) eqn:Hp.
  - apply String.eqb_eq in Hp. rewrite Hp. cbn [orb].
    destruct (dict_get (PStr n) d) as [v|] eqn:Hv.
    + destruct v; rewrite ?dict_get_set_str, ?String.eqb_refl;
        destruct (existsb _ props); reflexivity.
    + destruct (existsb _ props); reflexivity.
  - cbn [orb].
    assert (Hacc : dict_get (PStr n)
                     match dict_get (PStr (Schema.name p)) d with
                     | Some PNone | None => acc
                     | Some value => dict_set (PStr (Schema.name p)) value acc
                     end = dict_get (PStr n) acc).
    { destruct (dict_get (PStr (Schema.name p)) d) as [v|]; [|reflexivity].
      destruct v; rewrite ?dict_get_set_str, ?Hp; reflexivity. }
    rewrite Hacc. reflexivity.
Qed.

(** X19.  [_prepare_properties] projects the row onto the node type: a
    name is in the result exactly when the node type declares it and the
    row has a value other than None for it, and it then has that value. *)
Theorem prepare_properties_projects :
  forall (data : option pydict) (nt : Schema.NodeType) (n : string),
    dict_get (PStr n) (_prepare_properties data nt) =
      if existsb (fun p => String.eqb (Schema.name p) n) (Schema.properties nt)
      then match data with
           | Some d =>
               match dict_get (PStr n) d with
               | Some PNone | None => None
               | Some v => Some v
               end
           | None => None
           end
      else None.
Proof.
  intros data nt n. unfold _prepare_properties.
  destruct data as [[|kv d]|].
  - cbn. destruct (existsb _ _); reflexivity.
  - rewrite prepare_fold_reads. cbn [dict_get].
    destruct (existsb _ _); reflexivity.
  - cbn. destruct (existsb _ _); reflexivity.
Qed.

(** ** Keys *)

Lemma usable_pk_truthy (event : ChangeEvent datetime) (nt : Schema.NodeType)
    (pk : string) (v : pyval) :
  usable_pk event nt = Some (pk, v) ->
  truthy v = true /\
  exists epk, primary_key event = Some epk /\ In v (map snd epk).
Proof.
  unfold usable_pk.
  destruct (primary_key event) as [[|kv epk]|]; try discriminate.
  destruct (Schema.primary_key nt) as [k|]; try discriminate.
  destruct (String.eqb k EmptyString); try discriminate.
  destruct (dict_get (PStr k) (kv :: epk)) as [x|] eqn:Hx; try discriminate.
  destruct (truthy x) eqn:Ht; try discriminate.
  intros [= <- <-]. split; [exact Ht|].
  eexists. split; [reflexivity|]. eapply dict_get_In. exact Hx.
Qed.

(** X20.  An update or a delete whose key values are all falsy (0, an
    empty string, False, None) never reaches the connector: the handler
    returns without a call and without an exception, whatever the schema
    says. *)
Theorem falsy_key_is_skipped :
  forall (self : GraphSyncHandler G) (event : ChangeEvent datetime) (g : G),
    operation event = UPDATE \/ operation event = DELETE ->
    hashable (table event) = true ->
    (forall epk v,
        primary_key event = Some epk -> In v (map snd epk) -> truthy v = false) ->
    handle_change self event g = (g, Ret tt).
Proof.
  intros self event g Hop Hh Hfalsy.
  assert (Hno : forall nt, usable_pk event nt = None).
  { intros nt. destruct (usable_pk event nt) as [[pk v]|] eqn:Hu; [|reflexivity].
    apply usable_pk_truthy in Hu. destruct Hu as (Ht & epk & Hepk & Hin).
    rewrite (Hfalsy epk v Hepk Hin) in Ht. discriminate Ht. }
  unfold handle_change.
  destruct Hop as [-> | ->].
  - unfold _handle_update, hbind, node_type_of. rewrite Hh. cbn.
    destruct (match table event with PStr t => _ | _ => None end);
      [rewrite Hno|]; reflexivity.
  - unfold _handle_delete, hbind, node_type_of. rewrite Hh. cbn.
    destruct (match table event with PStr t => _ | _ => None end);
      [rewrite Hno|]; reflexivity.
Qed.

(** ** Batches *)

Lemma for_each_app {A : Type} (f : A -> H_ G unit) (l1 l2 : list A) (g : G) :
  for_each G f (l1 ++ l2) g = hbind G (for_each G f l1) (fun _ => for_each G f l2) g.
Proof.
  revert g. induction l1 as [|x l1 IH]; intros g; [reflexivity|].
  cbn [app for_each]. unfold hbind.
  destruct (f x g) as [g' [[]|e]]; [|reflexivity].
  rewrite IH. reflexivity.
Qed.

Lemma for_each_ext {A : Type} (f f' : A -> H_ G unit) (l : list A) :
  (forall x, In x l -> forall g, f x g = f' x g) ->
  forall g, for_each G f l g = for_each G f' l g.
Proof.
  induction l as [|x l IH]; intros Hf g; [reflexivity|].
  cbn [for_each]. unfold hbind. rewrite (Hf x (or_introl eq_refl)).
  destruct (f' x g) as [g' [[]|e]]; [|reflexivity].
  apply IH. intros y Hy. apply Hf. now right.
Qed.

Lemma batch_update_as_changes (self : GraphSyncHandler G)
    (events : list (ChangeEvent datetime)) (g : G) :
  match filter (has_operation UPDATE) events with
  | [] => hret tt
  | _ :: _ => _batch_update self (filter (has_operation UPDATE) events)
  end g =
  for_each G (handle_change self) (filter (has_operation UPDATE) events) g.
Proof.
  transitivity (_batch_update self (filter (has_operation UPDATE) events) g).
  - destruct (filter (has_operation UPDATE) events); reflexivity.
  - unfold _batch_update. apply for_each_ext. intros x Hx g1.
    apply filter_In in Hx. destruct Hx as [_ Hx].
    unfold has_operation in Hx. unfold handle_change.
    destruct (operation x); try discriminate Hx. reflexivity.
Qed.

Lemma batch_delete_as_changes (self : GraphSyncHandler G)
    (events : list (ChangeEvent datetime)) (g : G) :
  match filter (has_operation DELETE) events with
  | [] => hret tt
  | _ :: _ => _batch_delete self (filter (has_operation DELETE) events)
  end g =
  for_each G (handle_change self) (filter (has_operation DELETE) events) g.
Proof.
  transitivity (_batch_delete self (filter (has_operation DELETE) events) g).
  - destruct (filter (has_operation DELETE) events); reflexivity.
  - unfold _batch_delete. apply for_each_ext. intros x Hx g1.
    apply filter_In in Hx. destruct Hx as [_ Hx].
    unfold has_operation in Hx. unfold handle_change.
    destruct (operation x); try discriminate Hx. reflexivity.
Qed.

Lemma handle_batch_steps (self : GraphSyncHandler G)
    (events : list (ChangeEvent datetime)) (g : G) :
  handle_batch self events g =
    hbind G (_batch_insert self (filter (has_operation INSERT) events))
      (fun _ =>
         hbind G (for_each G (handle_change self) (filter (has_operation UPDATE) events))
           (fun _ =>
              for_each G (handle_change self) (filter (has_operation DELETE) events))) g.
Proof.
  unfold handle_batch, hbind.
  assert (Hi : match filter (has_operation INSERT) events with
               | [] => hret tt
               | _ :: _ => _batch_insert self (filter (has_operation INSERT) events)
               end g = _batch_insert self (filter (has_operation INSERT) events) g).
  { destruct (filter (has_operation INSERT) events); reflexivity. }
  rewrite Hi.
  destruct (_batch_insert self (filter (has_operation INSERT) events) g) as [g1 [[]|e]];
    [|reflexivity].
  rewrite batch_update_as_changes.
  destruct (for_each G (handle_change self) (filter (has_operation UPDATE) events) g1)
    as [g2 [[]|e]]; [|reflexivity].
  apply batch_delete_as_changes.
Qed.

(** X21.  [handle_batch] regroups the batch by kind: first all inserts,
    by table, then every update and then every delete, each as
    [handle_change] would handle it and in the order of arrival.  The
    order between events of different kinds is not kept, and an event of
    another kind is not handled. *)
Theorem handle_batch_regroups :
  forall (self : GraphSyncHandler G) (events : list (ChangeEvent datetime)) (g : G),
    handle_batch self events g =
      hbind G (_batch_insert self (filter (has_operation INSERT) events))
        (fun _ =>
           for_each G (handle_change self)
             (filter (has_operation UPDATE) events ++
              filter (has_operation DELETE) events)) g.
Proof.
  intros self events g. rewrite handle_batch_steps. unfold hbind.
  destruct (_batch_insert self (filter (has_operation INSERT) events) g) as [g1 [[]|e]];
    [|reflexivity].
  rewrite for_each_app. reflexivity.
Qed.

(** ** Tables without a node type *)

Lemma table_name_key_eqb (a b : pyval) :
  key_eqb a b = true -> table_name a = table_name b.
Proof.
  destruct a, b; cbn; try discriminate; try reflexivity.
  intros E. apply String.eqb_eq in E. now subst.
Qed.

Lemma node_type_of_run (self : GraphSyncHandler G) (t : pyval) (g : G) :
  hashable t = true ->
  node_type_of self t g =
    (g, Ret match table_name t with
            | Some s => table_map_get s (table_to_node_type self)
            | None => None
            end).
Proof.
  intros Hh. unfold node_type_of. rewrite Hh. destruct t; reflexivity.
Qed.

Lemma can_handle_false (self : GraphSyncHandler G) (event : ChangeEvent datetime) :
  can_handle self event = Ret false ->
  hashable (table event) = true /\
  match table_name (table event) with
  | Some s => table_map_get s (table_to_node_type self)
  | None => None
  end = None.
Proof.
  unfold can_handle. destruct (hashable (table event)); [|discriminate].
  intros [= Hc]. split; [reflexivity|].
  destruct (table event); try reflexivity. cbn.
  destruct (table_map_get s (table_to_node_type self)); [discriminate|reflexivity].
Qed.

Lemma handle_change_unmapped (self : GraphSyncHandler G)
    (event : ChangeEvent datetime) (g : G) :
  can_handle self event = Ret false ->
  handle_change self event g = (g, Ret tt).
Proof.
  intros Hc. apply can_handle_false in Hc. destruct Hc as [Hh Hn].
  unfold handle_change, _handle_insert, _handle_update, _handle_delete,
    _handle_truncate, hbind.
  destruct (operation event); rewrite ?(node_type_of_run self _ g Hh), ?Hn; reflexivity.
Qed.

Lemma group_add_ok (event : ChangeEvent datetime)
    (groups : list (pyval * list (ChangeEvent datetime))) :
  hashable (table event) = true ->
  groups_ok groups -> groups_ok (group_add (table event) event groups).
Proof.
  intros Hh. unfold groups_ok.
  induction groups as [|[t es] groups IH]; intros Hok; cbn.
  - repeat constructor; auto. discriminate.
  - inversion Hok as [|x l (Ht & Hne & Hes) Hl]; subst. cbn in Ht, Hne, Hes.
    destruct (key_eqb t (table event)) eqn:Hk.
    + constructor; [|exact Hl]. cbn. split; [exact Ht|split].
      * destruct es; discriminate.
      * apply Forall_app. split; [exact Hes|].
        constructor; [|constructor]. symmetry. now apply table_name_key_eqb.
    + constructor; [|now apply IH]. cbn. auto.
Qed.

Lemma group_add_perm (t : pyval) (event : ChangeEvent datetime)
    (groups : list (pyval * list (ChangeEvent datetime))) :
  Permutation (List.concat (map snd (group_add t event groups)))
              (List.concat (map snd groups) ++ [event]).
Proof.
  induction groups as [|[t' es] groups IH]; cbn.
  - apply Permutation_refl.
  - destruct (key_eqb t' t); cbn.
    + rewrite <- !app_assoc. apply Permutation_app_head.
      apply Permutation_app_comm.
    + rewrite <- app_assoc. apply Permutation_app_head. exact IH.
Qed.

Lemma group_by_table_run (events : list (ChangeEvent datetime)) :
  forallb (fun e => hashable (table e)) events = true ->
  forall (groups : list (pyval * list (ChangeEvent datetime))) (g : G),
    groups_ok groups ->
    exists groups',
      group_by_table G events groups g = (g, Ret groups') /\
      groups_ok groups' /\
      Permutation (List.concat (map snd groups'))
                  (List.concat (map snd groups) ++ events).
Proof.
  induction events as [|e events IH]; intros Hh groups g Hok.
  - exists groups. cbn. rewrite app_nil_r. auto using Permutation_refl.
  - cbn in Hh. apply andb_true_iff in Hh. destruct Hh as [He Hh].
    cbn [group_by_table]. rewrite He.
    destruct (IH Hh (group_add (table e) e groups) g (group_add_ok e groups He Hok))
      as (groups' & Hrun & Hok' & Hperm).
    exists groups'. split; [exact Hrun|split; [exact Hok'|]].
    eapply Permutation_trans; [exact Hperm|].
    change (e :: events) with ([e] ++ events). rewrite app_assoc.
    apply Permutation_app_tail. apply group_add_perm.
Qed.

Lemma batch_groups_unmapped (self : GraphSyncHandler G)
    (groups : list (pyval * list (ChangeEvent datetime))) (g : G) :
  groups_ok groups ->
  Forall (fun e => can_handle self e = Ret false) (List.concat (map snd groups)) ->
  for_each G
    (fun '(t, table_events) =>
       hbind G (node_type_of self t)
         (fun node_type =>
            match node_type with
            | None => hret tt
            | Some nt =>
                let nodes :=
                  map (fun event => _prepare_properties (new_data event) nt)
                      table_events in
                match nodes with
                | [] => hret tt
                | _ :: _ =>
                    db_call (batch_create_nodes (graph_db self) (Schema.label nt) nodes)
                end
            end))
    groups g = (g, Ret tt).
Proof.
  induction groups as [|[t es] groups IH]; intros Hok Hun; [reflexivity|].
  inversion Hok as [|x l (Ht & Hne & Hes) Hl]; subst. cbn in Ht, Hne, Hes.
  cbn in Hun. apply Forall_app in Hun. destruct Hun as [Hun1 Hun2].
  cbn [for_each]. unfold hbind at 1 2. rewrite (node_type_of_run self t g Ht).
  destruct es as [|e es]; [now elim Hne|].
  inversion Hun1 as [|? ? Hc _]; subst. inversion Hes as [|? ? Hn _]; subst.
  apply can_handle_false in Hc. destruct Hc as [_ Hc]. rewrite Hn in Hc. rewrite Hc.
  cbn. apply IH; assumption.
Qed.

(** X22.  Events of tables the handler has no node type for never reach
    the connector, one at a time or as a batch: the handler returns
    without a call and without an exception. *)
Theorem unmapped_never_reaches_connector :
  forall (self : GraphSyncHandler G) (events : list (ChangeEvent datetime)) (g : G),
    Forall (fun e => can_handle self e = Ret false) events ->
    handle_batch self events g = (g, Ret tt) /\
    for_each G (handle_change self) events g = (g, Ret tt).
Proof.
  intros self events g Hun.
  assert (Hseq : forall l, Forall (fun e => can_handle self e = Ret false) l ->
                           for_each G (handle_change self) l g = (g, Ret tt)).
  { induction l as [|e l IH]; intros Hl; [reflexivity|].
    inversion Hl as [|? ? He Hl']; subst.
    cbn [for_each]. unfold hbind. rewrite (handle_change_unmapped self e g He).
    now apply IH. }
  assert (Hsub : forall op, Forall (fun e => can_handle self e = Ret false)
                                   (filter (has_operation op) events)).
  { intros op. apply Forall_forall. intros e He. apply filter_In in He.
    destruct He as [He _]. revert e He. now apply Forall_forall. }
  split; [|now apply Hseq].
  rewrite handle_batch_steps. unfold hbind at 1.
  assert (Hins : _batch_insert self (filter (has_operation INSERT) events) g = (g, Ret tt)).
  { unfold _batch_insert. unfold hbind at 1.
    destruct (group_by_table_run (filter (has_operation INSERT) events)) with
      (groups := @nil (pyval * list (ChangeEvent datetime))) (g := g)
      as (groups' & Hrun & Hok & Hperm).
    - apply forallb_forall. intros e He.
      pose proof (Hsub INSERT) as Hs. rewrite Forall_forall in Hs.
      apply Hs in He. now apply can_handle_false in He.
    - constructor.
    - rewrite Hrun. apply batch_groups_unmapped; [exact Hok|].
      apply Forall_forall. intros e He.
      apply (Permutation_in _ Hperm) in He. cbn in He.
      pose proof (Hsub INSERT) as Hs. rewrite Forall_forall in Hs. now apply Hs. }
  rewrite Hins. unfold hbind. rewrite (Hseq _ (Hsub UPDATE)). apply Hseq. apply Hsub.
Qed.

End Facts.

(** ** Batch inserts in the reference store *)

Section Reference.

Context `{Runtime}.

Variable self : GraphSyncHandler MemGraph.store.
Hypothesis Hdb : graph_db self = MemGraph.connector.

Lemma batch_create_reference (label : string) (nodes : list pydict)
    (g : MemGraph.store) :
  db_call (batch_create_nodes (graph_db self) label nodes) g =
    (g ++ map (fun props =>
                 {| MemGraph.node_label := label; MemGraph.node_props := props |})
              nodes,
     Ret tt).
Proof. rewrite Hdb. reflexivity. Qed.

Lemma handle_insert_reference (event : ChangeEvent datetime) (g : MemGraph.store) :
  hashable (table event) = true ->
  _handle_insert self event g = (g ++ node_of_insert self event, Ret tt).
Proof.
  intros Hh. unfold _handle_insert, hbind.
  rewrite (node_type_of_run _ self _ g Hh). unfold node_of_insert.
  destruct (table_name (table event)) as [s|]; [|now rewrite app_nil_r].
  destruct (table_map_get s (table_to_node_type self)) as [nt|]; [|now rewrite app_nil_r].
  rewrite Hdb. reflexivity.
Qed.

Lemma inserts_reference (events : list (ChangeEvent datetime)) :
  forallb (fun e => hashable (table e)) events = true ->
  forall g : MemGraph.store,
    for_each MemGraph.store (_handle_insert self) events g =
      (g ++ flat_map (node_of_insert self) events, Ret tt).
Proof.
  induction events as [|e events IH]; intros Hh g.
  - cbn. now rewrite app_nil_r.
  - cbn in Hh. apply andb_true_iff in Hh. destruct Hh as [He Hh].
    cbn [for_each flat_map]. unfold hbind. rewrite (handle_insert_reference e g He).
    rewrite (IH Hh). now rewrite app_assoc.
Qed.

Lemma batch_groups_reference
    (groups : list (pyval * list (ChangeEvent datetime))) :
  groups_ok groups ->
  forall g : MemGraph.store,
    for_each MemGraph.store
      (fun '(t, table_events) =>
         hbind MemGraph.store (node_type_of self t)
           (fun node_type =>
              match node_type with
              | None => hret tt
              | Some nt =>
                  let nodes :=
                    map (fun event => _prepare_properties (new_data event) nt)
                        table_events in
                  match nodes with
                  | [] => hret tt
                  | _ :: _ =>
                      db_call (batch_create_nodes (graph_db self) (Schema.label nt) nodes)
                  end
              end))
      groups g =
      (g ++ flat_map (node_of_insert self) (List.concat (map snd groups)), Ret tt).
Proof.
  induction groups as [|[t es] groups IH]; intros Hok g.
  - cbn. now rewrite app_nil_r.
  - inversion Hok as [|x l (Ht & Hne & Hes) Hl]; subst. cbn in Ht, Hne, Hes.
    cbn [for_each map snd List.concat]. unfold hbind at 1 2.
    rewrite (node_type_of_run _ self t g Ht).
    assert (Hnodes : flat_map (node_of_insert self) es =
                     match table_name t with
                     | Some s =>
                         match table_map_get s (table_to_node_type self) with
                         | Some nt =>
                             map (fun props =>
                                    {| MemGraph.node_label := Schema.label nt;
                                       MemGraph.node_props := props |})
                                 (map (fun event =>
                                         _prepare_properties (new_data event) nt) es)
                         | None => []
                         end
                     | None => []
                     end).
    { clear - Hes. induction Hes as [|e es He Hes IHes].
      - cbn. destruct (table_name t) as [s|]; [|reflexivity].
        destruct (table_map_get s (table_to_node_type self)); reflexivity.
      - cbn [flat_map]. rewrite IHes. unfold node_of_insert. rewrite He.
        destruct (table_name t) as [s|]; [|reflexivity].
        destruct (table_map_get s (table_to_node_type self)); reflexivity. }
    rewrite flat_map_app, Hnodes.
    destruct (table_name t) as [s|].
    + destruct (table_map_get s (table_to_node_type self)) as [nt|].
      * destruct es as [|e es]; [now elim Hne|].
        cbn [map]. rewrite batch_create_reference.
        rewrite (IH Hl). cbn [map]. now rewrite app_assoc.
      * cbn. now rewrite (IH Hl).
    + cbn. now rewrite (IH Hl).
Qed.

(** X23.  With the reference store as graph database, a batch of inserts
    creates the nodes that inserting the events one at a time creates,
    each once, after the nodes that were there; only their order can
    differ, since the batch path creates them table by table. *)
Theorem batch_insert_creates_same_nodes :
  forall (events : list (ChangeEvent datetime)) (g : MemGraph.store),
    forallb (fun e => hashable (table e)) events = true ->
    exists created,
      _batch_insert self events g = (g ++ created, Ret tt) /\
      for_each MemGraph.store (_handle_insert self) events g =
        (g ++ flat_map (node_of_insert self) events, Ret tt) /\
      Permutation created (flat_map (node_of_insert self) events).
Proof.
  intros events g Hh.
  destruct (group_by_table_run MemGraph.store events Hh [] g)
    as (groups & Hrun & Hok & Hperm); [constructor|].
  exists (flat_map (node_of_insert self) (List.concat (map snd groups))).
  split; [|split].
  - unfold _batch_insert. unfold hbind at 1. rewrite Hrun.
    apply batch_groups_reference. exact Hok.
  - apply inserts_reference. exact Hh.
  - cbn in Hperm. clear - Hperm.
    induction Hperm; cbn.
    + apply Permutation_refl.
    + now apply Permutation_app_head.
    + rewrite !app_assoc. apply Permutation_app_tail. apply Permutation_app_comm.
    + eapply Permutation_trans; eassumption.
Qed.

End Reference.

End HandlerMore.

(** * Properties of the embedding-sync handler *)

Module EmbeddingMore.
Import Py Base Handlers EmbeddingHandlers.

Section Facts.

Context `{Runtime}.
Variables S V I : Type.
Variable isoformat : datetime -> string.
Variable index_add : list V -> I -> I * option exn.

Lemma add_vectors_metadata (vectors : list V) (metadata : list pydict)
    (store : VectorStore I) :
  store_metadata (fst (add_vectors index_add vectors metadata store)) =
    store_metadata store ++
      match snd (add_vectors index_add vectors metadata store) with
      | None => metadata
      | Some _ => []
      end /\
  (snd (add_vectors index_add vectors metadata store) = None ->
   List.length vectors = List.length metadata).
Proof.
  unfold add_vectors.
  destruct (Nat.eqb (List.length vectors) (List.length metadata)) eqn:Hl.
  - apply Nat.eqb_eq in Hl.
    destruct (index_add vectors (index store)) as [i [e|]]; cbn;
      rewrite ?app_nil_r; auto.
  - cbn. rewrite app_nil_r. split; [reflexivity|discriminate].
Qed.

Lemma gather_run (self : EmbeddingSyncHandler S V)
    (events : list (ChangeEvent datetime)) :
  forall texts metadatas texts' metadatas',
    gather isoformat self events texts metadatas = Ret (texts', metadatas') ->
    texts' = texts ++ flat_map (batch_text self) events /\
    metadatas' = metadatas ++ flat_map (batch_metadata isoformat self) events.
Proof.
  induction events as [|e events IH]; intros texts metadatas texts' metadatas'.
  - cbn. intros [= <- <-]. now rewrite !app_nil_r.
  - cbn [gather flat_map]. unfold batch_text, batch_metadata, embedded.
    destruct (operation e) eqn:Hop;
      try (intros Hg; apply IH in Hg; exact Hg);
      (destruct (hashable (table e)); [|discriminate]);
      (destruct (lookup self (table e)) as [nt|];
         [|intros Hg; apply IH in Hg; exact Hg]);
      (destruct (new_data e) as [[|kv d]|];
         try (intros Hg; apply IH in Hg; exact Hg));
      intros Hg; apply IH in Hg; cbn [app]; rewrite <- !app_assoc in Hg; exact Hg.
Qed.

(** X24.  [EmbeddingSyncHandler.handle_batch] changes the stored metadata
    all at once or not at all: when it returns, the store has gained one
    entry for every insert or update of a table with a node type whose row
    is not empty, in the order of the batch, each with the name of the
    operation; when it raises, the metadata is what it was.  What it sends
    to the embedding service is one request with the texts of those
    events. *)
Theorem embedding_batch_all_or_nothing :
  forall (self : EmbeddingSyncHandler S V) (events : list (ChangeEvent datetime))
         (s : S) (store : VectorStore I),
    let '(s', store', r) := handle_batch isoformat index_add self events (s, store) in
    store_metadata store' =
      store_metadata store ++
        match r with
        | Ret _ => flat_map (batch_metadata isoformat self) events
        | Raise _ => []
        end /\
    (r = Ret tt ->
     flat_map (batch_text self) events <> [] ->
     exists embeddings,
       embed_texts (embedding_service self) (flat_map (batch_text self) events) s =
         (s', Ret embeddings) /\
       List.length embeddings =
         List.length (flat_map (batch_metadata isoformat self) events)).
Proof.
  intros self events s store. unfold handle_batch.
  destruct (gather isoformat self events [] []) as [[texts metadatas]|e] eqn:Hg.
  - apply gather_run in Hg. cbn [app] in Hg. destruct Hg as [-> ->].
    destruct (flat_map (batch_text self) events) as [|text texts] eqn:Ht.
    + split; [|intros _ Hne; now elim Hne].
      assert (Hm : flat_map (batch_metadata isoformat self) events = []).
      { clear - Ht. induction events as [|e events IH]; [reflexivity|].
        cbn [flat_map] in *. apply app_eq_nil in Ht. destruct Ht as [Hte Ht].
        rewrite (IH Ht), app_nil_r. unfold batch_text, batch_metadata in *.
        destruct (embedded self e) as [[nt d]|]; [discriminate Hte|reflexivity]. }
      rewrite Hm, app_nil_r. reflexivity.
    + destruct (embed_texts (embedding_service self) (text :: texts) s)
        as [s' [embeddings|e]] eqn:He.
      * pose proof (add_vectors_metadata embeddings
                      (flat_map (batch_metadata isoformat self) events) store) as Ha.
        destruct (add_vectors index_add embeddings
                    (flat_map (batch_metadata isoformat self) events) store)
          as [store' [e|]]; cbn [fst snd] in Ha; destruct Ha as [Ha Hlen].
        -- split; [exact Ha|discriminate].
        -- split; [exact Ha|]. intros _ _. exists embeddings.
           split; [reflexivity|]. now apply Hlen.
      * split; [now rewrite app_nil_r|discriminate].
  - split; [now rewrite app_nil_r|discriminate].
Qed.

Lemma handle_change_appends (self : EmbeddingSyncHandler S V)
    (event : ChangeEvent datetime) (s : S) (store : VectorStore I) :
  exists added,
    store_metadata (snd (fst (handle_change isoformat index_add self event (s, store)))) =
      store_metadata store ++ added /\
    List.length added <=
      List.length (filter (fun e => has_operation INSERT e || has_operation UPDATE e)
                          [event]) /\
    Forall (fun m => map fst m = [PStr "table"; PStr "label"; PStr "timestamp"]) added.
Proof.
  assert (Hnone : exists added : list pydict,
             store_metadata store = store_metadata store ++ added /\
             List.length added <=
               List.length (filter (fun e => has_operation INSERT e || has_operation UPDATE e)
                                   [event]) /\
             Forall (fun m => map fst m = [PStr "table"; PStr "label"; PStr "timestamp"])
                    added).
  { exists []. rewrite app_nil_r. repeat split; [apply Nat.le_0_l|constructor]. }
  assert (Hins : operation event = INSERT \/ operation event = UPDATE ->
                 exists added,
                   store_metadata
                     (snd (fst (_handle_insert isoformat index_add self event (s, store)))) =
                     store_metadata store ++ added /\
                   List.length added <=
                     List.length
                       (filter (fun e => has_operation INSERT e || has_operation UPDATE e)
                               [event]) /\
                   Forall (fun m => map fst m = [PStr "table"; PStr "label"; PStr "timestamp"])
                          added).
  { intros Hop. unfold _handle_insert.
    destruct (hashable (table event)); [|exact Hnone].
    destruct (lookup self (table event)) as [nt|]; [|exact Hnone].
    destruct (new_data event) as [[|kv d]|]; try exact Hnone.
    destruct (embed_text (embedding_service self) _ s) as [s' [embedding|e]];
      [|exact Hnone].
    match goal with
    | |- context [add_vectors index_add ?vs ?ms store] =>
        pose proof (add_vectors_metadata vs ms store) as Ha;
        destruct (add_vectors index_add vs ms store) as [store' [e|]]
    end; cbn [fst snd] in Ha |- *; destruct Ha as [Ha _].
    - exists []. rewrite Ha. repeat split; [apply Nat.le_0_l|constructor].
    - eexists. split; [exact Ha|]. split.
      + cbn [filter]. unfold has_operation.
        destruct Hop as [-> | ->]; cbn; apply Nat.le_refl.
      + constructor; [reflexivity|constructor]. }
  unfold handle_change, _handle_update.
  destruct (operation event) eqn:Hop; auto.
Qed.

(** X25.  Handling events one at a time only ever appends to the stored
    metadata, also when an event raises: at most one entry for each insert
    or update, none for a delete, a truncate or a schema change, so that
    an update leaves the entry of the insert in place and a delete removes
    nothing.  An entry added this way has the keys table, label and
    timestamp, without the operation that the batch path records. *)
Theorem embedding_sync_only_appends :
  forall (self : EmbeddingSyncHandler S V) (events : list (ChangeEvent datetime))
         (s : S) (store : VectorStore I),
    exists added,
      store_metadata (snd (fst (handle_each isoformat index_add self events (s, store)))) =
        store_metadata store ++ added /\
      List.length added <=
        List.length (filter (fun e => has_operation INSERT e || has_operation UPDATE e)
                            events) /\
      Forall (fun m => map fst m = [PStr "table"; PStr "label"; PStr "timestamp"]) added.
Proof.
  intros self events. induction events as [|e events IH]; intros s store.
  - exists []. cbn. rewrite app_nil_r. repeat split; [apply Nat.le_0_l|constructor].
  - cbn [handle_each].
    destruct (handle_change_appends self e s store) as (a1 & Hm1 & Hl1 & Hk1).
    destruct (handle_change isoformat index_add self e (s, store))
      as [[s1 store1] [[]|x]]; cbn [fst snd] in Hm1.
    + destruct (IH s1 store1) as (a2 & Hm2 & Hl2 & Hk2).
      exists (a1 ++ a2). rewrite Hm2, Hm1, app_assoc. split; [reflexivity|].
      split; [|now apply Forall_app].
      rewrite length_app. cbn [filter] in Hl1 |- *.
      destruct (has_operation INSERT e || has_operation UPDATE e);
        cbn [List.length] in *; lia.
    + exists a1. cbn [fst snd]. split; [exact Hm1|]. split; [|exact Hk1].
      cbn [filter] in Hl1 |- *.
      destruct (has_operation INSERT e || has_operation UPDATE e);
        cbn [List.length] in *; lia.
Qed.

End Facts.

End EmbeddingMore.

(** * The further theorems at concrete inputs *)

Module MoreWitnesses.
Import Py Base PostgresListener ListenerSpec ListenerRun Manager ManagerSpec ManagerRun.
Import Example Examples MoreExamples.

(** ** Manager *)


Lemma run_conserves_events_witness :
  enable_batching (mgr (manager 2 [embedding_sync] [] true)) = true /\
  List.concat (flushes (actions (run schedule 0 (manager 2 [embedding_sync] [] true)))) ++
    event_queue (mgr (final (run schedule 0 (manager 2 [embedding_sync] [] true)))) =
    [e1; e2; e3].
Proof.
  split; [reflexivity|].
  apply (ManagerMore.run_conserves_events schedule 0 (manager 2 [embedding_sync] [] true)
           eq_refl).
Defined.

Lemma run_bounds_queue_and_batches_witness :
  (len (event_queue (mgr (final (run schedule 0 (manager 2 [embedding_sync] [] true)))))
     < 2)%Z.
Proof.
  assert (Hsize : (1 <= batch_size (mgr (manager 2 [embedding_sync] [] true)))%Z)
    by (cbn; lia).
  apply (ManagerMore.run_bounds_queue_and_batches schedule 0
           (manager 2 [embedding_sync] [] true) eq_refl Hsize eq_refl).
Defined.


Lemma stop_all_without_flush_thread_witness :
  batch_thread (mgr (manager 5 [embedding_sync] [e1; e2] false)) = false /\
  event_queue (mgr (final (stop_all None (manager 5 [embedding_sync] [e1; e2] false)))) =
    [e1; e2] /\
  actions (stop_all None (manager 5 [embedding_sync] [e1; e2] false)) = [].
Proof.
  split; [reflexivity|].
  destruct (ManagerMore.stop_all_without_flush_thread
              (manager 5 [embedding_sync] [e1; e2] false) None eq_refl) as (Hm & _ & Ha).
  split; [rewrite Hm; reflexivity|exact Ha].
Defined.


Lemma start_all_effect_witness :
  listeners (mgr (manager 5 [embedding_sync] [e1; e2] false)) <> [] /\
  batch_thread (mgr (final (start_all (manager 5 [embedding_sync] [e1; e2] false)))) = true /\
  event_queue (mgr (final (start_all (manager 5 [embedding_sync] [e1; e2] false)))) =
    [e1; e2].
Proof.
  assert (Hsome : listeners (mgr (manager 5 [embedding_sync] [e1; e2] false)) <> [])
    by discriminate.
  destruct (ManagerMore.start_all_effect (manager 5 [embedding_sync] [e1; e2] false))
    as (_ & Hqueue & _ & Hstart).
  destruct (Hstart Hsome) as (_ & Hthread & _).
  split; [exact Hsome|split; [exact Hthread|exact Hqueue]].
Defined.

Lemma register_listener_keeps_names_unique_witness :
  NoDup (map fst (listeners (mgr (manager 5 [] [] false)))) /\
  NoDup (map fst (listeners (mgr (final
    (register_listener "replica" steady_listener true (manager 5 [] [] false)))))) /\
  result (register_listener "pg" unprepared_listener true (manager 5 [] [] false)) =
    Some (Exn CDCError "Listener 'pg' already registered").
Proof.
  assert (Hnodup : NoDup (map fst (listeners (mgr (manager 5 [] [] false))))).
  { cbn. constructor; [intros []|constructor]. }
  split; [exact Hnodup|split].
  - apply (ManagerMore.register_listener_keeps_names_unique (manager 5 [] [] false)
             "replica" steady_listener true Hnodup).
  - destruct (ManagerMore.register_listener_keeps_names_unique (manager 5 [] [] false)
                "pg" unprepared_listener true Hnodup) as (_ & _ & Hdup & _).
    rewrite (Hdup eq_refl). reflexivity.
Defined.

Lemma get_status_reports_registry_witness :
  nth_error (listeners (mgr started_manager)) 0 = Some ("pg", steady_listener) /\
  exists w,
    nth_error (status_listeners (result (manager_get_status started_manager))) 0 =
      Some ("pg", match snd (get_status steady_listener w) with
                  | Ret d => d
                  | Raise e => [(PStr "error", PStr (exn_str e))]
                  end).
Proof.
  split; [reflexivity|].
  destruct (ManagerMore.get_status_reports_registry started_manager)
    as (_ & _ & _ & _ & _ & _ & Hentry).
  apply (Hentry 0%nat "pg" steady_listener). reflexivity.
Defined.

(** ** Listener *)

Lemma parsed_event_is_well_formed_witness :
  snd (_parse_wal2json listener0 midnight patients_payload) = Some patients_event /\
  truthy (table patients_event) = true /\
  dict_get (PStr "slot") (metadata patients_event) = Some (PStr "graph_sync_slot").
Proof.
  split; [reflexivity|].
  destruct (ListenerMore.parsed_event_is_well_formed listener0 midnight patients_payload
              patients_event eq_refl) as (_ & Htable & _ & _ & _ & _ & _ & Hslot & _).
  split; [exact Htable|exact Hslot].
Defined.

Lemma parsed_event_fallbacks_witness :
  json_loads patients_payload = Ret patients_document /\
  select_change patients_document = Ret (Some (PDict patients_change)) /\
  timestamp patients_event = midnight /\
  lsn patients_event = PNone.
Proof.
  split; [reflexivity|split; [reflexivity|]].
  destruct (ListenerMore.parsed_event_fallbacks listener0 midnight patients_payload
              patients_document patients_change patients_event eq_refl eq_refl eq_refl)
    as (_ & Htime & _ & _ & _ & Hlsn & _).
  split; [apply Htime; reflexivity|apply Hlsn; reflexivity].
Defined.

Lemma envelope_uses_first_change_only_witness :
  json_loads one_change_payload = Ret (PDict (envelope [insert_patient])) /\
  json_loads two_change_payload = Ret (PDict (envelope [insert_patient; delete_visit])) /\
  _parse_wal2json listener0 midnight one_change_payload =
    _parse_wal2json listener0 midnight two_change_payload /\
  _parse_wal2json listener0 midnight no_change_payload = ([], None).
Proof.
  split; [reflexivity|split; [reflexivity|]].
  destruct (ListenerMore.envelope_uses_first_change_only listener0 midnight)
    as [Hfirst Hnone].
  split.
  - apply (Hfirst one_change_payload two_change_payload
             (envelope [insert_patient]) (envelope [insert_patient; delete_visit])
             insert_patient [] [delete_visit]); reflexivity.
  - apply (Hnone no_change_payload (envelope []) (PList [])); reflexivity.
Defined.

Lemma row_reads_back_columns_witness :
  forallb named_column patients_columns = true /\
  exists row,
    optional_row patients_document "columns" = Ret (Some row) /\
    dict_get (PStr "name") row = Some (PStr "Amy") /\
    dict_get (PStr "age") row = None.
Proof.
  split; [reflexivity|].
  destruct (ListenerMore.row_reads_back_columns patients_change "columns" patients_columns
              eq_refl eq_refl) as (row & Hrow & Hread).
  exists row. split; [exact Hrow|]. rewrite !Hread. split; reflexivity.
Defined.



(** ** Graph-sync handler *)

Lemma can_handle_iff_declared_witness :
  Handlers.can_handle patient_handler e1 = Ret true /\
  Handlers.can_handle patient_handler e2 <> Ret true.
Proof.
  split.
  - apply (HandlerMore.can_handle_iff_declared (H := runtime) MemGraph.store MemGraph.connector
             clinic_schema EmptyString e1).
    exists "patients", patient_type.
    split; [reflexivity|split; [discriminate|split; [left; reflexivity|reflexivity]]].
  - intros Hyes.
    apply (HandlerMore.can_handle_iff_declared (H := runtime) MemGraph.store MemGraph.connector
             clinic_schema EmptyString e2) in Hyes.
    destruct Hyes as (t & nt & Htable & _ & [<-|[]] & Hsource).
    cbn in Htable, Hsource. congruence.
Defined.

Lemma falsy_key_is_skipped_witness :
  truthy (PInt 0) = false /\
  Handlers.handle_change patient_handler (keyed UPDATE 0) clinic = (clinic, Ret tt) /\
  Handlers.handle_change patient_handler (keyed DELETE 0) clinic = (clinic, Ret tt).
Proof.
  split; [reflexivity|split].
  - apply (HandlerMore.falsy_key_is_skipped (H := runtime) MemGraph.store patient_handler
             (keyed UPDATE 0) clinic (or_introl eq_refl) eq_refl).
    intros epk v [= <-] [<-|[]]. reflexivity.
  - apply (HandlerMore.falsy_key_is_skipped (H := runtime) MemGraph.store patient_handler
             (keyed DELETE 0) clinic (or_intror eq_refl) eq_refl).
    intros epk v [= <-] [<-|[]]. reflexivity.
Defined.

Lemma unmapped_never_reaches_connector_witness :
  Handlers.can_handle patient_handler e2 = Ret false /\
  Handlers.handle_batch patient_handler [e2; event_on "visits" DELETE] clinic =
    (clinic, Ret tt).
Proof.
  split; [reflexivity|].
  apply (HandlerMore.unmapped_never_reaches_connector (H := runtime) MemGraph.store patient_handler
           [e2; event_on "visits" DELETE] clinic).
  repeat constructor.
Defined.

Lemma batch_insert_creates_same_nodes_witness :
  Handlers.graph_db patient_handler = MemGraph.connector /\
  exists created,
    Handlers._batch_insert patient_handler [keyed INSERT 7; e2; keyed INSERT 8] [ward] =
      (ward :: created, Ret tt) /\
    List.length created = 2%nat.
Proof.
  split; [reflexivity|].
  destruct (HandlerMore.batch_insert_creates_same_nodes (H := runtime) patient_handler eq_refl
              [keyed INSERT 7; e2; keyed INSERT 8] [ward] eq_refl)
    as (created & Hbatch & _ & Hperm).
  exists created. split; [exact Hbatch|].
  apply Permutation_length in Hperm. exact Hperm.
Defined.

(** ** Embedding-sync handler *)

Lemma embedding_batch_all_or_nothing_witness :
  snd (EmbeddingHandlers.handle_batch format_datetime counting_index patient_embedder
         [keyed INSERT 7; keyed DELETE 7; keyed UPDATE 7] ([], empty_store)) = Ret tt /\
  List.length
    (EmbeddingHandlers.store_metadata
       (snd (fst (EmbeddingHandlers.handle_batch format_datetime counting_index
                    patient_embedder
                    [keyed INSERT 7; keyed DELETE 7; keyed UPDATE 7]
                    ([], empty_store))))) = 2%nat.
Proof.
  pose proof (EmbeddingMore.embedding_batch_all_or_nothing (H := runtime) (list string) nat nat
                format_datetime counting_index patient_embedder
                [keyed INSERT 7; keyed DELETE 7; keyed UPDATE 7] [] empty_store) as Hbatch.
  destruct (EmbeddingHandlers.handle_batch (H := runtime) format_datetime counting_index
              patient_embedder
              [keyed INSERT 7; keyed DELETE 7; keyed UPDATE 7] ([], empty_store))
    as [[s' store'] r] eqn:Hrun.
  destruct Hbatch as [Hmeta _].
  assert (Hr : r = Ret tt).
  { apply (f_equal snd) in Hrun. cbn in Hrun. symmetry. exact Hrun. }
  split; [exact Hr|]. cbn [fst snd]. rewrite Hmeta, Hr. reflexivity.
Defined.

End MoreWitnesses.
